(** * Excel AI assistant: the action-exchange protocol, embedded and verified

    A shallow embedding of the TypeScript services of the add-in
    (storageService, excelService, llmService and the response handling of
    ChatInterface) together with the properties of its specification.

    JavaScript strings are sequences of UTF-16 code units, modelled as
    [list N]; JavaScript values of type [any] are modelled by [JS.value];
    code that can throw returns a [JS.result]; code that talks to the
    spreadsheet host or to the network threads an explicit log of the calls
    it issued. *)

From Stdlib Require Import ZArith NArith List Lia String Ascii Bool DecimalString.
From stdpp Require Import gmap.
Import ListNotations.

Set Warnings "-register-all".
Local Open Scope N_scope.

(** A JavaScript string: its UTF-16 code units. *)
Abbreviation jsstring := (list N).

(** * JavaScript strings *)
Module Str.

(** The code units of an ASCII literal of the source. *)
Definition lit (s : string) : jsstring :=
  map N_of_ascii (list_ascii_of_string s).

(** A literal of the source in which ['] is written for the double quote. *)
Definition json (s : string) : jsstring :=
  map (fun c => if c =? 39 then 34 else c) (lit s).

Definition eqb (a b : jsstring) : bool := bool_decide (a = b).

(** [WhiteSpace] and [LineTerminator] code units: the class [\s] of regular
    expressions and the characters removed by [String.prototype.trim]. *)
Definition is_space (c : N) : bool :=
  (9 <=? c) && (c <=? 13) || (c =? 32) || (c =? 160) || (c =? 5760)
  || (8192 <=? c) && (c <=? 8202) || (c =? 8232) || (c =? 8233)
  || (c =? 8239) || (c =? 8287) || (c =? 12288) || (c =? 65279).

Fixpoint trimStart (s : jsstring) : jsstring :=
  match s with
  | c :: r => if is_space c then trimStart r else s
  | [] => []
  end.

Definition trimEnd (s : jsstring) : jsstring := rev (trimStart (rev s)).

(** [s.trim()] *)
Definition trim (s : jsstring) : jsstring := trimEnd (trimStart s).

(** [s.startsWith(p)] *)
Fixpoint startsWith (p s : jsstring) : bool :=
  match p, s with
  | [], _ => true
  | a :: p', b :: s' => (a =? b) && startsWith p' s'
  | _ :: _, [] => false
  end.

(** Splits [s] at the first occurrence of [p]: the text before it and the
    text after it. [None] when [p] does not occur. *)
Fixpoint splitAt (p s : jsstring) : option (jsstring * jsstring) :=
  if startsWith p s then Some ([], skipn (length p) s)
  else match s with
       | [] => None
       | c :: r => match splitAt p r with
                   | Some (pre, post) => Some (c :: pre, post)
                   | None => None
                   end
       end.

(** [s.includes(p)] *)
Definition includes (p s : jsstring) : bool :=
  match splitAt p s with Some _ => true | None => false end.

(** [parts.join(sep)] on strings. *)
Fixpoint join (sep : jsstring) (parts : list jsstring) : jsstring :=
  match parts with
  | [] => []
  | [p] => p
  | p :: rest => p ++ sep ++ join sep rest
  end.

(** Decimal digits of a natural number, as [String(n)] prints an integer. *)
Definition ofN (n : N) : jsstring :=
  lit (NilEmpty.string_of_uint (N.to_uint n)).

Definition ofZ (z : Z) : jsstring :=
  match z with
  | Zneg p => 45 :: ofN (Npos p)
  | _ => ofN (Z.to_N z)
  end.

End Str.

(** * [btoa] and [atob] *)
Module Base64.

Definition alphabet : jsstring :=
  Str.lit "ABCDEFGHIJKLMNOPQRSTUVWXYZabcdefghijklmnopqrstuvwxyz0123456789+/".

(** The character of a 6-bit group. *)
Definition enc (x : N) : N := nth (N.to_nat x) alphabet 0.

(** The 6-bit group of a character of the alphabet. *)
Definition dec (c : N) : option N :=
  if (65 <=? c) && (c <=? 90) then Some (c - 65)
  else if (97 <=? c) && (c <=? 122) then Some (c - 71)
  else if (48 <=? c) && (c <=? 57) then Some (c + 4)
  else if c =? 43 then Some 62
  else if c =? 47 then Some 63
  else None.

Definition pad : N := 61.

Fixpoint encode (bytes : list N) : jsstring :=
  match bytes with
  | [] => []
  | [a] =>
      [enc (N.shiftr a 2); enc (N.shiftl (N.land a 3) 4); pad; pad]
  | [a; b] =>
      [enc (N.shiftr a 2);
       enc (N.lor (N.shiftl (N.land a 3) 4) (N.shiftr b 4));
       enc (N.shiftl (N.land b 15) 2); pad]
  | a :: b :: c :: rest =>
      enc (N.shiftr a 2)
      :: enc (N.lor (N.shiftl (N.land a 3) 4) (N.shiftr b 4))
      :: enc (N.lor (N.shiftl (N.land b 15) 2) (N.shiftr c 6))
      :: enc (N.land c 63)
      :: encode rest
  end.

(** [btoa(s)]: throws [InvalidCharacterError] (here [None]) when a code unit
    is above U+00FF. *)
Definition btoa (s : jsstring) : option jsstring :=
  if forallb (fun c => c <? 256) s then Some (encode s) else None.

Definition is_ascii_whitespace (c : N) : bool :=
  (c =? 9) || (c =? 10) || (c =? 12) || (c =? 13) || (c =? 32).

(** Removes one or two trailing [=]. *)
Definition strip_padding (s : jsstring) : jsstring :=
  match rev s with
  | 61 :: 61 :: r => rev r
  | 61 :: r => rev r
  | _ => s
  end.

Fixpoint sextets (s : jsstring) : option (list N) :=
  match s with
  | [] => Some []
  | c :: r =>
      match dec c, sextets r with
      | Some x, Some xs => Some (x :: xs)
      | _, _ => None
      end
  end.

(** Groups of four 6-bit values give three bytes; a last group of three
    gives two bytes and a last group of two gives one, the left-over bits
    being discarded. *)
Fixpoint decode (xs : list N) : list N :=
  match xs with
  | x1 :: x2 :: x3 :: x4 :: rest =>
      N.lor (N.shiftl x1 2) (N.shiftr x2 4)
      :: N.lor (N.shiftl (N.land x2 15) 4) (N.shiftr x3 2)
      :: N.lor (N.shiftl (N.land x3 3) 6) x4
      :: decode rest
  | [x1; x2; x3] =>
      [N.lor (N.shiftl x1 2) (N.shiftr x2 4);
       N.lor (N.shiftl (N.land x2 15) 4) (N.shiftr x3 2)]
  | [x1; x2] => [N.lor (N.shiftl x1 2) (N.shiftr x2 4)]
  | _ => []
  end.

(** [atob(s)], the forgiving base64 decoding of the HTML standard: ASCII
    whitespace is removed, padding is removed when the length is a multiple
    of four, a length of 1 modulo 4 or a character outside the alphabet
    throws (here [None]). *)
Definition atob (s : jsstring) : option jsstring :=
  let s1 := List.filter (fun c => negb (is_ascii_whitespace c)) s in
  let s2 := if N.of_nat (length s1) mod 4 =? 0 then strip_padding s1 else s1 in
  if N.of_nat (length s2) mod 4 =? 1 then None
  else match sextets s2 with
       | Some xs => Some (decode xs)
       | None => None
       end.

End Base64.


(** * JavaScript values *)
Module JS.

(** A value of type [any] as the services meet it: what [JSON.parse] can
    produce, [undefined], and the inherited methods that a property read can
    return. A number is the decimal [m * 10^e]; the rounding of IEEE doubles
    is not modelled. *)
Inductive value :=
| VUndefined
| VNull
| VBool (b : bool)
| VNum (m e : Z)
| VStr (s : jsstring)
| VArr (items : list value)
| VObj (fields : list (jsstring * value))
| VBuiltin (name : jsstring).

Inductive exn_kind := Error | TypeError | SyntaxError | InvalidCharacterError | HostError | NetworkError.

(** A thrown exception: its class and its [message]. *)
Inductive exn := Exn (kind : exn_kind) (message : jsstring).

Definition message (e : exn) : jsstring := let 'Exn _ m := e in m.

(** The outcome of code that may throw. *)
Inductive result (A : Type) :=
| Ok (a : A)
| Throw (e : exn).
Arguments Ok {A} a.
Arguments Throw {A} e.

Definition bind {A B} (r : result A) (k : A -> result B) : result B :=
  match r with
  | Ok a => k a
  | Throw e => Throw e
  end.

Definition int (z : Z) : value := VNum z 0.
Definition str (s : string) : value := VStr (Str.lit s).

(** [ToBoolean] *)
Definition truthy (v : value) : bool :=
  match v with
  | VUndefined | VNull => false
  | VBool b => b
  | VNum m _ => negb (m =? 0)%Z
  | VStr s => match s with [] => false | _ => true end
  | VArr _ | VObj _ | VBuiltin _ => true
  end.

(** [a || b] *)
Definition or_else (a b : value) : value := if truthy a then a else b.

(** [v === 'literal'] *)
Definition is_string (v : value) (s : jsstring) : bool :=
  match v with
  | VStr t => Str.eqb t s
  | _ => false
  end.

(** [v !== false] *)
Definition not_false (v : value) : bool :=
  match v with
  | VBool false => false
  | _ => true
  end.

(** [v !== undefined] *)
Definition not_undefined (v : value) : bool :=
  match v with
  | VUndefined => false
  | _ => true
  end.

(** [Array.isArray(v)] *)
Definition isArray (v : value) : bool :=
  match v with
  | VArr _ => true
  | _ => false
  end.

(** Own property of an object literal; a repeated key keeps its last value. *)
Fixpoint own (name : jsstring) (fields : list (jsstring * value)) : option value :=
  match fields with
  | [] => None
  | (k, v) :: rest =>
      match own name rest with
      | Some w => Some w
      | None => if Str.eqb k name then Some v else None
      end
  end.

Definition object_prototype : list jsstring :=
  map Str.lit ["constructor"; "hasOwnProperty"; "isPrototypeOf";
               "propertyIsEnumerable"; "toLocaleString"; "toString";
               "valueOf"]%string.

Definition array_prototype : list jsstring :=
  map Str.lit ["at"; "concat"; "copyWithin"; "entries"; "every"; "fill";
               "filter"; "find"; "findIndex"; "findLast"; "findLastIndex";
               "flat"; "flatMap"; "forEach"; "includes"; "indexOf"; "join";
               "keys"; "lastIndexOf"; "map"; "pop"; "push"; "reduce";
               "reduceRight"; "reverse"; "shift"; "slice"; "some"; "sort";
               "splice"; "unshift"; "values"]%string.

Definition string_prototype : list jsstring :=
  map Str.lit ["anchor"; "at"; "big"; "blink"; "bold"; "charAt";
               "charCodeAt"; "codePointAt"; "concat"; "endsWith"; "fixed";
               "fontcolor"; "fontsize"; "includes"; "indexOf"; "italics";
               "lastIndexOf"; "link"; "localeCompare"; "match"; "matchAll";
               "normalize"; "padEnd"; "padStart"; "repeat"; "replace";
               "replaceAll"; "search"; "slice"; "small"; "split";
               "startsWith"; "strike"; "sub"; "substr"; "substring"; "sup";
               "toLowerCase"; "toUpperCase"; "trim"; "trimEnd";
               "trimStart"]%string.

Definition inherited (protos : list jsstring) (name : jsstring) : value :=
  if existsb (Str.eqb name) (protos ++ object_prototype)
  then VBuiltin name else VUndefined.

Definition quoted (name : jsstring) : jsstring :=
  Str.lit "'" ++ name ++ Str.lit "'".

(** [v.name] for a name that is not an array index. Reading a property of
    [null] or [undefined] throws a [TypeError]. *)
Definition get (v : value) (name : jsstring) : result value :=
  match v with
  | VUndefined =>
      Throw (Exn TypeError (Str.lit "Cannot read properties of undefined (reading "
                             ++ quoted name ++ Str.lit ")"))
  | VNull =>
      Throw (Exn TypeError (Str.lit "Cannot read properties of null (reading "
                             ++ quoted name ++ Str.lit ")"))
  | VObj fields =>
      match own name fields with
      | Some w => Ok w
      | None => Ok (inherited [] name)
      end
  | VArr items =>
      if Str.eqb name (Str.lit "length") then Ok (int (Z.of_nat (length items)))
      else Ok (inherited array_prototype name)
  | VStr s =>
      if Str.eqb name (Str.lit "length") then Ok (int (Z.of_nat (length s)))
      else Ok (inherited string_prototype name)
  | VBool _ | VNum _ _ => Ok (inherited [] name)
  | VBuiltin f =>
      if Str.eqb name (Str.lit "name") then Ok (VStr f) else Ok (inherited [] name)
  end.

(** [v[i]] for a literal index [i]. *)
Definition index (v : value) (i : nat) : result value :=
  match v with
  | VArr items => Ok (nth i items VUndefined)
  | VStr s => Ok (match nth_error s i with Some c => VStr [c] | None => VUndefined end)
  | _ => get v (Str.ofN (N.of_nat i))
  end.

(** [v?.name] *)
Definition get_opt (v : value) (name : jsstring) : result value :=
  match v with
  | VUndefined | VNull => Ok VUndefined
  | _ => get v name
  end.

Fixpoint strip_zeros (rev_digits : jsstring) : jsstring * nat :=
  match rev_digits with
  | 48 :: r => let '(d, n) := strip_zeros r in (d, S n)
  | _ => (rev_digits, O)
  end.

(** [Number::toString] for the decimal [m * 10^e]. *)
Definition number_to_string (m e : Z) : jsstring :=
  match m with
  | Z0 => Str.lit "0"
  | _ =>
      let sign := if (m <? 0)%Z then Str.lit "-" else [] in
      let '(rd, t) := strip_zeros (rev (Str.ofN (Z.abs_N m))) in
      let ds := rev rd in
      let k := Z.of_nat (length ds) in
      let n := (k + e + Z.of_nat t)%Z in
      if ((k <=? n) && (n <=? 21))%Z then
        sign ++ ds ++ repeat 48 (Z.to_nat (n - k))
      else if ((0 <? n) && (n <=? 21))%Z then
        sign ++ firstn (Z.to_nat n) ds ++ Str.lit "." ++ skipn (Z.to_nat n) ds
      else if ((-6 <? n) && (n <=? 0))%Z then
        sign ++ Str.lit "0." ++ repeat 48 (Z.to_nat (- n)) ++ ds
      else
        let ex := (n - 1)%Z in
        let exs := (if (ex <? 0)%Z then Str.lit "-" else Str.lit "+")
                   ++ Str.ofN (Z.abs_N ex) in
        match ds with
        | [d] => sign ++ [d] ++ Str.lit "e" ++ exs
        | d :: rest => sign ++ [d] ++ Str.lit "." ++ rest ++ Str.lit "e" ++ exs
        | [] => sign
        end
  end.

(** What the conversion of an object to a string throws when neither its
    [toString] nor its [valueOf] gives a primitive. *)
Definition NOT_PRIMITIVE : exn :=
  Exn TypeError (Str.lit "Cannot convert object to primitive value").

(** [String(v)], as template literals, string concatenation,
    [Array.prototype.join], [JSON.parse] and [new Error(v)] apply it.
    An object is converted by its [toString] method. The one it inherits
    from [Object.prototype] prints [[object Object]]. An own member of that
    name that is not a function, as [JSON.parse] makes one from
    [{"toString":1}], is passed over; [valueOf] then gives no primitive
    either and the conversion throws a [TypeError]. (An own member that is a
    built-in function would be called instead. The values that the add-in
    receives are data and hold none; the model lets such an object throw as
    well.) An array is converted by [join] with a comma, which converts the
    elements in order, [null] and [undefined] to the empty string. *)
Fixpoint toString (v : value) : result jsstring :=
  match v with
  | VUndefined => Ok (Str.lit "undefined")
  | VNull => Ok (Str.lit "null")
  | VBool true => Ok (Str.lit "true")
  | VBool false => Ok (Str.lit "false")
  | VNum m e => Ok (number_to_string m e)
  | VStr s => Ok s
  | VArr items =>
      bind ((fix elements (l : list value) : result (list jsstring) :=
               match l with
               | [] => Ok []
               | x :: rest =>
                   bind (match x with
                         | VUndefined | VNull => Ok []
                         | _ => toString x
                         end)
                     (fun t => bind (elements rest) (fun ts => Ok (t :: ts)))
               end) items)
        (fun parts => Ok (Str.join (Str.lit ",") parts))
  | VObj fields =>
      match own (Str.lit "toString") fields with
      | None => Ok (Str.lit "[object Object]")
      | Some _ => Throw NOT_PRIMITIVE
      end
  | VBuiltin f =>
      Ok (Str.lit "function " ++ f ++ Str.lit "() { [native code] }")
  end.

(** The text of one element in [join]. *)
Definition element_text (x : value) : result jsstring :=
  match x with
  | VUndefined | VNull => Ok []
  | _ => toString x
  end.

(** [l.map(f)] for an [f] that may throw: the first exception ends it. *)
Fixpoint traverse {A B} (f : A -> result B) (l : list A) : result (list B) :=
  match l with
  | [] => Ok []
  | x :: rest =>
      bind (f x) (fun y => bind (traverse f rest) (fun ys => Ok (y :: ys)))
  end.

(** [items.join(sep)] *)
Definition join (sep : jsstring) (items : list value) : result jsstring :=
  bind (traverse element_text items) (fun parts => Ok (Str.join sep parts)).

(** [l.slice(start)] with JavaScript's treatment of a negative or too large
    start index. *)
Definition slice_from {A} (start : Z) (l : list A) : list A :=
  let len := Z.of_nat (length l) in
  let k := if (start <? 0)%Z then Z.max (len + start) 0 else Z.min start len in
  skipn (Z.to_nat k) l.

(** [l.slice(0, stop)] for a non-negative [stop]. *)
Definition slice_to {A} (stop : nat) (l : list A) : list A := firstn stop l.

End JS.

#[global] Instance result_ret : MRet JS.result := @JS.Ok.
#[global] Instance result_bind : MBind JS.result :=
  fun A B k r => JS.bind r k.

(** * [JSON.parse] and [JSON.stringify] *)
Module Json.
Import JS.

Definition is_ws (c : N) : bool :=
  (c =? 32) || (c =? 9) || (c =? 10) || (c =? 13).

Fixpoint skip_ws (s : jsstring) : jsstring :=
  match s with
  | c :: r => if is_ws c then skip_ws r else s
  | [] => []
  end.

Definition is_digit (c : N) : bool := (48 <=? c) && (c <=? 57).

Definition hexval (c : N) : option N :=
  if is_digit c then Some (c - 48)
  else if (97 <=? c) && (c <=? 102) then Some (c - 87)
  else if (65 <=? c) && (c <=? 70) then Some (c - 55)
  else None.

Definition hex4 (a b c d : N) : option N :=
  match hexval a, hexval b, hexval c, hexval d with
  | Some x, Some y, Some z, Some w => Some (((x * 16 + y) * 16 + z) * 16 + w)
  | _, _, _, _ => None
  end.

(** The characters of a string literal after its opening quote, up to the
    closing quote; [acc] holds the characters read so far, last first. *)
Fixpoint parse_string (acc s : jsstring) : option (jsstring * jsstring) :=
  match s with
  | [] => None
  | 34 :: r => Some (rev acc, r)
  | 92 :: r =>
      match r with
      | 34 :: r' => parse_string (34 :: acc) r'
      | 92 :: r' => parse_string (92 :: acc) r'
      | 47 :: r' => parse_string (47 :: acc) r'
      | 98 :: r' => parse_string (8 :: acc) r'
      | 102 :: r' => parse_string (12 :: acc) r'
      | 110 :: r' => parse_string (10 :: acc) r'
      | 114 :: r' => parse_string (13 :: acc) r'
      | 116 :: r' => parse_string (9 :: acc) r'
      | 117 :: a :: b :: c :: d :: r' =>
          match hex4 a b c d with
          | Some u => parse_string (u :: acc) r'
          | None => None
          end
      | _ => None
      end
  | c :: r => if c <? 32 then None else parse_string (c :: acc) r
  end.

(** A run of decimal digits: its value, its length and the rest. *)
Fixpoint digits (acc : N) (count : nat) (s : jsstring) : N * nat * jsstring :=
  match s with
  | c :: r => if is_digit c then digits (acc * 10 + (c - 48)) (S count) r
              else (acc, count, s)
  | [] => (acc, count, [])
  end.

(** The integer part of a number: [0] alone or a run that starts with a
    non-zero digit. *)
Definition int_part (s : jsstring) : option (N * jsstring) :=
  match s with
  | 48 :: r => Some (0, r)
  | c :: _ => if is_digit c then let '(v, _, r) := digits 0 O s in Some (v, r)
              else None
  | [] => None
  end.

Definition frac_part (s : jsstring) : option (N * nat * jsstring) :=
  match s with
  | 46 :: r =>
      match digits 0 O r with
      | (_, O, _) => None
      | res => Some res
      end
  | _ => Some (0, O, s)
  end.

Definition exp_part (s : jsstring) : option (Z * jsstring) :=
  let run (neg : bool) (r : jsstring) :=
    match digits 0 O r with
    | (_, O, _) => None
    | (v, _, r') => Some (if neg then (- Z.of_N v)%Z else Z.of_N v, r')
    end in
  match s with
  | c :: r =>
      if (c =? 101) || (c =? 69) then
        match r with
        | 43 :: r' => run false r'
        | 45 :: r' => run true r'
        | _ => run false r
        end
      else Some (0%Z, s)
  | [] => Some (0%Z, [])
  end.

Definition parse_number (s : jsstring) : option (value * jsstring) :=
  let '(neg, s1) := match s with 45 :: r => (true, r) | _ => (false, s) end in
  match int_part s1 with
  | None => None
  | Some (i, s2) =>
      match frac_part s2 with
      | None => None
      | Some (f, flen, s3) =>
          match exp_part s3 with
          | None => None
          | Some (ex, s4) =>
              let mag := Z.of_N (i * 10 ^ N.of_nat flen + f) in
              Some (VNum (if neg then (- mag)%Z else mag) (ex - Z.of_nat flen), s4)
          end
      end
  end.

(** Defines property [k]: a repeated key keeps its first position and takes
    the last value. *)
Fixpoint define (k : jsstring) (v : value) (fields : list (jsstring * value))
  : list (jsstring * value) :=
  match fields with
  | [] => [(k, v)]
  | (k', v') :: rest =>
      if Str.eqb k k' then (k, v) :: rest else (k', v') :: define k v rest
  end.

(** Recursive descent on the JSON grammar. Every call that descends into a
    nested value has consumed a character, so [2 * length s + 2] units of
    fuel are enough for a text [s]. *)
Fixpoint parse_value (fuel : nat) (s : jsstring) : option (value * jsstring) :=
  match fuel with
  | O => None
  | S fuel' =>
      match skip_ws s with
      | 123 :: r =>
          match skip_ws r with
          | 125 :: r' => Some (VObj [], r')
          | _ => parse_members fuel' [] r
          end
      | 91 :: r =>
          match skip_ws r with
          | 93 :: r' => Some (VArr [], r')
          | _ => parse_elements fuel' [] r
          end
      | 34 :: r =>
          match parse_string [] r with
          | Some (t, r') => Some (VStr t, r')
          | None => None
          end
      | 116 :: 114 :: 117 :: 101 :: r => Some (VBool true, r)
      | 102 :: 97 :: 108 :: 115 :: 101 :: r => Some (VBool false, r)
      | 110 :: 117 :: 108 :: 108 :: r => Some (VNull, r)
      | s' => parse_number s'
      end
  end
with parse_elements (fuel : nat) (acc : list value) (s : jsstring)
  : option (value * jsstring) :=
  match fuel with
  | O => None
  | S fuel' =>
      match parse_value fuel' s with
      | Some (v, r) =>
          match skip_ws r with
          | 44 :: r' => parse_elements fuel' (acc ++ [v]) r'
          | 93 :: r' => Some (VArr (acc ++ [v]), r')
          | _ => None
          end
      | None => None
      end
  end
with parse_members (fuel : nat) (acc : list (jsstring * value)) (s : jsstring)
  : option (value * jsstring) :=
  match fuel with
  | O => None
  | S fuel' =>
      match skip_ws s with
      | 34 :: r =>
          match parse_string [] r with
          | Some (k, r1) =>
              match skip_ws r1 with
              | 58 :: r2 =>
                  match parse_value fuel' r2 with
                  | Some (v, r3) =>
                      match skip_ws r3 with
                      | 44 :: r4 => parse_members fuel' (define k v acc) r4
                      | 125 :: r4 => Some (VObj (define k v acc), r4)
                      | _ => None
                      end
                  | None => None
                  end
              | _ => None
              end
          | None => None
          end
      | _ => None
      end
  end.

(** [JSON.parse(s)]; [None] stands for the [SyntaxError] it throws. *)
Definition parse (s : jsstring) : option value :=
  match parse_value (2 * length s + 2) s with
  | Some (v, r) => match skip_ws r with [] => Some v | _ => None end
  | None => None
  end.

Definition hexdigit (x : N) : N := if x <? 10 then 48 + x else 87 + x.

Definition escape_unit (c : N) : jsstring :=
  Str.lit "\u" ++ [hexdigit (c / 4096); hexdigit (c / 256 mod 16);
                   hexdigit (c / 16 mod 16); hexdigit (c mod 16)].

Definition is_high (c : N) : bool := (55296 <=? c) && (c <=? 56319).
Definition is_low (c : N) : bool := (56320 <=? c) && (c <=? 57343).

(** The body of a quoted string: control characters and lone surrogates are
    escaped. *)
Fixpoint quote_body (s : jsstring) : jsstring :=
  match s with
  | [] => []
  | c :: r =>
      if c =? 34 then [92; 34] ++ quote_body r
      else if c =? 92 then Str.lit "\\" ++ quote_body r
      else if c =? 8 then Str.lit "\b" ++ quote_body r
      else if c =? 12 then Str.lit "\f" ++ quote_body r
      else if c =? 10 then Str.lit "\n" ++ quote_body r
      else if c =? 13 then Str.lit "\r" ++ quote_body r
      else if c =? 9 then Str.lit "\t" ++ quote_body r
      else if c <? 32 then escape_unit c ++ quote_body r
      else if is_high c then
        match r with
        | d :: r' => if is_low d then c :: d :: quote_body r'
                     else escape_unit c ++ quote_body r
        | [] => escape_unit c
        end
      else if is_low c then escape_unit c ++ quote_body r
      else c :: quote_body r
  end.

Definition quote (s : jsstring) : jsstring :=
  34 :: quote_body s ++ [34].

(** [JSON.stringify(v)]; [None] stands for the result [undefined]. *)
Fixpoint stringify (v : value) : option jsstring :=
  match v with
  | VUndefined | VBuiltin _ => None
  | VNull => Some (Str.lit "null")
  | VBool true => Some (Str.lit "true")
  | VBool false => Some (Str.lit "false")
  | VNum m e => Some (number_to_string m e)
  | VStr s => Some (quote s)
  | VArr items =>
      Some (Str.lit "["
            ++ Str.join (Str.lit ",")
                 (map (fun x => match stringify x with
                                | Some t => t
                                | None => Str.lit "null"
                                end) items)
            ++ Str.lit "]")
  | VObj fields =>
      Some (Str.lit "{"
            ++ Str.join (Str.lit ",")
                 (flat_map (fun kv => match stringify (snd kv) with
                                      | Some t => [quote (fst kv) ++ Str.lit ":" ++ t]
                                      | None => []
                                      end) fields)
            ++ Str.lit "}")
  end.

(** [JSON.stringify(v)] for a value that has a JSON text, as an array
    always has. *)
Definition stringify_text (v : value) : jsstring :=
  match stringify v with
  | Some t => t
  | None => []
  end.

End Json.

(** * The fenced [excel-json] block *)
Module Fence.

Definition opener : jsstring := Str.lit "```excel-json".
Definition fence : jsstring := Str.lit "```".

(** Capture group 1 of [content.match(/```excel-json\s*([\s\S]*?)```/)];
    [None] when the expression does not match. The leftmost match starts at
    the first opener; [\s*] takes all the white space that follows, none of
    which is a backquote, and the lazy group stops at the first closing
    fence. *)
Definition capture (content : jsstring) : option jsstring :=
  match Str.splitAt opener content with
  | None => None
  | Some (_, rest) =>
      match Str.splitAt fence (Str.trimStart rest) with
      | None => None
      | Some (body, _) => Some body
      end
  end.

(** [content.replace(/```excel-json[\s\S]*?```/, '')]: the first match, if
    any, is removed. *)
Definition remove (content : jsstring) : jsstring :=
  match Str.splitAt opener content with
  | None => content
  | Some (pre, rest) =>
      match Str.splitAt fence rest with
      | None => content
      | Some (_, post) => pre ++ post
      end
  end.

End Fence.

(** * storageService.ts *)
Module StorageService.
Import JS.

Definition API_KEY : jsstring := Str.lit "excel_ai_api_key".
Definition PROVIDER : jsstring := Str.lit "excel_ai_provider".
Definition MODEL : jsstring := Str.lit "excel_ai_model".
Definition MESSAGES : jsstring := Str.lit "excel_ai_messages".

(** [localStorage]: a finite map from keys to strings. The storage quota is
    not modelled, so [setItem] always succeeds. *)
Abbreviation storage := (gmap jsstring jsstring).

Definition getItem (k : jsstring) (st : storage) : option jsstring := st !! k.
Definition setItem (k v : jsstring) (st : storage) : storage := <[k := v]> st.
Definition removeItem (k : jsstring) (st : storage) : storage := delete k st.

(** [saveApiKey(key)]: when [btoa] throws, the error is logged and nothing
    is stored. *)
Definition saveApiKey (key : jsstring) (st : storage) : storage :=
  match Base64.btoa key with
  | Some encoded => setItem API_KEY encoded st
  | None => st
  end.

(** [getApiKey()]; [None] is [null]. An [atob] that throws is caught and
    gives [null]. *)
Definition getApiKey (st : storage) : option jsstring :=
  match getItem API_KEY st with
  | None => None
  | Some [] => None
  | Some encoded => Base64.atob encoded
  end.

Definition clearApiKey (st : storage) : storage := removeItem API_KEY st.

Definition hasApiKey (st : storage) : bool :=
  match getItem API_KEY st with
  | Some (_ :: _) => true
  | _ => false
  end.

Definition saveProvider (provider : jsstring) (st : storage) : storage :=
  setItem PROVIDER provider st.

Definition getProvider (st : storage) : jsstring :=
  match getItem PROVIDER st with
  | Some (c :: p) => c :: p
  | _ => Str.lit "openrouter"
  end.

Definition saveModel (model : jsstring) (st : storage) : storage :=
  setItem MODEL model st.

Definition getModel (st : storage) : jsstring :=
  match getItem MODEL st with
  | Some (c :: m) => c :: m
  | _ => Str.lit "meta-llama/llama-3.1-8b-instruct:free"
  end.

Record Settings := {
  apiKey : option jsstring;
  provider : jsstring;
  model : jsstring
}.

Definition getSettings (st : storage) : Settings :=
  {| apiKey := getApiKey st; provider := getProvider st; model := getModel st |}.

(** [saveMessages(messages)] *)
Definition saveMessages (messages : list value) (st : storage) : storage :=
  let trimmed := slice_from (-50) messages in
  setItem MESSAGES (Json.stringify_text (VArr trimmed)) st.

(** [getMessages()] *)
Definition getMessages (st : storage) : value :=
  match getItem MESSAGES st with
  | Some (c :: stored) =>
      match Json.parse (c :: stored) with
      | Some v => v
      | None => VArr []
      end
  | _ => VArr []
  end.

Definition clearMessages (st : storage) : storage := removeItem MESSAGES st.

End StorageService.

(** * Effects: a log of the calls issued, and exceptions *)
Module Eff.
Import JS.

(** A computation that appends to a log of events of type [E] and either
    returns or throws. The log keeps what was issued before a throw. *)
Definition M (E A : Type) : Type := list E -> result A * list E.

Definition ret {E A} (a : A) : M E A := fun log => (Ok a, log).

Definition bind {E A B} (c : M E A) (k : A -> M E B) : M E B :=
  fun log =>
    match c log with
    | (Ok a, log') => k a log'
    | (Throw e, log') => (Throw e, log')
    end.

(** A pure computation that may throw. *)
Definition lift {E A} (r : result A) : M E A := fun log => (r, log).

Definition throw {E A} (e : exn) : M E A := fun log => (Throw e, log).

(** [try { body } catch (e) { handler }] *)
Definition try_catch {E A} (body : M E A) (handler : exn -> M E A) : M E A :=
  fun log =>
    match body log with
    | (Ok a, log') => (Ok a, log')
    | (Throw e, log') => handler e log'
    end.

(** [for (const x of l) { body }] and [l.forEach(body)] *)
Fixpoint for_each {E A} (body : A -> M E unit) (l : list A) : M E unit :=
  match l with
  | [] => ret tt
  | x :: rest => bind (body x) (fun _ => for_each body rest)
  end.

Definition when {E} (b : bool) (c : M E unit) : M E unit :=
  if b then c else ret tt.

End Eff.

#[global] Instance eff_ret {E} : MRet (Eff.M E) := @Eff.ret E.
#[global] Instance eff_bind {E} : MBind (Eff.M E) :=
  fun A B k c => Eff.bind c k.

(** * The spreadsheet host, seen from the add-in *)
Module Host.
Import JS.

(** What the add-in asks of Office.js and of the console. Proxy objects are
    not values of the model: a call or an assignment is named by the path
    the source writes, and applies to the proxy that the preceding call of
    that name returned. *)
Inductive event :=
| Call (path : jsstring) (args : list value)
| Assign (path : jsstring) (v : value)
| Sync
| Console (level : jsstring) (text : jsstring).

Definition is_sync (ev : event) : bool :=
  match ev with
  | Sync => true
  | _ => false
  end.

Definition is_console (ev : event) : bool :=
  match ev with
  | Console _ _ => true
  | _ => false
  end.

(** The host decides, from the events so far, whether a request throws. *)
Definition oracle := list event -> event -> bool.

Definition request (rejects : oracle) (ev : event) : Eff.M event unit :=
  fun log =>
    (if rejects log ev
     then Throw (Exn HostError (Str.lit "The request was rejected by the host"))
     else Ok tt,
     log ++ [ev]).

Definition console (level : string) (text : jsstring) : Eff.M event unit :=
  fun log => (Ok tt, log ++ [Console (Str.lit level) text]).

(** A host on which every request succeeds. *)
Definition obliging : oracle := fun _ _ => false.

End Host.

(** * excelService.ts: the operation executor *)
Module ExcelService.
Import JS.

Record SheetData := {
  name : jsstring;
  usedRange : jsstring;
  values : list (list value);
  formulas : list (list value);
  rowCount : Z;
  columnCount : Z
}.

Record WorkbookContext := {
  activeSheetName : jsstring;
  sheets : list jsstring;
  activeSheetData : option SheetData
}.

Definition newline : jsstring := [10].

(** [for (let i = 0; i < maxRows; i++) { ... context += `Row ...` }]:
    [steps] iterations remain and [i] is the loop variable. *)
Fixpoint previewRows (values : list (list value)) (steps i : nat)
  (context : jsstring) : result jsstring :=
  match steps with
  | O => Ok context
  | S steps' =>
      let row := nth i values [] in
      let rowLabel := N.of_nat i + 1 in
      cells ← join (Str.lit " | ") row;
      previewRows values steps' (S i)
        (context ++ Str.lit "Row " ++ Str.ofN rowLabel ++ Str.lit ": "
         ++ cells ++ newline)
  end.

(** [l.forEach((x, index) => ...)] threading the variables the callback
    updates. *)
Fixpoint forEachIndexed {A St} (f : A -> nat -> St -> St) (l : list A)
  (index : nat) (s : St) : St :=
  match l with
  | [] => s
  | x :: rest => forEachIndexed f rest (S index) (f x index s)
  end.

(** [String.fromCharCode(n)] *)
Definition fromCharCode (n : N) : jsstring := [n mod 65536].

(** The formula cells of the sheet, in the order the two nested [forEach]
    push them. *)
Definition collectFormulas (formulas : list (list value)) : list jsstring :=
  forEachIndexed
    (fun row rowIndex cells =>
       forEachIndexed
         (fun formula colIndex cells =>
            match formula with
            | VStr f =>
                if truthy formula && Str.startsWith (Str.lit "=") f then
                  let colLetter := fromCharCode (65 + N.of_nat colIndex) in
                  cells ++ [colLetter ++ Str.ofN (N.of_nat rowIndex + 1)
                            ++ Str.lit ": " ++ f]
                else cells
            | _ => cells
            end)
         row O cells)
    formulas O [].

Definition dataPreview (values : list (list value)) (context : jsstring)
  : result jsstring :=
  match values with
  | [] => Ok context
  | _ =>
      let maxRows := Nat.min (length values) 20 in
      let context :=
        context ++ Str.lit "Data Preview (first " ++ Str.ofN (N.of_nat maxRows)
        ++ Str.lit " rows):" ++ newline in
      context ← previewRows values maxRows O context;
      if (maxRows <? length values)%nat then
        Ok (context ++ Str.lit "... and "
            ++ Str.ofN (N.of_nat (length values - maxRows))
            ++ Str.lit " more rows" ++ newline)
      else Ok context
  end.

Definition formulaPreview (formulaCells : list jsstring) (context : jsstring)
  : jsstring :=
  match formulaCells with
  | [] => context
  | _ =>
      let context := context ++ newline ++ Str.lit "FORMULAS IN SHEET:" ++ newline in
      let context :=
        fold_left (fun context f => context ++ Str.lit "  " ++ f ++ newline)
          (slice_to 20 formulaCells) context in
      if (20 <? length formulaCells)%nat then
        context ++ Str.lit "  ... and "
        ++ Str.ofN (N.of_nat (length formulaCells - 20))
        ++ Str.lit " more formulas" ++ newline
      else context
  end.

(** [buildContextForLLM()], as a function of the workbook context that
    [getWorkbookContext()] read from the host. *)
Definition buildContextForLLM (workbook : WorkbookContext) : result jsstring :=
  let context := Str.lit "CURRENT EXCEL WORKBOOK STATE:" ++ newline in
  let context :=
    context ++ Str.lit "Active Sheet: " ++ [34] ++ activeSheetName workbook
    ++ [34] ++ newline in
  let context :=
    context ++ Str.lit "Available Sheets: "
    ++ Str.join (Str.lit ", ") (sheets workbook) ++ newline ++ newline in
  match activeSheetData workbook with
  | Some data =>
      let context :=
        context ++ Str.lit "ACTIVE SHEET DATA (" ++ usedRange data
        ++ Str.lit "):" ++ newline in
      let context :=
        context ++ Str.lit "Rows: " ++ Str.ofZ (rowCount data)
        ++ Str.lit ", Columns: " ++ Str.ofZ (columnCount data)
        ++ newline ++ newline in
      context ← dataPreview (values data) context;
      Ok (formulaPreview (collectFormulas (formulas data)) context)
  | None => Ok context
  end.

Section Executor.

(** The host the add-in runs against, and the value of [Date.now()]. *)
Variable rejects : Host.oracle.
Variable now : Z.

Let H := Eff.M Host.event.

Definition prop (v : value) (name : string) : H value :=
  Eff.lift (get v (Str.lit name)).

Definition call (path : string) (args : list value) : H unit :=
  Host.request rejects (Host.Call (Str.lit path) args).

Definition assign (path : string) (v : value) : H unit :=
  Host.request rejects (Host.Assign (Str.lit path) v).

Definition sync : H unit := Host.request rejects Host.Sync.

Definition is_case (v : value) (s : string) : bool := is_string v (Str.lit s).

Definition items (v : value) : list value :=
  match v with
  | VArr l => l
  | _ => []
  end.

(** [const sortFields = [{ key: op.key || 0, ascending: op.ascending !== false }]] *)
Definition sortFields (op : value) : H value :=
  key ← prop op "key";
  ascending ← prop op "ascending";
  mret (VArr [VObj [(Str.lit "key", or_else key (int 0));
                    (Str.lit "ascending", VBool (not_false ascending))]]).

(** [case 'createPivotTable':] the body of its inner [try]. *)
Definition createPivotTable (op : value) : H unit :=
  sourceSheet ← prop op "sourceSheet";
  Eff.when (truthy sourceSheet)
    (call "context.workbook.worksheets.getItem" [sourceSheet]);;
  sourceAddress ← prop op "sourceAddress";
  call "sourceSheet.getRange" [sourceAddress];;
  destinationSheet ← prop op "destinationSheet";
  Eff.when (truthy destinationSheet)
    (call "context.workbook.worksheets.getItem" [destinationSheet]);;
  name ← prop op "name";
  destinationAddress ← prop op "destinationAddress";
  call "destSheet.pivotTables.add"
    [or_else name (VStr (Str.lit "PivotTable_" ++ Str.ofZ now));
     or_else destinationAddress (str "A1")];;
  Eff.when (truthy name) (assign "pivotTable.name" name);;
  rows ← prop op "rows";
  Eff.when (truthy rows && isArray rows)
    (Eff.for_each
       (fun r => call "pivotTable.hierarchies.getItem" [r];;
                 call "pivotTable.rowHierarchies.add" [])
       (items rows));;
  columns ← prop op "columns";
  Eff.when (truthy columns && isArray columns)
    (Eff.for_each
       (fun c => call "pivotTable.hierarchies.getItem" [c];;
                 call "pivotTable.columnHierarchies.add" [])
       (items columns));;
  values ← prop op "values";
  Eff.when (truthy values && isArray values)
    (Eff.for_each
       (fun v =>
          match v with
          | VStr _ =>
              call "pivotTable.hierarchies.getItem" [v];;
              call "pivotTable.dataHierarchies.add" []
          | _ =>
              fieldName ← prop v "field";
              call "pivotTable.hierarchies.getItem" [fieldName];;
              call "pivotTable.dataHierarchies.add" [];;
              function ← prop v "function";
              Eff.when (truthy function)
                (assign "dataHierarchy.summarizeBy" function)
          end)
       (items values)).

(** The [switch (op.action)] of unnamed/part_003: the body of the [try] of
    one iteration. An action that no [case] names does nothing. *)
Definition applyOperation (op : value) : H unit :=
  action ← prop op "action";
  if is_case action "setCellValue" then
    address ← prop op "address";
    call "sheet.getRange" [address];;
    v ← prop op "value";
    assign "range.values" (VArr [VArr [v]])
  else if is_case action "setFormula" then
    address ← prop op "address";
    call "sheet.getRange" [address];;
    formula ← prop op "formula";
    assign "range.formulas" (VArr [VArr [formula]])
  else if is_case action "format" then
    address ← prop op "address";
    call "sheet.getRange" [address];;
    format ← prop op "format";
    bold ← prop format "bold";
    Eff.when (not_undefined bold) (assign "range.format.font.bold" bold);;
    fill ← prop format "fill";
    Eff.when (truthy fill) (assign "range.format.fill.color" fill);;
    color ← prop format "color";
    Eff.when (truthy color) (assign "range.format.font.color" color)
  else if is_case action "createTable" then
    address ← prop op "address";
    call "sheet.tables.add" [address; VBool true];;
    name ← prop op "name";
    Eff.when (truthy name) (assign "table.name" name)
  else if is_case action "createChart" then
    address ← prop op "address";
    call "sheet.getRange" [address];;
    chartType ← prop op "chartType";
    call "sheet.charts.add" [or_else chartType (str "ColumnClustered"); str "Auto"];;
    title ← prop op "title";
    Eff.when (truthy title) (assign "chart.title.text" title)
  else if is_case action "createWorksheet" then
    Eff.try_catch
      (name ← prop op "name";
       call "context.workbook.worksheets.add" [name];;
       activate ← prop op "activate";
       Eff.when (truthy activate) (call "newSheet.activate" []))
      (fun _ =>
         name ← prop op "name";
         name ← Eff.lift (toString name);
         Host.console "warn"
           (Str.lit "Sheet " ++ name ++ Str.lit " might already exist"))
  else if is_case action "activateWorksheet" then
    name ← prop op "name";
    call "context.workbook.worksheets.getItem" [name];;
    call "sheetToActivate.activate" []
  else if is_case action "deleteWorksheet" then
    name ← prop op "name";
    call "context.workbook.worksheets.getItem" [name];;
    call "sheetToDelete.delete" []
  else if is_case action "autoFit" then
    address ← prop op "address";
    (if truthy address then call "sheet.getRange" [address]
     else call "sheet.getUsedRange" []);;
    call "autoFitRange.getEntireColumn" [];;
    call "format.autofitColumns" []
  else if is_case action "sortRange" then
    address ← prop op "address";
    call "sheet.getRange" [address];;
    fields ← sortFields op;
    matchCase ← prop op "matchCase";
    hasHeaders ← prop op "hasHeaders";
    orientation ← prop op "orientation";
    call "sortRange.sort.apply"
      [fields; or_else matchCase (VBool false); or_else hasHeaders (VBool true);
       or_else orientation (str "Rows")]
  else if is_case action "filterRange" then
    address ← prop op "address";
    call "sheet.getRange" [address];;
    call "sheet.autoFilter.apply" []
  else if is_case action "createPivotTable" then
    Eff.try_catch (createPivotTable op)
      (fun _ => Host.console "error" (Str.lit "Failed to create Pivot Table"))
  else if is_case action "insertRows" then
    address ← prop op "address";
    call "sheet.getRange" [address];;
    call "insertRowRange.insert" [str "Down"]
  else if is_case action "deleteRows" then
    address ← prop op "address";
    call "sheet.getRange" [address];;
    call "deleteRowRange.delete" [str "Up"]
  else if is_case action "insertColumns" then
    address ← prop op "address";
    call "sheet.getRange" [address];;
    call "insertColRange.insert" [str "Right"]
  else if is_case action "deleteColumns" then
    address ← prop op "address";
    call "sheet.getRange" [address];;
    call "deleteColRange.delete" [str "Left"]
  else if is_case action "renameWorksheet" then
    name ← prop op "name";
    oldName ← prop op "oldName";
    call "context.workbook.worksheets.getItem" [or_else name oldName];;
    newName ← prop op "newName";
    assign "sheetToRename.name" newName
  else if is_case action "hideWorksheet" then
    name ← prop op "name";
    call "context.workbook.worksheets.getItem" [name];;
    assign "sheetToHide.visibility" (str "Hidden")
  else if is_case action "unhideWorksheet" then
    name ← prop op "name";
    call "context.workbook.worksheets.getItem" [name];;
    assign "sheetToUnhide.visibility" (str "Visible")
  else mret tt.

(** The [switch] of src/services/excelService.ts, which has the first five
    cases only. *)
Definition applyOperationBasic (op : value) : H unit :=
  action ← prop op "action";
  if is_case action "setCellValue" then
    address ← prop op "address";
    call "sheet.getRange" [address];;
    v ← prop op "value";
    assign "range.values" (VArr [VArr [v]])
  else if is_case action "setFormula" then
    address ← prop op "address";
    call "sheet.getRange" [address];;
    formula ← prop op "formula";
    assign "range.formulas" (VArr [VArr [formula]])
  else if is_case action "format" then
    address ← prop op "address";
    call "sheet.getRange" [address];;
    format ← prop op "format";
    bold ← prop format "bold";
    Eff.when (not_undefined bold) (assign "range.format.font.bold" bold);;
    fill ← prop format "fill";
    Eff.when (truthy fill) (assign "range.format.fill.color" fill);;
    color ← prop format "color";
    Eff.when (truthy color) (assign "range.format.font.color" color)
  else if is_case action "createTable" then
    address ← prop op "address";
    call "sheet.tables.add" [address; VBool true];;
    name ← prop op "name";
    Eff.when (truthy name) (assign "table.name" name)
  else if is_case action "createChart" then
    address ← prop op "address";
    call "sheet.getRange" [address];;
    chartType ← prop op "chartType";
    call "sheet.charts.add" [or_else chartType (str "ColumnClustered"); str "Auto"];;
    title ← prop op "title";
    Eff.when (truthy title) (assign "chart.title.text" title)
  else mret tt.

(** The [catch] of one iteration:
    [console.error(`Failed to execute operation ${op.action} on ${op.address}`, e)]. *)
Definition reportFailure (op : value) (e : exn) : H unit :=
  action ← prop op "action";
  action ← Eff.lift (toString action);
  address ← prop op "address";
  address ← Eff.lift (toString address);
  Host.console "error"
    (Str.lit "Failed to execute operation " ++ action
     ++ Str.lit " on " ++ address).

(** One iteration of the loop: [try { switch ... } catch (e) { ... }]. *)
Definition attempt (apply : value -> H unit) (op : value) : H unit :=
  Eff.try_catch (apply op) (reportFailure op).

(** The callback given to [Excel.run]. *)
Definition batch (apply : value -> H unit) (operations : list value) : H unit :=
  call "context.workbook.worksheets.getActiveWorksheet" [];;
  Eff.for_each (attempt apply) operations;;
  sync.

Definition run (excelAvailable : bool) (apply : value -> H unit)
  (operations : list value) : H unit :=
  if negb excelAvailable
  then Host.console "log" (Str.lit "Simulating Excel operations:")
  else batch apply operations.

(** [executeOperations(operations)] of unnamed/part_003. *)
Definition executeOperations (excelAvailable : bool) (operations : list value)
  : H unit :=
  run excelAvailable applyOperation operations.

(** [executeOperations(operations)] of src/services/excelService.ts. *)
Definition executeOperationsBasic (excelAvailable : bool)
  (operations : list value) : H unit :=
  run excelAvailable applyOperationBasic operations.

End Executor.

End ExcelService.

(** * The network, seen from the add-in *)
Module Net.
Import JS.

(** An outbound [fetch]. *)
Record request := {
  url : jsstring;
  headers : list (jsstring * jsstring);
  body : jsstring
}.

(** What comes back: a transport failure, or a status and a body. *)
Inductive outcome :=
| Failed
| Responded (status : Z) (text : jsstring).

Record response := { status : Z; text : jsstring }.

(** The backends decide, from the requests so far, what a request gets. *)
Definition network := list request -> request -> outcome.

(** [await fetch(...)]: the request is issued, and a transport failure
    rejects. *)
Definition fetch (net : network) (req : request) : Eff.M request response :=
  fun log =>
    (match net log req with
     | Failed => Throw (Exn NetworkError (Str.lit "Failed to fetch"))
     | Responded st tx => Ok {| status := st; text := tx |}
     end,
     log ++ [req]).

(** [response.ok] *)
Definition ok (r : response) : bool := ((200 <=? status r) && (status r <=? 299))%Z.

(** [await response.json()] *)
Definition json (r : response) : result value :=
  match Json.parse (text r) with
  | Some v => Ok v
  | None => Throw (Exn SyntaxError (Str.lit "Unexpected token in JSON"))
  end.

(** [await response.json().catch(() => ({}))] *)
Definition json_or_empty (r : response) : value :=
  match Json.parse (text r) with
  | Some v => v
  | None => VObj []
  end.

(** [s.replace(pattern, '')] for a string pattern. *)
Definition remove_first (pattern s : jsstring) : jsstring :=
  match Str.splitAt pattern s with
  | Some (pre, post) => pre ++ post
  | None => s
  end.

Record ChatMessage := { role : jsstring; content : jsstring }.

Definition message_value (m : ChatMessage) : value :=
  VObj [(Str.lit "role", VStr (role m)); (Str.lit "content", VStr (content m))].

(** [excelContext ? `\n\n${excelContext}` : ''] *)
Definition context_suffix (excelContext : option jsstring) : jsstring :=
  match excelContext with
  | Some (c :: rest) => [10; 10] ++ c :: rest
  | _ => []
  end.

(** The single-string prompt of the Gemini and HuggingFace adapters. *)
Definition conversation_prompt (system_prompt : jsstring)
  (messages : list ChatMessage) (excelContext : option jsstring) : jsstring :=
  let prompt := system_prompt ++ context_suffix excelContext in
  let prompt := prompt ++ [10; 10] ++ Str.lit "Conversation:" ++ [10] in
  let prompt :=
    fold_left
      (fun prompt msg =>
         let role := if Str.eqb (role msg) (Str.lit "user")
                     then Str.lit "User" else Str.lit "Assistant" in
         prompt ++ role ++ Str.lit ": " ++ content msg ++ [10])
      messages prompt in
  prompt ++ Str.lit "Assistant:".

(** [v.replace(prompt, '').trim()] on a value that should be a string. *)
Definition replace_trim (v : value) (prompt : jsstring) : result jsstring :=
  match v with
  | VStr s => Ok (Str.trim (remove_first prompt s))
  | VUndefined | VNull =>
      bind (get v (Str.lit "replace")) (fun _ => Ok [])
  | _ => Throw (Exn TypeError (Str.lit "generated_text.replace is not a function"))
  end.

Definition json_headers : list (jsstring * jsstring) :=
  [(Str.lit "Content-Type", Str.lit "application/json")].

Definition bearer (apiKey : jsstring) : jsstring * jsstring :=
  (Str.lit "Authorization", Str.lit "Bearer " ++ apiKey).

Definition number_0_7 : value := VNum 7 (-1).

Definition OPENROUTER_URL : jsstring :=
  Str.lit "https://openrouter.ai/api/v1/chat/completions".
Definition GEMINI_URL : jsstring :=
  Str.lit "https://generativelanguage.googleapis.com/v1beta/models/gemini-3-flash-preview:generateContent?key=".
Definition HUGGINGFACE_URL : jsstring :=
  Str.lit "https://api-inference.huggingface.co/models/meta-llama/Llama-3.2-1B-Instruct".

(** The request of [callHuggingFace], the same in both services. *)
Definition huggingface_request (prompt apiKey : jsstring) : request :=
  {| url := HUGGINGFACE_URL;
     headers := bearer apiKey :: json_headers;
     body := Json.stringify_text
               (VObj [(Str.lit "inputs", VStr prompt);
                      (Str.lit "parameters",
                       VObj [(Str.lit "max_new_tokens", int 1000);
                             (Str.lit "temperature", number_0_7)])]) |}.

Definition generation_config : value :=
  VObj [(Str.lit "temperature", number_0_7);
        (Str.lit "maxOutputTokens", int 2000)].

Definition gemini_contents (prompt : jsstring) : value :=
  VArr [VObj [(Str.lit "parts", VArr [VObj [(Str.lit "text", VStr prompt)]])]].

(** [throw new Error(error.error?.message || `<provider> API error: ${response.status}`)] *)
Definition error_of_message_field {A} (provider : string) (r : response)
  : result A :=
  let error := json_or_empty r in
  inner ← get error (Str.lit "error");
  message ← get_opt inner (Str.lit "message");
  text ← toString (or_else message
                     (VStr (Str.lit provider ++ Str.lit " API error: "
                            ++ Str.ofZ (status r))));
  Throw (Exn Error text).

(** [throw new Error(error.error || `HuggingFace API error: ${response.status}`)] *)
Definition error_of_error_field {A} (r : response) : result A :=
  let error := json_or_empty r in
  inner ← get error (Str.lit "error");
  text ← toString (or_else inner
                     (VStr (Str.lit "HuggingFace API error: "
                            ++ Str.ofZ (status r))));
  Throw (Exn Error text).

(** The tail of [callHuggingFace] after a successful response. *)
Definition huggingface_text (prompt : jsstring) (data : value) : result jsstring :=
  match data with
  | VArr _ =>
      first ← index data 0;
      generated ← get first (Str.lit "generated_text");
      replace_trim generated prompt
  | _ =>
      generated ← get data (Str.lit "generated_text");
      match generated with
      | VUndefined | VNull => Ok (Str.lit "No response generated")
      | _ =>
          t ← replace_trim generated prompt;
          Ok (match t with
              | [] => Str.lit "No response generated"
              | _ => t
              end)
      end
  end.

End Net.

(** * llmService.ts with tool calling (unnamed/part_001, first service) *)
Module LLMService.
Import JS Net.

Record ToolCall := { name : value; arguments : value }.

Record LLMResponse := {
  text : value;
  toolCalls : option (list ToolCall)
}.

Section Service.

(** The constants of the module, the page address and the backends. The
    entries of [EXCEL_TOOLS] are given by their [function] member. *)
Variable EXCEL_SYSTEM_PROMPT : jsstring.
Variable EXCEL_TOOLS : list value.
Variable href : jsstring.
Variable net : network.

Let IO := Eff.M request.

(** [tc => ({ name: tc.function.name, arguments: JSON.parse(tc.function.arguments) })] *)
Definition convertToolCall (tc : value) : result ToolCall :=
  f ← get tc (Str.lit "function");
  n ← get f (Str.lit "name");
  a ← get f (Str.lit "arguments");
  text ← toString a;
  match Json.parse text with
  | Some parsed => Ok {| name := n; arguments := parsed |}
  | None => Throw (Exn SyntaxError (Str.lit "Unexpected token in JSON"))
  end.

Fixpoint mapResult {A B} (f : A -> result B) (l : list A) : result (list B) :=
  match l with
  | [] => Ok []
  | x :: rest =>
      y ← f x;
      ys ← mapResult f rest;
      Ok (y :: ys)
  end.

Definition callOpenRouter (messages : list ChatMessage) (apiKey model : jsstring)
  : IO LLMResponse :=
  response ← fetch net
    {| url := OPENROUTER_URL;
       headers := [bearer apiKey;
                   (Str.lit "Content-Type", Str.lit "application/json");
                   (Str.lit "HTTP-Referer", href);
                   (Str.lit "X-Title", Str.lit "Excel AI Assistant")];
       body := Json.stringify_text
                 (VObj [(Str.lit "model", VStr model);
                        (Str.lit "messages", VArr (map message_value messages));
                        (Str.lit "tools",
                         VArr (map (fun f => VObj [(Str.lit "type", str "function");
                                                   (Str.lit "function", f)])
                                 EXCEL_TOOLS));
                        (Str.lit "tool_choice", str "auto");
                        (Str.lit "temperature", number_0_7);
                        (Str.lit "max_tokens", int 2000)]) |};
  if negb (ok response) then Eff.lift (error_of_message_field "OpenRouter" response)
  else
    Eff.lift
      (data ← json response;
       choices ← get data (Str.lit "choices");
       choice ← index choices 0;
       message ← get choice (Str.lit "message");
       content ← get message (Str.lit "content");
       tool_calls ← get message (Str.lit "tool_calls");
       calls ← (if truthy tool_calls then
                  match tool_calls with
                  | VArr l => l' ← mapResult convertToolCall l; Ok (Some l')
                  | _ => Throw (Exn TypeError
                                  (Str.lit "message.tool_calls.map is not a function"))
                  end
                else Ok None);
       Ok {| text := or_else content (VStr []); toolCalls := calls |}).

(** The loop [for (const part of parts)] of [callGemini]. *)
Fixpoint geminiParts (parts : list value) (text : jsstring)
  (toolCalls : list ToolCall) : result (jsstring * list ToolCall) :=
  match parts with
  | [] => Ok (text, toolCalls)
  | part :: rest =>
      t ← get part (Str.lit "text");
      text ← (if truthy t then added ← toString t; Ok (text ++ added)
              else Ok text);
      functionCall ← get part (Str.lit "functionCall");
      if truthy functionCall then
        n ← get functionCall (Str.lit "name");
        a ← get functionCall (Str.lit "args");
        geminiParts rest text (toolCalls ++ [{| name := n; arguments := a |}])
      else geminiParts rest text toolCalls
  end.

Definition callGemini (messages : list ChatMessage) (apiKey : jsstring)
  (excelContext : option jsstring) : IO LLMResponse :=
  let prompt := conversation_prompt EXCEL_SYSTEM_PROMPT messages excelContext in
  let tools :=
    VArr [VObj [(Str.lit "function_declarations",
                 VArr [nth 0 EXCEL_TOOLS VUndefined])]] in
  response ← fetch net
    {| url := GEMINI_URL ++ apiKey;
       headers := json_headers;
       body := Json.stringify_text
                 (VObj [(Str.lit "contents", gemini_contents prompt);
                        (Str.lit "tools", tools);
                        (Str.lit "generationConfig", generation_config)]) |};
  if negb (ok response) then Eff.lift (error_of_message_field "Gemini" response)
  else
    Eff.lift
      (data ← json response;
       candidates ← get data (Str.lit "candidates");
       candidate ← index candidates 0;
       content ← get candidate (Str.lit "content");
       parts ← get content (Str.lit "parts");
       '(text, toolCalls) ←
         match parts with
         | VArr l => geminiParts l [] []
         | VStr _ => Ok ([], [])
         | VUndefined | VNull | VBool _ | VNum _ _ | VObj _ | VBuiltin _ =>
             Throw (Exn TypeError (Str.lit "parts is not iterable"))
         end;
       Ok {| text := VStr text;
             toolCalls := match toolCalls with [] => None | _ => Some toolCalls end |}).

Definition callHuggingFace (messages : list ChatMessage) (apiKey : jsstring)
  (excelContext : option jsstring) : IO jsstring :=
  let prompt := conversation_prompt EXCEL_SYSTEM_PROMPT messages excelContext in
  response ← fetch net (huggingface_request prompt apiKey);
  if negb (ok response) then Eff.lift (error_of_error_field response)
  else Eff.lift (data ← json response; huggingface_text prompt data).

(** [LLMService.chat(messages, excelContext)], reading its settings from
    the storage [st]. *)
Definition chat (st : StorageService.storage) (messages : list ChatMessage)
  (excelContext : option jsstring) : IO LLMResponse :=
  let settings := StorageService.getSettings st in
  match StorageService.apiKey settings with
  | None | Some [] =>
      Eff.throw (Exn Error (Str.lit "Please configure your API key in Settings"))
  | Some apiKey =>
      let fullMessages :=
        {| role := Str.lit "system";
           content := EXCEL_SYSTEM_PROMPT ++ context_suffix excelContext |}
        :: messages in
      let provider := StorageService.provider settings in
      if Str.eqb provider (Str.lit "openrouter") then
        callOpenRouter fullMessages apiKey (StorageService.model settings)
      else if Str.eqb provider (Str.lit "gemini") then
        callGemini messages apiKey excelContext
      else if Str.eqb provider (Str.lit "huggingface") then
        text ← callHuggingFace messages apiKey excelContext;
        mret {| text := VStr text; toolCalls := None |}
      else
        Eff.throw (Exn Error (Str.lit "Unknown provider: " ++ provider))
  end.

End Service.

End LLMService.

(** * llmService.ts without tools (unnamed/part_001, second service) *)
Module LLMServiceText.
Import JS Net.

Section Service.

Variable EXCEL_SYSTEM_PROMPT : jsstring.
Variable href : jsstring.
Variable net : network.

Let IO := Eff.M request.

Definition callOpenRouter (messages : list ChatMessage) (apiKey model : jsstring)
  : IO value :=
  response ← fetch net
    {| url := OPENROUTER_URL;
       headers := [bearer apiKey;
                   (Str.lit "Content-Type", Str.lit "application/json");
                   (Str.lit "HTTP-Referer", href);
                   (Str.lit "X-Title", Str.lit "Excel AI Assistant")];
       body := Json.stringify_text
                 (VObj [(Str.lit "model", VStr model);
                        (Str.lit "messages", VArr (map message_value messages));
                        (Str.lit "temperature", number_0_7);
                        (Str.lit "max_tokens", int 2000)]) |};
  if negb (ok response) then Eff.lift (error_of_message_field "OpenRouter" response)
  else
    Eff.lift
      (data ← json response;
       choices ← get data (Str.lit "choices");
       choice ← index choices 0;
       message ← get choice (Str.lit "message");
       get message (Str.lit "content")).

Definition callGemini (messages : list ChatMessage) (apiKey : jsstring)
  (excelContext : option jsstring) : IO value :=
  let prompt := conversation_prompt EXCEL_SYSTEM_PROMPT messages excelContext in
  response ← fetch net
    {| url := GEMINI_URL ++ apiKey;
       headers := json_headers;
       body := Json.stringify_text
                 (VObj [(Str.lit "contents", gemini_contents prompt);
                        (Str.lit "generationConfig", generation_config)]) |};
  if negb (ok response) then Eff.lift (error_of_message_field "Gemini" response)
  else
    Eff.lift
      (data ← json response;
       candidates ← get data (Str.lit "candidates");
       candidate ← index candidates 0;
       content ← get candidate (Str.lit "content");
       parts ← get content (Str.lit "parts");
       part ← index parts 0;
       get part (Str.lit "text")).

Definition callHuggingFace (messages : list ChatMessage) (apiKey : jsstring)
  (excelContext : option jsstring) : IO value :=
  let prompt := conversation_prompt EXCEL_SYSTEM_PROMPT messages excelContext in
  response ← fetch net (huggingface_request prompt apiKey);
  if negb (ok response) then Eff.lift (error_of_error_field response)
  else Eff.lift (data ← json response;
                 t ← huggingface_text prompt data;
                 Ok (VStr t)).

(** [LLMService.chat(messages, excelContext)] *)
Definition chat (st : StorageService.storage) (messages : list ChatMessage)
  (excelContext : option jsstring) : IO value :=
  let settings := StorageService.getSettings st in
  match StorageService.apiKey settings with
  | None | Some [] =>
      Eff.throw (Exn Error (Str.lit "Please configure your API key in Settings"))
  | Some apiKey =>
      let fullMessages :=
        {| role := Str.lit "system";
           content := EXCEL_SYSTEM_PROMPT ++ context_suffix excelContext |}
        :: messages in
      let provider := StorageService.provider settings in
      if Str.eqb provider (Str.lit "openrouter") then
        callOpenRouter fullMessages apiKey (StorageService.model settings)
      else if Str.eqb provider (Str.lit "gemini") then
        callGemini messages apiKey excelContext
      else if Str.eqb provider (Str.lit "huggingface") then
        callHuggingFace messages apiKey excelContext
      else
        Eff.throw (Exn Error (Str.lit "Unknown provider: " ++ provider))
  end.

End Service.

End LLMServiceText.

(** * ChatInterface.tsx: from the model's response to the pending batch *)
Module ChatInterface.
Import JS.

(** The component state [pendingActions] is followed through the calls of
    [setPendingActions]: the log holds their arguments in order, and the
    state after the handler is the last of them. *)
Definition UI := Eff.M value.

Definition setPendingActions (actions : value) : UI unit :=
  fun log => (Ok tt, log ++ [actions]).

Definition pendingActions (log : list value) : value := List.last log (VArr []).

(** [extractExcelActions(content)]; [VNull] is its [null]. *)
Definition extractExcelActions (content : value) : result value :=
  match content with
  | VStr s =>
      match Fence.capture s with
      | Some (c :: body) =>
          match Json.parse (c :: body) with
          | Some v => Ok v
          | None => Ok VNull
          end
      | _ => Ok VNull
      end
  | VUndefined | VNull => get content (Str.lit "match")
  | _ => Throw (Exn TypeError (Str.lit "content.match is not a function"))
  end.

(** [content.replace(/```excel-json[\s\S]*?```/, '').trim()] *)
Definition stripBlock (content : value) : result jsstring :=
  match content with
  | VStr s => Ok (Str.trim (Fence.remove s))
  | VUndefined | VNull => bind (get content (Str.lit "replace")) (fun _ => Ok [])
  | _ => Throw (Exn TypeError (Str.lit "content.replace is not a function"))
  end.

(** The callback of [toolCalls.flatMap]. *)
Definition operationsOf (tc : LLMService.ToolCall) : result value :=
  if is_string (LLMService.name tc) (Str.lit "execute_excel_operations") then
    operations ← get (LLMService.arguments tc) (Str.lit "operations");
    Ok (or_else operations (VArr []))
  else Ok (VArr []).

(** [toolCalls.flatMap(callback)]: an array result is spliced in, any other
    result is one element. *)
Fixpoint flatMapOperations (toolCalls : list LLMService.ToolCall)
  : result (list value) :=
  match toolCalls with
  | [] => Ok []
  | tc :: rest =>
      r ← operationsOf tc;
      rs ← flatMapOperations rest;
      Ok (match r with
          | VArr l => l ++ rs
          | _ => r :: rs
          end)
  end.

Definition PREPARED_REVIEW : jsstring :=
  Str.lit "I have prepared the changes for you. Please review and apply them.".
Definition PREPARED : jsstring :=
  Str.lit "I have prepared the changes for you.".

(** [sendMessage] of unnamed/part_004 (first component), from the value
    that [LLMService.chat] resolved to up to the content of the assistant
    message. It runs after [setPendingActions([])]. *)
Definition handleResponse (response : LLMService.LLMResponse) : UI value :=
  let assistantContent := or_else (LLMService.text response) (VStr []) in
  assistantContent ←
    match LLMService.toolCalls response with
    | Some (tc :: tcs) =>
        allOperations ← Eff.lift (flatMapOperations (tc :: tcs));
        match allOperations with
        | _ :: _ =>
            setPendingActions (VArr allOperations);;
            mret (if negb (truthy assistantContent)
                  then VStr PREPARED_REVIEW else assistantContent)
        | [] => mret assistantContent
        end
    | _ => mret assistantContent
    end;
  actionsData ← Eff.lift (extractExcelActions assistantContent);
  if truthy actionsData then
    operations ← Eff.lift (get actionsData (Str.lit "operations"));
    if truthy operations then
      setPendingActions operations;;
      stripped ← Eff.lift (stripBlock assistantContent);
      mret (VStr (match stripped with [] => PREPARED | _ => stripped end))
    else mret assistantContent
  else mret assistantContent.

(** The handler from [setPendingActions([])] on. *)
Definition sendMessage (response : LLMService.LLMResponse)
  : result value * list value :=
  (setPendingActions (VArr []);; handleResponse response) [].

End ChatInterface.

(** * ChatInterface.tsx of the text-only service (unnamed/part_004, second
    component) *)
Module ChatInterfaceText.
Import JS.

(** [sendMessage], from the string that [LLMService.chat] resolved to up to
    the last [setPendingActions]; the result is the content of the assistant
    message. *)
Definition handleResponse (response : value) : ChatInterface.UI value :=
  actionsData ← Eff.lift (ChatInterface.extractExcelActions response);
  cleanResponse ← Eff.lift (ChatInterface.stripBlock response);
  let content :=
    match cleanResponse with
    | [] => if truthy actionsData then VStr ChatInterface.PREPARED else response
    | _ => VStr cleanResponse
    end in
  (if truthy actionsData then
     operations ← Eff.lift (get actionsData (Str.lit "operations"));
     Eff.when (truthy operations) (ChatInterface.setPendingActions operations)
   else mret tt);;
  mret content.

Definition sendMessage (response : value) : result value * list value :=
  (ChatInterface.setPendingActions (VArr []);; handleResponse response) [].

End ChatInterfaceText.

(** * SettingsPanel.tsx: saving and clearing the settings *)
Module SettingsPanel.

(** [handleSave], on the storage: the key is saved only when it is not
    blank, the provider and the model always. *)
Definition handleSave (apiKey provider model : jsstring)
  (st : StorageService.storage) : StorageService.storage :=
  let st :=
    match Str.trim apiKey with
    | [] => st
    | c :: key => StorageService.saveApiKey (c :: key) st
    end in
  let st := StorageService.saveProvider provider st in
  StorageService.saveModel model st.

(** [handleClearKey], on the storage. *)
Definition handleClearKey (st : StorageService.storage) : StorageService.storage :=
  StorageService.clearApiKey st.

(** The key the panel shows when it opens: [settings.apiKey || '']. *)
Definition shownApiKey (st : StorageService.storage) : jsstring :=
  match StorageService.apiKey (StorageService.getSettings st) with
  | Some key => key
  | None => []
  end.

End SettingsPanel.

(** * contextBuilder.ts: the workbook context of the tool-calling chat *)
Module ContextBuilder.

Record SheetInfo := {
  sheetName : jsstring;
  rowCount : Z;
  columnCount : Z;
  visibility : jsstring
}.

Record TableInfo := { tableName : jsstring; sheet : jsstring; range : jsstring }.

Record NamedRange := { rangeName : jsstring; formula : jsstring }.

Record WorkbookMetadata := {
  sheets : list SheetInfo;
  tables : list TableInfo;
  namedRanges : list NamedRange;
  activeSheet : jsstring
}.

Definition newline : jsstring := [10].

(** [buildContextString(metadata, activeSheetData)] *)
Definition buildContextString (metadata : WorkbookMetadata)
  (activeSheetData : option jsstring) : jsstring :=
  let context := Str.lit "WORKBOOK CONTEXT:" ++ newline in
  let context :=
    context ++ Str.lit "Active Sheet: " ++ activeSheet metadata ++ newline in
  let context := context ++ newline ++ Str.lit "Sheets:" ++ newline in
  let context :=
    fold_left
      (fun context s =>
         context ++ Str.lit "- " ++ sheetName s ++ Str.lit " (" ++ visibility s
         ++ Str.lit ")" ++ newline)
      (sheets metadata) context in
  let context :=
    match tables metadata with
    | [] => context
    | _ =>
        fold_left
          (fun context t => context ++ Str.lit "- " ++ tableName t ++ newline)
          (tables metadata)
          (context ++ newline ++ Str.lit "Tables:" ++ newline)
    end in
  let context :=
    match namedRanges metadata with
    | [] => context
    | _ =>
        fold_left
          (fun context n =>
             context ++ Str.lit "- " ++ rangeName n ++ Str.lit " (" ++ formula n
             ++ Str.lit ")" ++ newline)
          (namedRanges metadata)
          (context ++ newline ++ Str.lit "Named Ranges:" ++ newline)
    end in
  match activeSheetData with
  | Some (c :: data) =>
      context ++ newline ++ Str.lit "ACTIVE SHEET DATA:" ++ newline ++ c :: data
  | _ => context
  end.

End ContextBuilder.

(** * ChatInterface.tsx: the handlers around the conversation *)
Module ChatPanel.
Import JS.

(** A message of the conversation; [timestamp] is the text of the date. *)
Record Message := {
  id : jsstring;
  role : jsstring;
  content : jsstring;
  timestamp : jsstring
}.

(** The state of the component that the handlers below read or write. *)
Record State := {
  messages : list Message;
  pendingActions : list value;
  error : option jsstring;
  executingActions : bool
}.


(** The content of the message that reports a successful apply. The file of
    the tool-calling component holds U+201A U+00FA U+00D6 before the text
    (the bytes of the check mark U+2705 read in another encoding); the
    text-only component holds U+2705 itself. *)
Definition APPLIED : jsstring :=
  [8218; 250; 214] ++ Str.lit " Changes applied successfully!".

Section Apply.

Variable rejects : Host.oracle.
Variable now : Z.
Variable excelAvailable : bool.

(** [handleApplyActions]: the new state and the log of the host.
    [appliedAt] is the value of [Date.now()] and [date] the text of
    [new Date()] when the success message is made. *)
Definition handleApplyActions (appliedAt : Z) (date : jsstring) (st : State)
  (log : list Host.event) : State * list Host.event :=
  match pendingActions st with
  | [] => (st, log)
  | _ =>
      match ExcelService.executeOperations rejects now excelAvailable
              (pendingActions st) log with
      | (Ok _, log') =>
          ({| messages :=
                messages st
                ++ [{| id := Str.ofZ appliedAt; role := Str.lit "assistant";
                       content := APPLIED; timestamp := date |}];
              pendingActions := [];
              error := error st;
              executingActions := false |},
           log')
      | (Throw e, log') =>
          ({| messages := messages st;
              pendingActions := pendingActions st;
              error := Some (Str.lit "Failed to apply changes: " ++ message e);
              executingActions := false |},
           log')
      end
  end.

(** [handleCitationClick(address)]: the [catch] reports a failure to the
    console and nothing is thrown. *)
Definition handleCitationClick (address : jsstring)
  : Eff.M Host.event unit :=
  Eff.try_catch
    (Host.request rejects
       (Host.Call (Str.lit "context.workbook.worksheets.getActiveWorksheet") []);;
     Host.request rejects (Host.Call (Str.lit "sheet.getRange") [VStr address]);;
     Host.request rejects (Host.Call (Str.lit "range.select") []);;
     Host.request rejects Host.Sync)
    (fun _ => Host.console "error" (Str.lit "Failed to navigate to citation")).

End Apply.

(** [clearChat], on the state and the storage. *)
Definition clearChat (st : State) (store : StorageService.storage)
  : State * StorageService.storage :=
  ({| messages := []; pendingActions := []; error := error st;
      executingActions := executingActions st |},
   StorageService.clearMessages store).

(** A part of a rendered message: plain text, or a citation with the
    address it holds. *)
Inductive part :=
| Text (s : jsstring)
| Citation (address : jsstring).

Definition CELL : jsstring := Str.lit "[Cell: ".

(** The address of a citation that starts here: the characters up to the
    first closing bracket, at least one, and the text after that
    bracket. *)
Fixpoint address_here (acc s : jsstring) : option (jsstring * jsstring) :=
  match s with
  | [] => None
  | c :: rest =>
      if c =? 93 then match acc with [] => None | _ => Some (rev acc, rest) end
      else address_here (c :: acc) rest
  end.

(** A match of [/\[Cell: ([^\]]+)\]/] at the start of [s]: the address and
    the text after the match. *)
Definition citation_here (s : jsstring) : option (jsstring * jsstring) :=
  if Str.startsWith CELL s then address_here [] (skipn (length CELL) s)
  else None.

(** The leftmost match of [/\[Cell: ([^\]]+)\]/]: the text before it, the
    address and the text after it. *)
Fixpoint find_citation (s : jsstring) : option (jsstring * jsstring * jsstring) :=
  match citation_here s with
  | Some (address, post) => Some ([], address, post)
  | None =>
      match s with
      | [] => None
      | c :: rest =>
          match find_citation rest with
          | Some (pre, address, post) => Some (c :: pre, address, post)
          | None => None
          end
      end
  end.

(** [content.split(/(\[Cell: [^\]]+\])/)] with each part classified as
    [renderMessageContent] does. Every match consumes text, so [length s]
    units of fuel are enough for [s]. *)
Fixpoint split_citations (fuel : nat) (s : jsstring) : list part :=
  match fuel with
  | O => [Text s]
  | S fuel' =>
      match find_citation s with
      | Some (pre, address, post) =>
          Text pre :: Citation address :: split_citations fuel' post
      | None => [Text s]
      end
  end.

Definition renderMessageContent (content : jsstring) : list part :=
  split_citations (length content) content.

(** The text that a part shows. *)
Definition shown (p : part) : jsstring :=
  match p with
  | Text s => s
  | Citation address => CELL ++ address ++ [93]
  end.

End ChatPanel.

(** * Definitions for the statements *)

(** The numbers below [n]. *)
Definition below (n : N) : list N := map N.of_nat (seq 0 (N.to_nat n)).

(** The encoding without its padding, and the padding alone. *)
Fixpoint unpadded (bytes : list N) : jsstring :=
  match bytes with
  | [] => []
  | [a] => [Base64.enc (N.shiftr a 2); Base64.enc (N.shiftl (N.land a 3) 4)]
  | [a; b] =>
      [Base64.enc (N.shiftr a 2);
       Base64.enc (N.lor (N.shiftl (N.land a 3) 4) (N.shiftr b 4));
       Base64.enc (N.shiftl (N.land b 15) 2)]
  | a :: b :: c :: rest =>
      Base64.enc (N.shiftr a 2)
      :: Base64.enc (N.lor (N.shiftl (N.land a 3) 4) (N.shiftr b 4))
      :: Base64.enc (N.lor (N.shiftl (N.land b 15) 2) (N.shiftr c 6))
      :: Base64.enc (N.land c 63)
      :: unpadded rest
  end.

Fixpoint padding (bytes : list N) : jsstring :=
  match bytes with
  | [] => []
  | [_] => [61; 61]
  | [_; _] => [61]
  | _ :: _ :: _ :: rest => padding rest
  end.

(** A character of the base64 alphabet. *)
Definition in_alphabet (c : N) : Prop := exists x, Base64.dec c = Some x.

(** The value [null] or [undefined]. *)
Definition nullish (v : JS.value) : bool :=
  match v with
  | JS.VUndefined | JS.VNull => true
  | _ => false
  end.

(** [c] only appends to the log, and every event it appends satisfies
    [P]. *)
Definition emits {E A} (P : E -> Prop) (c : Eff.M E A) : Prop :=
  forall log, exists evs, snd (c log) = log ++ evs /\ Forall P evs.

(** Events that are not a synchronization. *)
Definition quiet (ev : Host.event) : Prop := Host.is_sync ev = false.

(** The request that opens every batch. *)
Definition getActiveWorksheet : Host.event :=
  Host.Call (Str.lit "context.workbook.worksheets.getActiveWorksheet") [].

(** [{ action: 'setCellValue', address: 'A1', value: 5 }] *)
Definition setCellValue_A1 : JS.value :=
  JS.VObj [(Str.lit "action", JS.str "setCellValue");
           (Str.lit "address", JS.str "A1");
           (Str.lit "value", JS.int 5)].

(** The two requests of [setCellValue_A1]. *)
Definition getRange_A1 : Host.event :=
  Host.Call (Str.lit "sheet.getRange") [JS.str "A1"].

Definition setValues_5 : Host.event :=
  Host.Assign (Str.lit "range.values") (JS.VArr [JS.VArr [JS.int 5]]).

(** The request that [case 'sortRange'] sends for the sort. *)
Definition sortApply (key : JS.value) (ascending : bool)
  (matchCase hasHeaders orientation : JS.value) : Host.event :=
  Host.Call (Str.lit "sortRange.sort.apply")
    [JS.VArr [JS.VObj [(Str.lit "key", key);
                       (Str.lit "ascending", JS.VBool ascending)]];
     matchCase; hasHeaders; orientation].

(** The missing-credential error of [chat]. *)
Definition MISSING_KEY : JS.exn :=
  JS.Exn JS.Error (Str.lit "Please configure your API key in Settings").

(** The message the specification asks for: the one the backend supplied,
    or else the generic one. *)
Definition expected_message (provider : string) (status : Z)
  (supplied : option jsstring) : jsstring :=
  match supplied with
  | Some m => m
  | None => Str.lit provider ++ Str.lit " API error: " ++ Str.ofZ status
  end.

(** A backend that answers every request with status 500 and the JSON text
    [null]. *)
Definition null_body : Net.network :=
  fun _ _ => Net.Responded 500 (Str.lit "null").

(** What reading [error.error] throws when [error] is [null]. *)
Definition reading_error_of_null : JS.exn :=
  JS.Exn JS.TypeError (Str.lit "Cannot read properties of null (reading 'error')").

(** A conversation of one user turn. *)
Definition user_turn : Net.ChatMessage :=
  {| Net.role := Str.lit "user"; Net.content := Str.lit "Set A1 to 5" |}.

(** [stripped || fallback] *)
Definition shown_or (fallback stripped : jsstring) : jsstring :=
  match stripped with
  | [] => fallback
  | _ => stripped
  end.

(** The text of a response that announces a change and carries the block
    [{"operations":[{"action":"setCellValue","address":"B2","value":"text"}]}]. *)
Definition text_with_block : jsstring :=
  Str.lit "Done. ```excel-json" ++ [10]
  ++ Str.json "{'operations':[{'action':'setCellValue','address':'B2','value':'text'}]}"
  ++ [10] ++ Str.lit "```".

(** [{ action: 'setCellValue', address: 'B2', value: 'text' }] *)
Definition setCellValue_B2 : JS.value :=
  JS.VObj [(Str.lit "action", JS.str "setCellValue");
           (Str.lit "address", JS.str "B2");
           (Str.lit "value", JS.str "text")].

(** A response with a native call for [setCellValue_A1] and, in its text, a
    block for [setCellValue_B2]. *)
Definition native_and_block : LLMService.LLMResponse :=
  {| LLMService.text := JS.VStr text_with_block;
     LLMService.toolCalls :=
       Some [{| LLMService.name := JS.str "execute_excel_operations";
                LLMService.arguments :=
                  JS.VObj [(Str.lit "operations", JS.VArr [setCellValue_A1])] |}] |}.

(** The text of a response whose block is cut short and is not JSON. *)
Definition text_with_malformed_block : jsstring :=
  Str.lit "I will set the header. ```excel-json" ++ [10]
  ++ Str.json "{'operations':[{'action':'setCellValue','address':" ++ [10]
  ++ Str.lit "``` Let me know.".

(** A value that is no object: a string, a number, a boolean, [null] or
    [undefined]. The cells of a range, as the host delivers them, are
    strings, numbers and booleans. *)
Definition primitive (v : JS.value) : bool :=
  match v with
  | JS.VObj _ | JS.VArr _ | JS.VBuiltin _ => false
  | _ => true
  end.

(** The text of a primitive. *)
Definition primitive_text (v : JS.value) : jsstring :=
  match v with
  | JS.VUndefined => Str.lit "undefined"
  | JS.VNull => Str.lit "null"
  | JS.VBool true => Str.lit "true"
  | JS.VBool false => Str.lit "false"
  | JS.VNum m e => JS.number_to_string m e
  | JS.VStr s => s
  | _ => []
  end.

(** The value can be converted to a string. *)
Definition prints (v : JS.value) : bool :=
  match JS.toString v with
  | JS.Ok _ => true
  | JS.Throw _ => false
  end.

(** The message with which the [catch] of the loop reports a failure of the
    operation can be built: [op.action] and [op.address] can be read and
    converted to strings. So it is for every operation that is an object
    with a string, a number or nothing as its action and address. *)
Definition reportable (op : JS.value) : bool :=
  match JS.get op (Str.lit "action"), JS.get op (Str.lit "address") with
  | JS.Ok action, JS.Ok address => prints action && prints address
  | _, _ => false
  end.

(** The preview as the specification describes it: the first 20 rows, one
    line each, numbered from 1, then a note with the number of rows left
    out, if any; likewise for the formula cells, which are the cells of the
    formula grid that hold a text starting with [=], row by row and from
    left to right. *)
Module PreviewSpec.
Import JS.

Definition newline : jsstring := [10].

(** The text of a cell in a row of the preview; an empty cell has none. *)
Definition cellText (cell : value) : jsstring :=
  match cell with
  | VUndefined | VNull => []
  | _ => primitive_text cell
  end.

Definition rowLine (label : nat) (row : list value) : jsstring :=
  Str.lit "Row " ++ Str.ofN (N.of_nat label) ++ Str.lit ": "
  ++ Str.join (Str.lit " | ") (map cellText row) ++ newline.

Fixpoint rowLines (label : nat) (rows : list (list value)) : jsstring :=
  match rows with
  | [] => []
  | row :: rest => rowLine label row ++ rowLines (S label) rest
  end.

Definition rowsHeading (shown : nat) : jsstring :=
  Str.lit "Data Preview (first " ++ Str.ofN (N.of_nat shown)
  ++ Str.lit " rows):" ++ newline.

Definition rowsMarker (left_out : nat) : jsstring :=
  Str.lit "... and " ++ Str.ofN (N.of_nat left_out) ++ Str.lit " more rows"
  ++ newline.

(** The elements of a list with their positions, counted from 0. *)
Definition indexed {A} (l : list A) : list (nat * A) :=
  combine (seq 0 (length l)) l.

(** The letter of a column, as the preview labels it: [A] for the first
    column and the characters that follow it in the code chart. *)
Definition columnLetter (column : nat) : jsstring :=
  [(65 + N.of_nat column) mod 65536].

(** The entry of one cell of the formula grid: none unless the cell holds a
    text that starts with [=]. *)
Definition formulaCell (row column : nat) (cell : value) : list jsstring :=
  match cell with
  | VStr formula =>
      if Str.startsWith (Str.lit "=") formula
      then [columnLetter column ++ Str.ofN (N.of_nat row + 1) ++ Str.lit ": "
            ++ formula]
      else []
  | _ => []
  end.

Definition formulaCells (formulas : list (list value)) : list jsstring :=
  flat_map
    (fun r => flat_map (fun c => formulaCell (fst r) (fst c) (snd c))
                (indexed (snd r)))
    (indexed formulas).

Definition formulaLine (cell : jsstring) : jsstring :=
  Str.lit "  " ++ cell ++ newline.

Definition formulasHeading : jsstring :=
  newline ++ Str.lit "FORMULAS IN SHEET:" ++ newline.

Definition formulasMarker (left_out : nat) : jsstring :=
  Str.lit "  ... and " ++ Str.ofN (N.of_nat left_out)
  ++ Str.lit " more formulas" ++ newline.

Definition dataSection (rows : list (list value)) : jsstring :=
  match rows with
  | [] => []
  | _ =>
      if (length rows <=? 20)%nat
      then rowsHeading (length rows) ++ rowLines 1 rows
      else rowsHeading 20 ++ rowLines 1 (firstn 20 rows)
           ++ rowsMarker (length rows - 20)
  end.

Definition formulaSection (cells : list jsstring) : jsstring :=
  match cells with
  | [] => []
  | _ =>
      if (length cells <=? 20)%nat
      then formulasHeading ++ concat (map formulaLine cells)
      else formulasHeading ++ concat (map formulaLine (firstn 20 cells))
           ++ formulasMarker (length cells - 20)
  end.

End PreviewSpec.

(** What precedes the previews in the context: the workbook lines and the
    two lines about the active sheet. *)
Definition preamble (workbook : ExcelService.WorkbookContext)
  (data : ExcelService.SheetData) : jsstring :=
  (((Str.lit "CURRENT EXCEL WORKBOOK STATE:" ++ [10])
    ++ Str.lit "Active Sheet: " ++ [34] ++ ExcelService.activeSheetName workbook
    ++ [34] ++ [10])
   ++ Str.lit "Available Sheets: "
   ++ Str.join (Str.lit ", ") (ExcelService.sheets workbook) ++ [10] ++ [10])
  ++ (Str.lit "ACTIVE SHEET DATA (" ++ ExcelService.usedRange data
      ++ Str.lit "):" ++ [10])
  ++ (Str.lit "Rows: " ++ Str.ofZ (ExcelService.rowCount data)
      ++ Str.lit ", Columns: " ++ Str.ofZ (ExcelService.columnCount data)
      ++ [10] ++ [10]).

(** A sheet of 25 rows, 21 of which hold a formula in column B. *)
Definition sheet25 : ExcelService.SheetData :=
  {| ExcelService.name := Str.lit "Sheet1";
     ExcelService.usedRange := Str.lit "Sheet1!A1:B25";
     ExcelService.values := repeat [JS.str "Item"; JS.int 7] 25;
     ExcelService.formulas :=
       repeat [JS.str "Item"; JS.str "=A1*2"] 21
       ++ repeat [JS.str "Item"; JS.int 7] 4;
     ExcelService.rowCount := 25;
     ExcelService.columnCount := 2 |}.

(** The workbook whose active sheet it is. *)
Definition workbook25 : ExcelService.WorkbookContext :=
  {| ExcelService.activeSheetName := Str.lit "Sheet1";
     ExcelService.sheets := [Str.lit "Sheet1"; Str.lit "Notes"];
     ExcelService.activeSheetData := Some sheet25 |}.

(** The actions that the [switch] of unnamed/part_003 has a [case] for. *)
Definition KNOWN_ACTIONS : list string :=
  ["setCellValue"; "setFormula"; "format"; "createTable"; "createChart";
   "createWorksheet"; "activateWorksheet"; "deleteWorksheet"; "autoFit";
   "sortRange"; "filterRange"; "createPivotTable"; "insertRows"; "deleteRows";
   "insertColumns"; "deleteColumns"; "renameWorksheet"; "hideWorksheet";
   "unhideWorksheet"]%string.

(** A host that accepts the request for the active worksheet and the
    synchronization and rejects every other request. *)
Definition grudging : Host.oracle :=
  fun _ ev =>
    match ev with
    | Host.Sync => false
    | Host.Call path [] =>
        negb (Str.eqb path (Str.lit "context.workbook.worksheets.getActiveWorksheet"))
    | _ => true
    end.

(** A host that rejects every synchronization and nothing else. *)
Definition unsynced : Host.oracle := fun _ ev => Host.is_sync ev.

(** The message that reports a successful apply. *)
Definition appliedMessage (appliedAt : Z) (date : jsstring) : ChatPanel.Message :=
  {| ChatPanel.id := Str.ofZ appliedAt;
     ChatPanel.role := Str.lit "assistant";
     ChatPanel.content := ChatPanel.APPLIED;
     ChatPanel.timestamp := date |}.

(** What one part of a Gemini answer adds to the text, and to the tool
    calls. *)
Definition partText (part : JS.value) : jsstring :=
  match JS.get part (Str.lit "text") with
  | JS.Ok t => if JS.truthy t then primitive_text t else []
  | JS.Throw _ => []
  end.

(** The part is an object whose [text] is no object: a string, as the
    backend sends it, or missing. *)
Definition text_part (part : JS.value) : bool :=
  match JS.get part (Str.lit "text") with
  | JS.Ok t => primitive t
  | JS.Throw _ => false
  end.

Definition partCalls (part : JS.value) : list LLMService.ToolCall :=
  match JS.get part (Str.lit "functionCall") with
  | JS.Ok functionCall =>
      if JS.truthy functionCall then
        match JS.get functionCall (Str.lit "name"),
              JS.get functionCall (Str.lit "args") with
        | JS.Ok n, JS.Ok a =>
            [{| LLMService.name := n; LLMService.arguments := a |}]
        | _, _ => []
        end
      else []
  | JS.Throw _ => []
  end.

(** A store with a key and with a provider that no adapter serves. *)
Definition store_with_unknown_provider : StorageService.storage :=
  StorageService.saveProvider (Str.lit "mistral")
    (StorageService.saveApiKey (Str.lit "sk-or-v1") ∅).

(** A store with a key and the Gemini provider. *)
Definition store_with_gemini : StorageService.storage :=
  StorageService.saveProvider (Str.lit "gemini")
    (StorageService.saveApiKey (Str.lit "AIza-key") ∅).

(** A successful OpenRouter answer whose tool call carries its arguments as
    an object rather than as JSON text. *)
Definition object_arguments_body : jsstring :=
  Str.json "{'choices':[{'message':{'content':null,'tool_calls':[{'function':{'name':'execute_excel_operations','arguments':{'operations':[]}}}]}}]}".

(** A backend that answers every request with the same status and body. *)
Definition answering (status : Z) (body : jsstring) : Net.network :=
  fun _ _ => Net.Responded status body.

(** A HuggingFace answer that repeats the prompt before the generated
    text. *)
Definition echoing_body (prompt : jsstring) : jsstring :=
  Json.stringify_text
    (JS.VArr [JS.VObj [(Str.lit "generated_text",
                        JS.VStr (prompt ++ Str.lit "  Use =SUM(A1:A9). "))]]).

(** What [renderMessageContent] promises of a part: a plain part holds no
    citation, and the address of a citation is not empty and has no closing
    bracket. *)
Definition well_formed_part (p : ChatPanel.part) : Prop :=
  match p with
  | ChatPanel.Text s => ChatPanel.find_citation s = None
  | ChatPanel.Citation address => address <> [] /\ ~ In 93 address
  end.


(** The four requests of a citation click. *)
Definition citation_requests (address : jsstring) : list Host.event :=
  [Host.Call (Str.lit "context.workbook.worksheets.getActiveWorksheet") [];
   Host.Call (Str.lit "sheet.getRange") [JS.VStr address];
   Host.Call (Str.lit "range.select") [];
   Host.Sync].


(** The block of [text_with_block] as [extractExcelActions] captures it. *)
Definition block_body : jsstring :=
  Str.json "{'operations':[{'action':'setCellValue','address':'B2','value':'text'}]}"
  ++ [10].

(** The block of [text_with_malformed_block] as it is captured. *)
Definition malformed_body : jsstring :=
  Str.json "{'operations':[{'action':'setCellValue','address':" ++ [10].

(** A workbook of two sheets, one table and one named range. *)
Definition sales_workbook : ContextBuilder.WorkbookMetadata :=
  {| ContextBuilder.sheets :=
       [{| ContextBuilder.sheetName := Str.lit "Sales";
           ContextBuilder.rowCount := 120; ContextBuilder.columnCount := 6;
           ContextBuilder.visibility := Str.lit "Visible" |};
        {| ContextBuilder.sheetName := Str.lit "Rates";
           ContextBuilder.rowCount := 12; ContextBuilder.columnCount := 2;
           ContextBuilder.visibility := Str.lit "Hidden" |}];
     ContextBuilder.tables :=
       [{| ContextBuilder.tableName := Str.lit "Orders";
           ContextBuilder.sheet := Str.lit "Sales";
           ContextBuilder.range := Str.lit "Sales!A1:F120" |}];
     ContextBuilder.namedRanges :=
       [{| ContextBuilder.rangeName := Str.lit "VAT";
           ContextBuilder.formula := Str.lit "=Rates!$B$2" |}];
     ContextBuilder.activeSheet := Str.lit "Sales" |}.

(** The names that a workbook context has to mention. *)
Definition names_of (metadata : ContextBuilder.WorkbookMetadata) : list jsstring :=
  ContextBuilder.activeSheet metadata
  :: map ContextBuilder.sheetName (ContextBuilder.sheets metadata)
  ++ map ContextBuilder.tableName (ContextBuilder.tables metadata)
  ++ map ContextBuilder.rangeName (ContextBuilder.namedRanges metadata).

(** The lines and the optional sections of the workbook context. *)
Definition sheetLine (s : ContextBuilder.SheetInfo) : jsstring :=
  Str.lit "- " ++ ContextBuilder.sheetName s ++ Str.lit " ("
  ++ ContextBuilder.visibility s ++ Str.lit ")" ++ ContextBuilder.newline.

Definition tableLine (t : ContextBuilder.TableInfo) : jsstring :=
  Str.lit "- " ++ ContextBuilder.tableName t ++ ContextBuilder.newline.

Definition rangeLine (n : ContextBuilder.NamedRange) : jsstring :=
  Str.lit "- " ++ ContextBuilder.rangeName n ++ Str.lit " ("
  ++ ContextBuilder.formula n ++ Str.lit ")" ++ ContextBuilder.newline.

Definition section (title : jsstring) (lines : list jsstring) : jsstring :=
  match lines with
  | [] => []
  | _ => [10] ++ title ++ [10] ++ concat lines
  end.

(** A string of UTF-16 code units. *)
Definition code_units (s : jsstring) : Prop := Forall (fun c => c < 65536) s.

(** The values that JSON text stands for without loss here: [null],
    booleans, strings, arrays and objects of such, an object with no name
    twice. *)
Inductive plain : JS.value -> Prop :=
| plain_null : plain JS.VNull
| plain_bool (b : bool) : plain (JS.VBool b)
| plain_str (s : jsstring) : code_units s -> plain (JS.VStr s)
| plain_arr (items : list JS.value) : Forall plain items -> plain (JS.VArr items)
| plain_obj (fields : list (jsstring * JS.value)) :
    List.NoDup (map fst fields) ->
    Forall (fun kv => code_units (fst kv) /\ plain (snd kv)) fields ->
    plain (JS.VObj fields).

(** The characters that the text of a plain value starts with. *)
Definition opening (c : N) : Prop :=
  c = 34 \/ c = 91 \/ c = 123 \/ c = 110 \/ c = 116 \/ c = 102.

(** The text of a member of an object. *)
Definition member_text (kv : jsstring * JS.value) : jsstring :=
  Json.quote (fst kv) ++ 58 :: Json.stringify_text (snd kv).

(** A decision procedure for [plain]. *)
Fixpoint distinct (keys : list jsstring) : bool :=
  match keys with
  | [] => true
  | k :: rest => negb (existsb (Str.eqb k) rest) && distinct rest
  end.

Fixpoint is_plain (v : JS.value) : bool :=
  match v with
  | JS.VNull | JS.VBool _ => true
  | JS.VStr s => forallb (fun c => c <? 65536) s
  | JS.VArr items => forallb is_plain items
  | JS.VObj fields =>
      distinct (map fst fields)
      && forallb (fun kv => forallb (fun c => c <? 65536) (fst kv)
                            && is_plain (snd kv)) fields
  | JS.VUndefined | JS.VNum _ _ | JS.VBuiltin _ => false
  end.

(** Two messages as the component keeps them, the time as a text. *)
Definition saved_conversation : list JS.value :=
  [JS.VObj [(Str.lit "id", JS.str "1714550400000");
            (Str.lit "role", JS.str "user");
            (Str.lit "content", JS.VStr (Str.lit "Put " ++ [34] ++ Str.lit "Total"
                                         ++ [34; 10] ++ Str.lit "in C\1"));
            (Str.lit "timestamp", JS.str "2024-05-01T08:00:00.000Z")];
   JS.VObj [(Str.lit "id", JS.str "1714550400001");
            (Str.lit "role", JS.str "assistant");
            (Str.lit "content", JS.VStr (9989 :: 55357 :: 56832 :: Str.lit " Done"));
            (Str.lit "timestamp", JS.str "2024-05-01T08:00:02.000Z")]].

(** What [JSON.parse] makes of [{"toString":1}]: an object that cannot be
    converted to a string. *)
Definition unprintable : JS.value := JS.VObj [(Str.lit "toString", JS.int 1)].

(** [{ action: 'format', address: {"toString":1} }] *)
Definition format_unprintable : JS.value :=
  JS.VObj [(Str.lit "action", JS.str "format");
           (Str.lit "address", unprintable)].

(** * Properties *)

(** ** Checking a property of small numbers by enumeration *)

Lemma N_forall_below (n : N) (P : N -> bool) :
  forallb P (below n) = true -> forall x, x < n -> P x = true.
Proof.
  intros Hall x Hx.
  rewrite forallb_forall in Hall. apply Hall.
  apply in_map_iff. exists (N.to_nat x). split; [lia |].
  apply in_seq. lia.
Qed.

Lemma N_forall_below2 (n m : N) (P : N -> N -> bool) :
  forallb (fun x => forallb (P x) (below m)) (below n) = true ->
  forall x y, x < n -> y < m -> P x y = true.
Proof.
  intros Hall x y Hx Hy.
  apply (N_forall_below m (P x)); [| exact Hy].
  exact (N_forall_below n _ Hall x Hx).
Qed.

(** ** Base64: decoding undoes encoding *)

Lemma dec_enc x : x < 64 -> Base64.dec (Base64.enc x) = Some x.
Proof.
  intros Hx.
  pose proof (N_forall_below 64
                (fun x => match Base64.dec (Base64.enc x) with
                          | Some y => y =? x
                          | None => false
                          end) eq_refl x Hx) as H.
  cbv beta in H.
  destruct (Base64.dec (Base64.enc x)) as [y |]; [| discriminate].
  apply N.eqb_eq in H. now subst.
Qed.

Lemma dec_not_whitespace c x :
  Base64.dec c = Some x -> Base64.is_ascii_whitespace c = false.
Proof.
  intros Hdec.
  destruct (Base64.is_ascii_whitespace c) eqn:Hws; [| reflexivity].
  unfold Base64.is_ascii_whitespace in Hws.
  repeat (apply orb_true_iff in Hws; destruct Hws as [Hws | Hws]);
    apply N.eqb_eq in Hws; subst c; discriminate.
Qed.

Lemma dec_not_pad c x : Base64.dec c = Some x -> c <> 61.
Proof. intros Hdec ->. discriminate. Qed.

Lemma sextet_hi a : a < 256 -> N.shiftr a 2 < 64.
Proof.
  intros Ha. apply N.ltb_lt.
  apply (N_forall_below 256 (fun a => N.shiftr a 2 <? 64)); [vm_compute; reflexivity | exact Ha].
Qed.

Lemma sextet_lo c : c < 256 -> N.land c 63 < 64.
Proof.
  intros Hc. apply N.ltb_lt.
  apply (N_forall_below 256 (fun c => N.land c 63 <? 64)); [vm_compute; reflexivity | exact Hc].
Qed.

Lemma sextet_mid1 a b :
  a < 256 -> b < 256 -> N.lor (N.shiftl (N.land a 3) 4) (N.shiftr b 4) < 64.
Proof.
  intros Ha Hb. apply N.ltb_lt.
  apply (N_forall_below2 256 256
           (fun a b => N.lor (N.shiftl (N.land a 3) 4) (N.shiftr b 4) <? 64));
    [vm_compute; reflexivity | exact Ha | exact Hb].
Qed.

Lemma sextet_mid2 b c :
  b < 256 -> c < 256 -> N.lor (N.shiftl (N.land b 15) 2) (N.shiftr c 6) < 64.
Proof.
  intros Hb Hc. apply N.ltb_lt.
  apply (N_forall_below2 256 256
           (fun b c => N.lor (N.shiftl (N.land b 15) 2) (N.shiftr c 6) <? 64));
    [vm_compute; reflexivity | exact Hb | exact Hc].
Qed.

Lemma byte1_back a b :
  a < 256 -> b < 256 ->
  N.lor (N.shiftl (N.shiftr a 2) 2)
    (N.shiftr (N.lor (N.shiftl (N.land a 3) 4) (N.shiftr b 4)) 4) = a.
Proof.
  intros Ha Hb. apply N.eqb_eq.
  apply (N_forall_below2 256 256
           (fun a b => N.lor (N.shiftl (N.shiftr a 2) 2)
                         (N.shiftr (N.lor (N.shiftl (N.land a 3) 4) (N.shiftr b 4)) 4)
                       =? a));
    [vm_compute; reflexivity | exact Ha | exact Hb].
Qed.

Lemma byte1_last a :
  a < 256 ->
  N.lor (N.shiftl (N.shiftr a 2) 2) (N.shiftr (N.shiftl (N.land a 3) 4) 4) = a.
Proof.
  intros Ha. apply N.eqb_eq.
  apply (N_forall_below 256
           (fun a => N.lor (N.shiftl (N.shiftr a 2) 2)
                       (N.shiftr (N.shiftl (N.land a 3) 4) 4) =? a));
    [vm_compute; reflexivity | exact Ha].
Qed.

Lemma sextet_last1 a : a < 256 -> N.shiftl (N.land a 3) 4 < 64.
Proof.
  intros Ha. apply N.ltb_lt.
  apply (N_forall_below 256 (fun a => N.shiftl (N.land a 3) 4 <? 64));
    [vm_compute; reflexivity | exact Ha].
Qed.

Lemma sextet_last2 b : b < 256 -> N.shiftl (N.land b 15) 2 < 64.
Proof.
  intros Hb. apply N.ltb_lt.
  apply (N_forall_below 256 (fun b => N.shiftl (N.land b 15) 2 <? 64));
    [vm_compute; reflexivity | exact Hb].
Qed.

Lemma byte2_last a b :
  a < 256 -> b < 256 ->
  N.lor (N.shiftl (N.land (N.lor (N.shiftl (N.land a 3) 4) (N.shiftr b 4)) 15) 4)
    (N.shiftr (N.shiftl (N.land b 15) 2) 2) = b.
Proof.
  intros Ha Hb. apply N.eqb_eq.
  apply (N_forall_below2 256 256
           (fun a b =>
              N.lor (N.shiftl (N.land (N.lor (N.shiftl (N.land a 3) 4) (N.shiftr b 4)) 15) 4)
                (N.shiftr (N.shiftl (N.land b 15) 2) 2) =? b));
    [vm_compute; reflexivity | exact Ha | exact Hb].
Qed.

Lemma mid1_low a b :
  a < 256 -> b < 256 ->
  N.land (N.lor (N.shiftl (N.land a 3) 4) (N.shiftr b 4)) 15 = N.shiftr b 4.
Proof.
  intros Ha Hb. apply N.eqb_eq.
  apply (N_forall_below2 256 256
           (fun a b => N.land (N.lor (N.shiftl (N.land a 3) 4) (N.shiftr b 4)) 15
                       =? N.shiftr b 4));
    [vm_compute; reflexivity | exact Ha | exact Hb].
Qed.

Lemma mid2_high b c :
  b < 256 -> c < 256 ->
  N.shiftr (N.lor (N.shiftl (N.land b 15) 2) (N.shiftr c 6)) 2 = N.land b 15.
Proof.
  intros Hb Hc. apply N.eqb_eq.
  apply (N_forall_below2 256 256
           (fun b c => N.shiftr (N.lor (N.shiftl (N.land b 15) 2) (N.shiftr c 6)) 2
                       =? N.land b 15));
    [vm_compute; reflexivity | exact Hb | exact Hc].
Qed.

Lemma mid2_low b c :
  b < 256 -> c < 256 ->
  N.land (N.lor (N.shiftl (N.land b 15) 2) (N.shiftr c 6)) 3 = N.shiftr c 6.
Proof.
  intros Hb Hc. apply N.eqb_eq.
  apply (N_forall_below2 256 256
           (fun b c => N.land (N.lor (N.shiftl (N.land b 15) 2) (N.shiftr c 6)) 3
                       =? N.shiftr c 6));
    [vm_compute; reflexivity | exact Hb | exact Hc].
Qed.

Lemma nibbles_back b :
  b < 256 -> N.lor (N.shiftl (N.shiftr b 4) 4) (N.land b 15) = b.
Proof.
  intros Hb. apply N.eqb_eq.
  apply (N_forall_below 256
           (fun b => N.lor (N.shiftl (N.shiftr b 4) 4) (N.land b 15) =? b));
    [vm_compute; reflexivity | exact Hb].
Qed.

Lemma low6_back c :
  c < 256 -> N.lor (N.shiftl (N.shiftr c 6) 6) (N.land c 63) = c.
Proof.
  intros Hc. apply N.eqb_eq.
  apply (N_forall_below 256
           (fun c => N.lor (N.shiftl (N.shiftr c 6) 6) (N.land c 63) =? c));
    [vm_compute; reflexivity | exact Hc].
Qed.

Lemma list_ind3 {A} (P : list A -> Prop) :
  P [] -> (forall a, P [a]) -> (forall a b, P [a; b]) ->
  (forall a b c rest, P rest -> P (a :: b :: c :: rest)) ->
  forall l, P l.
Proof.
  intros H0 H1 H2 H3.
  fix IH 1. intros [| a [| b [| c rest]]].
  - exact H0.
  - apply H1.
  - apply H2.
  - apply H3. apply IH.
Qed.

Lemma encode_split bytes : Base64.encode bytes = unpadded bytes ++ padding bytes.
Proof.
  induction bytes as [| a | a b | a b c rest IH] using list_ind3; try reflexivity.
  cbn [Base64.encode unpadded padding]. now rewrite IH.
Qed.

Lemma enc_in_alphabet x : x < 64 -> in_alphabet (Base64.enc x).
Proof. intros Hx. exists x. now apply dec_enc. Qed.

Lemma unpadded_alphabet bytes :
  Forall (fun c => c < 256) bytes -> Forall in_alphabet (unpadded bytes).
Proof.
  induction bytes as [| a | a b | a b c rest IH] using list_ind3; intros Hb.
  - constructor.
  - inversion_clear Hb.
    repeat constructor; apply enc_in_alphabet;
      auto using sextet_hi, sextet_last1.
  - inversion_clear Hb as [| ? ? Ha Hb']. inversion_clear Hb' as [| ? ? Hb1 _].
    repeat constructor; apply enc_in_alphabet;
      auto using sextet_hi, sextet_mid1, sextet_last2.
  - inversion_clear Hb as [| ? ? Ha Hb']. inversion_clear Hb' as [| ? ? Hb1 Hb2].
    inversion_clear Hb2 as [| ? ? Hc Hrest].
    cbn [unpadded].
    repeat (constructor; [apply enc_in_alphabet;
      auto using sextet_hi, sextet_mid1, sextet_mid2, sextet_lo |]).
    now apply IH.
Qed.

Lemma padding_not_whitespace bytes :
  Forall (fun c => Base64.is_ascii_whitespace c = false) (padding bytes).
Proof.
  induction bytes as [| a | a b | a b c rest IH] using list_ind3;
    cbn [padding]; repeat constructor; assumption.
Qed.

Lemma filter_all {A} (f : A -> bool) (l : list A) :
  Forall (fun x => f x = true) l -> List.filter f l = l.
Proof.
  induction 1 as [| x l Hx _ IH]; cbn; [reflexivity |].
  now rewrite Hx, IH.
Qed.

Lemma encode_no_whitespace bytes :
  Forall (fun c => c < 256) bytes ->
  List.filter (fun c => negb (Base64.is_ascii_whitespace c)) (Base64.encode bytes)
  = Base64.encode bytes.
Proof.
  intros Hb. apply filter_all. rewrite encode_split.
  apply Forall_app_2.
  - eapply List.Forall_impl; [| apply unpadded_alphabet; exact Hb].
    intros c [x Hx]. cbv beta. now rewrite (dec_not_whitespace c x Hx).
  - eapply List.Forall_impl; [| apply padding_not_whitespace].
    intros c Hc. cbv beta in *. now rewrite Hc.
Qed.

Lemma mod4_of_nat (k j : nat) :
  (j < 4)%nat -> N.of_nat (4 * k + j) mod 4 = N.of_nat j.
Proof.
  intros Hj.
  rewrite Nat2N.inj_add, Nat2N.inj_mul, N.add_comm, N.mul_comm.
  rewrite N.Div0.mod_add. apply N.mod_small. lia.
Qed.

Lemma length_unpadded bytes :
  exists k j, length (unpadded bytes) = (4 * k + j)%nat
              /\ (j = 0 \/ j = 2 \/ j = 3)%nat
              /\ length (padding bytes) = ((4 - j) mod 4)%nat.
Proof.
  induction bytes as [| a | a b | a b c rest IH] using list_ind3.
  - exists O, O. cbn. auto.
  - exists O, 2%nat. cbn. auto.
  - exists O, 3%nat. cbn. auto.
  - destruct IH as (k & j & Hlen & Hj & Hpad).
    exists (S k), j. cbn [unpadded padding length]. rewrite Hlen.
    repeat split; [lia | exact Hj | exact Hpad].
Qed.

Lemma length_encode_mod4 bytes :
  N.of_nat (length (Base64.encode bytes)) mod 4 = 0.
Proof.
  rewrite encode_split, length_app.
  destruct (length_unpadded bytes) as (k & j & -> & Hj & ->).
  assert (Hk : exists m, (4 * k + j + (4 - j) mod 4 = 4 * m + 0)%nat).
  { destruct Hj as [-> | [-> | ->]];
      [exists k | exists (S k) | exists (S k)]; cbn [Nat.modulo Nat.sub Nat.divmod snd]; lia. }
  destruct Hk as [m ->]. now rewrite mod4_of_nat by lia.
Qed.

Lemma length_unpadded_mod4 bytes :
  N.of_nat (length (unpadded bytes)) mod 4 <> 1.
Proof.
  destruct (length_unpadded bytes) as (k & j & -> & Hj & _).
  rewrite mod4_of_nat by lia. lia.
Qed.

Lemma rev_head_in {A} (P : A -> Prop) (l : list A) x r :
  Forall P l -> rev l = x :: r -> P x.
Proof.
  intros Hall Hrev.
  assert (Hin : In x (rev l)) by (rewrite Hrev; now left).
  apply in_rev in Hin.
  rewrite List.Forall_forall in Hall. now apply Hall.
Qed.

Lemma strip_padding_clean (s : jsstring) :
  Forall in_alphabet s -> Base64.strip_padding s = s.
Proof.
  intros Hs. unfold Base64.strip_padding.
  destruct (rev s) as [| x r] eqn:Hrev; [reflexivity |].
  pose proof (rev_head_in _ _ _ _ Hs Hrev) as [y Hy].
  apply dec_not_pad in Hy.
  destruct x as [| p]; [reflexivity |].
  repeat (destruct p as [p | p |]; try reflexivity); congruence.
Qed.

Lemma strip_padding_one (s : jsstring) :
  Forall in_alphabet s -> Base64.strip_padding (s ++ [61]) = s.
Proof.
  intros Hs. unfold Base64.strip_padding.
  rewrite rev_app_distr. cbn [rev app].
  destruct (rev s) as [| x r] eqn:Hrev.
  - apply (f_equal (@rev N)) in Hrev. rewrite rev_involutive in Hrev.
    now subst s.
  - pose proof (rev_head_in _ _ _ _ Hs Hrev) as [y Hy].
    apply dec_not_pad in Hy.
    assert (Hs' : rev (x :: r) = s) by (rewrite <- Hrev; apply rev_involutive).
    destruct x as [| p]; [exact Hs' |].
    repeat (destruct p as [p | p |]; try exact Hs'); congruence.
Qed.

Lemma strip_padding_two (s : jsstring) :
  Base64.strip_padding (s ++ [61; 61]) = s.
Proof.
  unfold Base64.strip_padding.
  rewrite rev_app_distr. cbn [rev app]. apply rev_involutive.
Qed.

Lemma strip_padding_encode bytes :
  Forall (fun c => c < 256) bytes ->
  Base64.strip_padding (Base64.encode bytes) = unpadded bytes.
Proof.
  intros Hb. rewrite encode_split.
  pose proof (unpadded_alphabet bytes Hb) as Halpha.
  destruct (length_unpadded bytes) as (k & j & _ & Hj & Hpad).
  assert (Hcases : padding bytes = [] \/ padding bytes = [61]
                   \/ padding bytes = [61; 61]).
  { clear. induction bytes as [| a | a b | a b c rest IH] using list_ind3;
      cbn [padding]; auto. }
  destruct Hcases as [-> | [-> | ->]].
  - rewrite app_nil_r. now apply strip_padding_clean.
  - now apply strip_padding_one.
  - apply strip_padding_two.
Qed.

Lemma sextets_unpadded bytes :
  Forall (fun c => c < 256) bytes ->
  exists xs, Base64.sextets (unpadded bytes) = Some xs
             /\ Base64.decode xs = bytes.
Proof.
  induction bytes as [| a | a b | a b c rest IH] using list_ind3; intros Hb.
  - exists []. split; reflexivity.
  - inversion_clear Hb as [| ? ? Ha _].
    eexists. cbn [unpadded Base64.sextets].
    rewrite !dec_enc by auto using sextet_hi, sextet_last1.
    split; [reflexivity |].
    cbn [Base64.decode]. now rewrite byte1_last.
  - inversion_clear Hb as [| ? ? Ha Hb']. inversion_clear Hb' as [| ? ? Hb1 _].
    eexists. cbn [unpadded Base64.sextets].
    rewrite !dec_enc by auto using sextet_hi, sextet_mid1, sextet_last2.
    split; [reflexivity |].
    cbn [Base64.decode]. now rewrite byte1_back, byte2_last.
  - inversion_clear Hb as [| ? ? Ha Hb']. inversion_clear Hb' as [| ? ? Hb1 Hb2].
    inversion_clear Hb2 as [| ? ? Hc Hrest].
    destruct (IH Hrest) as (xs & Hxs & Hdec).
    eexists. cbn [unpadded Base64.sextets].
    rewrite !dec_enc by auto using sextet_hi, sextet_mid1, sextet_mid2, sextet_lo.
    rewrite Hxs. split; [reflexivity |].
    cbn [Base64.decode].
    rewrite byte1_back, mid1_low, mid2_high, mid2_low by assumption.
    now rewrite nibbles_back, low6_back, Hdec.
Qed.

(** [atob(btoa(s))] is [s] for every string of Latin-1 characters. *)
Lemma atob_encode bytes :
  Forall (fun c => c < 256) bytes ->
  Base64.atob (Base64.encode bytes) = Some bytes.
Proof.
  intros Hb. unfold Base64.atob.
  rewrite encode_no_whitespace by assumption.
  rewrite length_encode_mod4. cbn [N.eqb].
  rewrite strip_padding_encode by assumption.
  destruct (N.eqb_spec (N.of_nat (length (unpadded bytes)) mod 4) 1) as [Hmod |_].
  - now apply length_unpadded_mod4 in Hmod.
  - destruct (sextets_unpadded bytes Hb) as (xs & -> & ->). reflexivity.
Qed.

Lemma btoa_latin1 s :
  Forall (fun c => c < 256) s -> Base64.btoa s = Some (Base64.encode s).
Proof.
  intros Hs. unfold Base64.btoa.
  replace (forallb (fun c => c <? 256) s) with true; [reflexivity |].
  symmetry. apply forallb_forall. intros c Hc.
  rewrite List.Forall_forall in Hs. apply N.ltb_lt. now apply Hs.
Qed.

Lemma encode_not_shorter bytes :
  (length bytes <= length (Base64.encode bytes))%nat.
Proof.
  induction bytes as [| a | a b | a b c rest IH] using list_ind3;
    cbn [Base64.encode length] in *; lia.
Qed.

Lemma encode_longer bytes :
  bytes <> [] -> (length bytes < length (Base64.encode bytes))%nat.
Proof.
  destruct bytes as [| a [| b [| c rest]]]; intros Hne;
    [congruence | | |]; cbn [Base64.encode length]; try lia.
  pose proof (encode_not_shorter rest). lia.
Qed.

Lemma encode_nonempty bytes : bytes <> [] -> Base64.encode bytes <> [].
Proof.
  intros Hne Henc. apply encode_longer in Hne. rewrite Henc in Hne. cbn in Hne. lia.
Qed.

(** ** The settings store *)

Lemma getItem_setItem (k v : jsstring) (st : StorageService.storage) :
  StorageService.getItem k (StorageService.setItem k v st) = Some v.
Proof. apply lookup_insert_eq. Qed.

Lemma getItem_setItem_other (k k' v : jsstring) (st : StorageService.storage) :
  k <> k' ->
  StorageService.getItem k' (StorageService.setItem k v st)
  = StorageService.getItem k' st.
Proof. intros Hne. now apply lookup_insert_ne. Qed.

(** C10, as amended: for every non-empty API key made of Latin-1 characters,
    [getApiKey()] after [saveApiKey(key)] returns exactly the key; what the
    store holds is the base64 encoding of the key, which is not the key
    itself. *)
Theorem saveApiKey_getApiKey_roundtrip (key : jsstring)
  (st : StorageService.storage) :
  key <> [] ->
  Forall (fun c => c < 256) key ->
  StorageService.getApiKey (StorageService.saveApiKey key st) = Some key
  /\ StorageService.getItem StorageService.API_KEY
       (StorageService.saveApiKey key st) = Some (Base64.encode key)
  /\ Base64.encode key <> key.
Proof.
  intros Hne Hlatin.
  unfold StorageService.saveApiKey, StorageService.getApiKey.
  rewrite (btoa_latin1 key Hlatin), getItem_setItem.
  repeat split.
  - pose proof (encode_nonempty key Hne) as Henc.
    pose proof (atob_encode key Hlatin) as Hback.
    destruct (Base64.encode key); [congruence | exact Hback].
  - intros Heq. pose proof (encode_longer key Hne) as Hlen.
    rewrite Heq in Hlen. lia.
Qed.

Lemma saveApiKey_getApiKey_roundtrip_witness :
  Str.lit "sk-or-v1-0f3a" <> []
  /\ Forall (fun c => c < 256) (Str.lit "sk-or-v1-0f3a")
  /\ StorageService.getApiKey (StorageService.saveApiKey (Str.lit "sk-or-v1-0f3a") ∅)
     = Some (Str.lit "sk-or-v1-0f3a")
  /\ StorageService.getItem StorageService.API_KEY
       (StorageService.saveApiKey (Str.lit "sk-or-v1-0f3a") ∅)
     = Some (Base64.encode (Str.lit "sk-or-v1-0f3a"))
  /\ Base64.encode (Str.lit "sk-or-v1-0f3a") <> Str.lit "sk-or-v1-0f3a".
Proof.
  assert (Hne : Str.lit "sk-or-v1-0f3a" <> []) by (vm_compute; discriminate).
  assert (Hlatin : Forall (fun c => c < 256) (Str.lit "sk-or-v1-0f3a"))
    by (vm_compute; repeat constructor).
  split; [exact Hne |]. split; [exact Hlatin |].
  exact (saveApiKey_getApiKey_roundtrip (Str.lit "sk-or-v1-0f3a") ∅ Hne Hlatin).
Defined.

(** C10 as stated fails for the empty key, which is a string of Latin-1
    characters: [btoa('')] is [''], the store then holds the raw key, and
    [getApiKey()] takes the empty entry for a missing one and returns
    [null]. *)
Lemma empty_key_reads_back_as_null :
  Forall (fun c => c < 256) ([] : jsstring)
  /\ StorageService.getItem StorageService.API_KEY
       (StorageService.saveApiKey [] ∅) = Some []
  /\ StorageService.getApiKey (StorageService.saveApiKey [] ∅) = None
  /\ StorageService.getApiKey (StorageService.saveApiKey [] ∅) <> Some [].
Proof.
  assert (Hstored : StorageService.getItem StorageService.API_KEY
                      (StorageService.saveApiKey [] ∅) = Some []).
  { unfold StorageService.saveApiKey. cbn [Base64.btoa forallb Base64.encode].
    apply getItem_setItem. }
  assert (Hnull : StorageService.getApiKey (StorageService.saveApiKey [] ∅) = None).
  { unfold StorageService.getApiKey. now rewrite Hstored. }
  split; [apply List.Forall_nil |].
  split; [exact Hstored |].
  split; [exact Hnull |].
  rewrite Hnull. discriminate.
Qed.

(** ** The conversation history *)

Lemma slice_from_negative {A} (n : nat) (l : list A) :
  (0 < n)%nat -> JS.slice_from (- Z.of_nat n) l = skipn (length l - n) l.
Proof.
  intros Hn. unfold JS.slice_from.
  destruct (Z.ltb_spec (- Z.of_nat n) 0) as [Hneg | Hzero]; [| lia].
  f_equal. lia.
Qed.

(** C9: [saveMessages(list)] persists exactly the most recent 50 entries:
    the entry stored under the messages key is the JSON text of the list
    without its first [length - 50] entries, which is the whole list when it
    has 50 entries or fewer and its last 50 entries, in order, otherwise. *)
Theorem saveMessages_keeps_last_50 (messages : list JS.value)
  (st : StorageService.storage) :
  let kept := skipn (length messages - 50) messages in
  StorageService.getItem StorageService.MESSAGES
    (StorageService.saveMessages messages st)
  = Some (Json.stringify_text (JS.VArr kept))
  /\ length kept = Nat.min (length messages) 50
  /\ messages = firstn (length messages - 50) messages ++ kept
  /\ kept = (if (length messages <=? 50)%nat then messages else kept).
Proof.
  cbv zeta. repeat split.
  - unfold StorageService.saveMessages.
    rewrite getItem_setItem.
    change (-50)%Z with (- Z.of_nat 50)%Z.
    now rewrite (slice_from_negative 50 messages) by lia.
  - rewrite length_skipn. lia.
  - symmetry. apply firstn_skipn.
  - destruct (Nat.leb_spec (length messages) 50) as [Hle | Hgt]; [| reflexivity].
    replace (length messages - 50)%nat with O by lia. reflexivity.
Qed.

(** ** Reasoning about logged computations *)

Lemma get_defined (v : JS.value) (name : jsstring) :
  nullish v = false -> exists w, JS.get v name = JS.Ok w.
Proof.
  destruct v; intros Hv; try discriminate Hv; unfold JS.get.
  - eexists; reflexivity.
  - eexists; reflexivity.
  - destruct (Str.eqb name (Str.lit "length")); eexists; reflexivity.
  - destruct (Str.eqb name (Str.lit "length")); eexists; reflexivity.
  - destruct (JS.own name fields); eexists; reflexivity.
  - destruct (Str.eqb name (Str.lit "name")); eexists; reflexivity.
Qed.

Section Emits.
Context {E : Type} (P : E -> Prop).

Lemma emits_ret {A} (a : A) : emits P (mret a : Eff.M E A).
Proof. intros log. exists []. split; [symmetry; apply app_nil_r | constructor]. Qed.

Lemma emits_lift {A} (r : JS.result A) : emits P (Eff.lift r : Eff.M E A).
Proof. intros log. exists []. split; [symmetry; apply app_nil_r | constructor]. Qed.

Lemma emits_throw {A} e : emits P (Eff.throw e : Eff.M E A).
Proof. intros log. exists []. split; [symmetry; apply app_nil_r | constructor]. Qed.

Lemma emits_bind {A B} (c : Eff.M E A) (k : A -> Eff.M E B) :
  emits P c -> (forall a, emits P (k a)) -> emits P (c ≫= k).
Proof.
  intros Hc Hk log. unfold mbind, eff_bind, Eff.bind.
  destruct (Hc log) as (evs & Hlog & Hevs).
  destruct (c log) as [[a | e] log1]; cbn [snd] in Hlog; subst log1.
  - destruct (Hk a (log ++ evs)) as (evs' & Hlog' & Hevs').
    exists (evs ++ evs'). split; [now rewrite Hlog', app_assoc |].
    now apply Forall_app_2.
  - exists evs. split; [reflexivity | exact Hevs].
Qed.

Lemma emits_try_catch {A} (c : Eff.M E A) (h : JS.exn -> Eff.M E A) :
  emits P c -> (forall e, emits P (h e)) -> emits P (Eff.try_catch c h).
Proof.
  intros Hc Hh log. unfold Eff.try_catch.
  destruct (Hc log) as (evs & Hlog & Hevs).
  destruct (c log) as [[a | e] log1]; cbn [snd] in Hlog; subst log1.
  - exists evs. split; [reflexivity | exact Hevs].
  - destruct (Hh e (log ++ evs)) as (evs' & Hlog' & Hevs').
    exists (evs ++ evs'). split; [now rewrite Hlog', app_assoc |].
    now apply Forall_app_2.
Qed.

Lemma emits_when (b : bool) (c : Eff.M E unit) :
  emits P c -> emits P (Eff.when b c).
Proof. intros Hc. destruct b; [exact Hc | apply (emits_ret tt)]. Qed.

Lemma emits_for_each {A} (body : A -> Eff.M E unit) (l : list A) :
  (forall x, emits P (body x)) -> emits P (Eff.for_each body l).
Proof.
  intros Hbody. induction l as [| x rest IH]; cbn [Eff.for_each].
  - apply (emits_ret tt).
  - apply (emits_bind (body x) (fun _ => Eff.for_each body rest)); auto.
Qed.

End Emits.

Lemma emits_request (P : Host.event -> Prop) rejects ev :
  P ev -> emits P (Host.request rejects ev).
Proof.
  intros Hev log. exists [ev]. split; [reflexivity | now constructor].
Qed.

Lemma emits_console (P : Host.event -> Prop) level text :
  P (Host.Console (Str.lit level) text) -> emits P (Host.console level text).
Proof.
  intros Hev log. eexists. split; [reflexivity | now constructor].
Qed.

Ltac quiet_step :=
  first
    [ apply emits_bind; [| intros ?]
    | apply emits_try_catch; [| intros ?]
    | apply emits_when
    | apply emits_for_each; intros ?
    | apply emits_lift
    | apply emits_ret
    | apply emits_request; reflexivity
    | apply emits_console; reflexivity
    | match goal with
      | |- emits _ (if ?b then _ else _) => destruct b
      | |- emits _ (match ?v with _ => _ end) => destruct v
      end ].

Lemma createPivotTable_quiet rejects now op :
  emits quiet (ExcelService.createPivotTable rejects now op).
Proof.
  unfold ExcelService.createPivotTable, ExcelService.prop, ExcelService.call,
    ExcelService.assign.
  repeat quiet_step.
Qed.

Lemma sortFields_quiet op : emits quiet (ExcelService.sortFields op).
Proof.
  unfold ExcelService.sortFields, ExcelService.prop. repeat quiet_step.
Qed.

(** No operation synchronizes on its own. *)
Lemma applyOperation_quiet rejects now op :
  emits quiet (ExcelService.applyOperation rejects now op).
Proof.
  unfold ExcelService.applyOperation.
  apply emits_bind; [apply emits_lift | intros action].
  repeat match goal with
         | |- emits _ (if ExcelService.is_case ?a ?s then _ else _) =>
             destruct (ExcelService.is_case a s)
         end;
    try (apply emits_try_catch; [apply createPivotTable_quiet | intros ?]);
    unfold ExcelService.prop, ExcelService.call, ExcelService.assign;
    repeat first [apply sortFields_quiet | quiet_step].
Qed.

Lemma applyOperationBasic_quiet rejects op :
  emits quiet (ExcelService.applyOperationBasic rejects op).
Proof.
  unfold ExcelService.applyOperationBasic.
  apply emits_bind; [apply emits_lift | intros action].
  repeat match goal with
         | |- emits _ (if ExcelService.is_case ?a ?s then _ else _) =>
             destruct (ExcelService.is_case a s)
         end;
    unfold ExcelService.prop, ExcelService.call, ExcelService.assign;
    repeat quiet_step.
Qed.

(** ** The executor: isolation of failures and the single synchronization *)

Lemma reportFailure_ok op e log :
  reportable op = true ->
  exists text,
    ExcelService.reportFailure op e log
    = (JS.Ok tt, log ++ [Host.Console (Str.lit "error") text]).
Proof.
  unfold reportable, prints. intros Hop.
  destruct (JS.get op (Str.lit "action")) as [action |] eqn:Haction;
    [| discriminate].
  destruct (JS.get op (Str.lit "address")) as [address |] eqn:Haddress;
    [| discriminate].
  unfold ExcelService.reportFailure, ExcelService.prop, mbind, eff_bind,
    Eff.bind, Eff.lift.
  rewrite Haction, Haddress.
  destruct (JS.toString action); [| discriminate].
  destruct (JS.toString address); [| discriminate].
  eexists. reflexivity.
Qed.

(** An iteration on an operation whose failure can be reported never
    throws, whatever its [switch] does. *)
Lemma attempt_ok (apply : JS.value -> Eff.M Host.event unit) op log :
  reportable op = true -> fst (ExcelService.attempt apply op log) = JS.Ok tt.
Proof.
  intros Hop. unfold ExcelService.attempt, Eff.try_catch.
  destruct (apply op log) as [[[] | e] log1]; [reflexivity |].
  destruct (reportFailure_ok op e log1 Hop) as [text ->]. reflexivity.
Qed.

Lemma attempt_emits P (apply : JS.value -> Eff.M Host.event unit) op :
  (forall level text, P (Host.Console level text)) ->
  emits P (apply op) -> emits P (ExcelService.attempt apply op).
Proof.
  intros Hconsole Happly. unfold ExcelService.attempt, ExcelService.reportFailure,
    ExcelService.prop.
  apply emits_try_catch; [exact Happly | intros e].
  apply emits_bind; [apply emits_lift | intros action].
  apply emits_bind; [apply emits_lift | intros action'].
  apply emits_bind; [apply emits_lift | intros address].
  apply emits_bind; [apply emits_lift | intros address'].
  apply emits_console. apply Hconsole.
Qed.

(** A loop whose iterations never throw runs all of them, each on the log
    that the one before left. *)
Lemma for_each_all {E A} (body : A -> Eff.M E unit) (l : list A) log :
  Forall (fun x => forall log, fst (body x log) = JS.Ok tt) l ->
  Eff.for_each body l log
  = (JS.Ok tt, fold_left (fun log x => snd (body x log)) l log).
Proof.
  intros Hall. revert log.
  induction Hall as [| x rest Hx _ IH]; intros log; cbn [Eff.for_each fold_left].
  - reflexivity.
  - unfold Eff.bind. specialize (Hx log).
    destruct (body x log) as [[[] | e] log1]; cbn [fst snd] in *; [| discriminate].
    apply IH.
Qed.

(** On a list of operations whose failures can be reported (none is [null]
    or [undefined], and the action and the address of each can be
    converted to a string) every operation is attempted in order, nothing
    is thrown by the loop, and one synchronization, the last request of the
    batch, follows the attempts. *)
Lemma batch_without_null_operations rejects
  (apply : JS.value -> Eff.M Host.event unit) operations log :
  (forall op, emits quiet (apply op)) ->
  Forall (fun op => reportable op = true) operations ->
  rejects log getActiveWorksheet = false ->
  exists attempts,
    fold_left (fun log op => snd (ExcelService.attempt apply op log)) operations
      (log ++ [getActiveWorksheet])
    = (log ++ [getActiveWorksheet]) ++ attempts
    /\ Forall quiet attempts
    /\ snd (ExcelService.batch rejects apply operations log)
       = (log ++ [getActiveWorksheet]) ++ attempts ++ [Host.Sync]
    /\ fst (ExcelService.batch rejects apply operations log)
       = fst (Host.request rejects Host.Sync
                ((log ++ [getActiveWorksheet]) ++ attempts)).
Proof.
  intros Hquiet Hops Hactive.
  assert (Hloop : emits quiet (Eff.for_each (ExcelService.attempt apply) operations)).
  { apply emits_for_each. intros op. apply attempt_emits; [reflexivity | apply Hquiet]. }
  destruct (Hloop (log ++ [getActiveWorksheet])) as (attempts & Hlog & Hattempts).
  assert (Hrun : Eff.for_each (ExcelService.attempt apply) operations
                   (log ++ [getActiveWorksheet])
                 = (JS.Ok tt, (log ++ [getActiveWorksheet]) ++ attempts)).
  { rewrite for_each_all.
    - rewrite for_each_all in Hlog; [cbn [snd] in Hlog; now rewrite Hlog |].
      eapply List.Forall_impl; [| exact Hops].
      intros op Hop log'. now apply attempt_ok.
    - eapply List.Forall_impl; [| exact Hops].
      intros op Hop log'. now apply attempt_ok. }
  exists attempts.
  split.
  { rewrite for_each_all in Hlog; [exact Hlog |].
    eapply List.Forall_impl; [| exact Hops].
    intros op Hop log'. now apply attempt_ok. }
  split; [exact Hattempts |].
  assert (Hbatch : ExcelService.batch rejects apply operations log
                   = Host.request rejects Host.Sync
                       ((log ++ [getActiveWorksheet]) ++ attempts)).
  { unfold ExcelService.batch, ExcelService.call, ExcelService.sync, mbind,
      eff_bind, Eff.bind.
    unfold Host.request at 1. fold getActiveWorksheet.
    now rewrite Hactive, Hrun. }
  rewrite Hbatch. split; [| reflexivity].
  unfold Host.request. cbn [snd]. now rewrite <- !app_assoc.
Qed.

(** C2, at the failing input [[null, {action:'setCellValue',...}]]: the
    [TypeError] of reading [op.action] is caught, but the [catch] reads
    [op.action] again to build its message; that second [TypeError] leaves
    the loop and the batch, and the operation after the [null] is never
    attempted. Both executors behave so. Without the [null] the batch
    completes. *)
Theorem null_operation_escapes_batch :
  ExcelService.executeOperations Host.obliging 0 true
    [JS.VNull; setCellValue_A1] []
  = (JS.Throw (JS.Exn JS.TypeError
                 (Str.lit "Cannot read properties of null (reading 'action')")),
     [getActiveWorksheet])
  /\ ExcelService.executeOperationsBasic Host.obliging true
       [JS.VNull; setCellValue_A1] []
     = (JS.Throw (JS.Exn JS.TypeError
                    (Str.lit "Cannot read properties of null (reading 'action')")),
        [getActiveWorksheet])
  /\ ExcelService.executeOperations Host.obliging 0 true [setCellValue_A1] []
     = (JS.Ok tt, [getActiveWorksheet; getRange_A1; setValues_5; Host.Sync]).
Proof. repeat split; vm_compute; reflexivity. Qed.

(** C7, at the failing input [[{action:'setCellValue',...}, null,
    {action:'setCellValue',...}]] on a live host: the first operation is
    applied, the exception raised while reporting the failure of the [null]
    leaves the callback before [context.sync()], and no synchronization is
    issued at all. *)
Theorem null_operation_skips_sync :
  let outcome :=
    ExcelService.executeOperations Host.obliging 0 true
      [setCellValue_A1; JS.VNull; setCellValue_A1] [] in
  snd outcome = [getActiveWorksheet; getRange_A1; setValues_5]
  /\ List.filter Host.is_sync (snd outcome) = []
  /\ fst outcome
     = JS.Throw (JS.Exn JS.TypeError
                   (Str.lit "Cannot read properties of null (reading 'action')")).
Proof. repeat split; vm_compute; reflexivity. Qed.

(** On every list of operations whose failures can be reported, against a
    live host that hands out the active worksheet, [executeOperations]
    issues exactly one synchronization, after all the attempts, and throws
    only if that synchronization does. *)
Lemma executeOperations_one_sync rejects now operations :
  Forall (fun op => reportable op = true) operations ->
  rejects [] getActiveWorksheet = false ->
  exists attempts,
    snd (ExcelService.executeOperations rejects now true operations [])
    = getActiveWorksheet :: attempts ++ [Host.Sync]
    /\ List.filter Host.is_sync
         (snd (ExcelService.executeOperations rejects now true operations []))
       = [Host.Sync]
    /\ (rejects (getActiveWorksheet :: attempts) Host.Sync = false ->
        fst (ExcelService.executeOperations rejects now true operations [])
        = JS.Ok tt).
Proof.
  intros Hops Hactive.
  destruct (batch_without_null_operations rejects
              (ExcelService.applyOperation rejects now) operations []
              (applyOperation_quiet rejects now) Hops Hactive)
    as (attempts & _ & Hquiet & Hlog & Hres).
  exists attempts.
  unfold ExcelService.executeOperations, ExcelService.run. cbn [negb].
  cbn [app] in Hlog, Hres. rewrite Hlog, Hres.
  split; [reflexivity |]. split.
  - cbn [List.filter Host.is_sync getActiveWorksheet].
    rewrite List.filter_app. cbn [List.filter Host.is_sync].
    replace (List.filter Host.is_sync attempts) with (@nil Host.event);
      [reflexivity |].
    symmetry. clear -Hquiet.
    induction Hquiet as [| ev rest Hev _ IH]; [reflexivity |].
    cbn [List.filter]. unfold quiet in Hev. now rewrite Hev.
  - intros Hsync. unfold Host.request. cbn [fst]. now rewrite Hsync.
Qed.

(** ** Sorting defaults *)

Lemma get_own fields name w :
  JS.own name fields = Some w -> JS.get (JS.VObj fields) name = JS.Ok w.
Proof. intros Hown. unfold JS.get. now rewrite Hown. Qed.

Lemma get_absent fields (name : string) :
  JS.own (Str.lit name) fields = None ->
  JS.inherited [] (Str.lit name) = JS.VUndefined ->
  JS.get (JS.VObj fields) (Str.lit name) = JS.Ok JS.VUndefined.
Proof. intros Hown Hproto. unfold JS.get. now rewrite Hown, Hproto. Qed.

Lemma applyOperation_sortRange rejects now fields log :
  JS.own (Str.lit "action") fields = Some (JS.str "sortRange") ->
  exists address key ascending matchCase hasHeaders orientation,
    JS.get (JS.VObj fields) (Str.lit "key") = JS.Ok key
    /\ JS.get (JS.VObj fields) (Str.lit "ascending") = JS.Ok ascending
    /\ JS.get (JS.VObj fields) (Str.lit "address") = JS.Ok address
    /\ snd (ExcelService.applyOperation rejects now (JS.VObj fields) log)
       = log ++ Host.Call (Str.lit "sheet.getRange") [address]
           :: (if rejects log (Host.Call (Str.lit "sheet.getRange") [address])
               then []
               else [sortApply (JS.or_else key (JS.int 0)) (JS.not_false ascending)
                       matchCase hasHeaders orientation]).
Proof.
  intros Haction.
  assert (Hdef : forall name, exists w, JS.get (JS.VObj fields) name = JS.Ok w)
    by (intros name; now apply get_defined).
  destruct (Hdef (Str.lit "address")) as [address Haddress].
  destruct (Hdef (Str.lit "key")) as [key Hkey].
  destruct (Hdef (Str.lit "ascending")) as [ascending Hascending].
  destruct (Hdef (Str.lit "matchCase")) as [matchCase HmatchCase].
  destruct (Hdef (Str.lit "hasHeaders")) as [hasHeaders HhasHeaders].
  destruct (Hdef (Str.lit "orientation")) as [orientation Horientation].
  exists address, key, ascending, (JS.or_else matchCase (JS.VBool false)),
    (JS.or_else hasHeaders (JS.VBool true)),
    (JS.or_else orientation (JS.str "Rows")).
  split; [exact Hkey |]. split; [exact Hascending |]. split; [exact Haddress |].
  unfold ExcelService.applyOperation, ExcelService.sortFields,
    ExcelService.prop, ExcelService.call, mbind, mret, eff_bind, eff_ret,
    Eff.bind, Eff.ret, Eff.lift.
  rewrite (get_own _ _ _ Haction).
  change (ExcelService.is_case (JS.str "sortRange") "setCellValue") with false.
  change (ExcelService.is_case (JS.str "sortRange") "setFormula") with false.
  change (ExcelService.is_case (JS.str "sortRange") "format") with false.
  change (ExcelService.is_case (JS.str "sortRange") "createTable") with false.
  change (ExcelService.is_case (JS.str "sortRange") "createChart") with false.
  change (ExcelService.is_case (JS.str "sortRange") "createWorksheet") with false.
  change (ExcelService.is_case (JS.str "sortRange") "activateWorksheet") with false.
  change (ExcelService.is_case (JS.str "sortRange") "deleteWorksheet") with false.
  change (ExcelService.is_case (JS.str "sortRange") "autoFit") with false.
  change (ExcelService.is_case (JS.str "sortRange") "sortRange") with true.
  cbv iota.
  rewrite Haddress. unfold Host.request at 1.
  destruct (rejects log (Host.Call (Str.lit "sheet.getRange") [address])).
  - reflexivity.
  - rewrite Hkey, Hascending, HmatchCase, HhasHeaders, Horientation.
    unfold Host.request, sortApply. cbn [snd].
    now rewrite <- app_assoc.
Qed.

(** C6: a [sortRange] operation without a [key] field is sorted on column
    index 0, and one without an [ascending] field is sorted ascending: the
    operation requests the range and then, unless the host rejected that
    request, a sort whose single sort field has the key and the direction
    stated. *)
Theorem sortRange_defaults rejects now fields log :
  JS.own (Str.lit "action") fields = Some (JS.str "sortRange") ->
  exists address key ascending matchCase hasHeaders orientation,
    snd (ExcelService.applyOperation rejects now (JS.VObj fields) log)
    = log ++ Host.Call (Str.lit "sheet.getRange") [address]
        :: (if rejects log (Host.Call (Str.lit "sheet.getRange") [address])
            then []
            else [sortApply key ascending matchCase hasHeaders orientation])
    /\ (JS.own (Str.lit "key") fields = None -> key = JS.int 0)
    /\ (JS.own (Str.lit "ascending") fields = None -> ascending = true).
Proof.
  intros Haction.
  destruct (applyOperation_sortRange rejects now fields log Haction)
    as (address & key & ascending & matchCase & hasHeaders & orientation
        & Hkey & Hascending & _ & Hlog).
  exists address, (JS.or_else key (JS.int 0)), (JS.not_false ascending),
    matchCase, hasHeaders, orientation.
  split; [exact Hlog |]. split.
  - intros Hnone.
    rewrite (get_absent fields "key" Hnone eq_refl) in Hkey.
    injection Hkey as <-. reflexivity.
  - intros Hnone.
    rewrite (get_absent fields "ascending" Hnone eq_refl) in Hascending.
    injection Hascending as <-. reflexivity.
Qed.

Lemma sortRange_defaults_witness :
  let fields := [(Str.lit "action", JS.str "sortRange");
                 (Str.lit "address", JS.str "A1:B10")] in
  JS.own (Str.lit "action") fields = Some (JS.str "sortRange")
  /\ exists address key ascending matchCase hasHeaders orientation,
       snd (ExcelService.applyOperation Host.obliging 0 (JS.VObj fields) [])
       = [] ++ Host.Call (Str.lit "sheet.getRange") [address]
           :: (if Host.obliging [] (Host.Call (Str.lit "sheet.getRange") [address])
               then []
               else [sortApply key ascending matchCase hasHeaders orientation])
       /\ (JS.own (Str.lit "key") fields = None -> key = JS.int 0)
       /\ (JS.own (Str.lit "ascending") fields = None -> ascending = true).
Proof.
  cbv zeta.
  assert (Haction : JS.own (Str.lit "action")
                      [(Str.lit "action", JS.str "sortRange");
                       (Str.lit "address", JS.str "A1:B10")]
                    = Some (JS.str "sortRange")) by reflexivity.
  split; [exact Haction |].
  exact (sortRange_defaults Host.obliging 0 _ [] Haction).
Defined.

(** ** The credential check of [chat] *)

(** C4: when the settings hold no API key ([getSettings().apiKey] is [null]
    or empty), [chat] of either service throws the missing-credential error
    and the log of network requests is left as it was: no request is
    issued. *)
Theorem chat_without_key_makes_no_request
  (prompt : jsstring) (tools : list JS.value) (href : jsstring)
  (net : Net.network) (st : StorageService.storage)
  (messages : list Net.ChatMessage) (excelContext : option jsstring)
  (log : list Net.request) :
  StorageService.apiKey (StorageService.getSettings st) = None
  \/ StorageService.apiKey (StorageService.getSettings st) = Some [] ->
  LLMService.chat prompt tools href net st messages excelContext log
  = (JS.Throw MISSING_KEY, log)
  /\ LLMServiceText.chat prompt href net st messages excelContext log
     = (JS.Throw MISSING_KEY, log).
Proof.
  intros Hkey. unfold LLMService.chat, LLMServiceText.chat.
  destruct Hkey as [-> | ->]; split; reflexivity.
Qed.

Lemma getApiKey_missing (st : StorageService.storage) :
  StorageService.getItem StorageService.API_KEY st = None ->
  StorageService.apiKey (StorageService.getSettings st) = None.
Proof.
  intros Hnone. cbn [StorageService.getSettings StorageService.apiKey].
  unfold StorageService.getApiKey. now rewrite Hnone.
Qed.

Lemma chat_without_key_makes_no_request_witness :
  (StorageService.apiKey (StorageService.getSettings ∅) = None
   \/ StorageService.apiKey (StorageService.getSettings ∅) = Some [])
  /\ LLMService.chat (Str.lit "You are an expert Excel AI assistant") []
       (Str.lit "https://localhost:3000/taskpane.html")
       (fun _ _ => Net.Responded 200 (Str.lit "{}")) ∅
       [{| Net.role := Str.lit "user"; Net.content := Str.lit "Set A1 to 5" |}]
       None []
     = (JS.Throw MISSING_KEY, [])
  /\ LLMServiceText.chat (Str.lit "You are an expert Excel AI assistant")
       (Str.lit "https://localhost:3000/taskpane.html")
       (fun _ _ => Net.Responded 200 (Str.lit "{}")) ∅
       [{| Net.role := Str.lit "user"; Net.content := Str.lit "Set A1 to 5" |}]
       None []
     = (JS.Throw MISSING_KEY, []).
Proof.
  assert (Hkey : StorageService.apiKey (StorageService.getSettings ∅) = None
                 \/ StorageService.apiKey (StorageService.getSettings ∅) = Some []).
  { left. apply getApiKey_missing. reflexivity. }
  split; [exact Hkey |].
  exact (chat_without_key_makes_no_request _ _ _ _ ∅ _ None [] Hkey).
Defined.

(** An adapter issues its request and nothing else. *)
Lemma fetch_then_pure {A} (net : Net.network) (req : Net.request)
  (k1 k2 : Net.response -> JS.result A) (log : list Net.request) :
  snd ((Net.fetch net req ≫= fun r =>
          if negb (Net.ok r) then Eff.lift (k1 r) else Eff.lift (k2 r)) log)
  = log ++ [req].
Proof.
  unfold mbind, eff_bind, Eff.bind, Net.fetch, Eff.lift.
  destruct (net log req) as [| status text]; [reflexivity |].
  destruct (negb (Net.ok {| Net.status := status; Net.text := text |}));
    reflexivity.
Qed.

Lemma bind_ret_log {E A B} (c : Eff.M E A) (f : A -> B) (log : list E) :
  snd ((c ≫= fun a => mret (f a)) log) = snd (c log).
Proof.
  unfold mbind, eff_bind, Eff.bind, mret, eff_ret, Eff.ret.
  destruct (c log) as [[a | e] log1]; reflexivity.
Qed.

(** X16: whatever the settings, the conversation and the backend, [chat]
    only adds to the requests, and it adds at most one. *)
Lemma chat_at_most_one_request (prompt : jsstring) (tools : list JS.value)
  (href : jsstring) (net : Net.network) (st : StorageService.storage)
  (messages : list Net.ChatMessage) (excelContext : option jsstring)
  (log : list Net.request) :
  exists requests,
    snd (LLMService.chat prompt tools href net st messages excelContext log)
    = log ++ requests
    /\ (length requests <= 1)%nat.
Proof.
  unfold LLMService.chat.
  destruct (StorageService.apiKey (StorageService.getSettings st)) as [[| c key] |];
    try (exists []; split; [symmetry; apply app_nil_r | cbn; lia]).
  destruct (Str.eqb _ (Str.lit "openrouter")).
  { eexists [_]. split; [apply fetch_then_pure | cbn; lia]. }
  destruct (Str.eqb _ (Str.lit "gemini")).
  { eexists [_]. split; [apply fetch_then_pure | cbn; lia]. }
  destruct (Str.eqb _ (Str.lit "huggingface")).
  - eexists [_]. split; [| cbn; lia].
    rewrite bind_ret_log. apply fetch_then_pure.
  - exists []. split; [symmetry; apply app_nil_r | cbn; lia].
Qed.

(** ** Error responses of the backends *)

(** C8, at the failing input: an error response (status 500) whose body is
    the JSON text [null]. [response.json()] resolves to [null], reading
    [error.error] throws a [TypeError], and the caller gets that message
    instead of the generic [<provider> API error: 500]. All three adapters,
    in both services, behave so. *)
Theorem null_error_body_escapes_conversion :
  fst (LLMService.callOpenRouter [] (Str.lit "https://localhost:3000/")
         null_body [user_turn] (Str.lit "sk-or-v1") (Str.lit "llama") [])
  = JS.Throw reading_error_of_null
  /\ fst (LLMService.callGemini (Str.lit "prompt") [] null_body [user_turn]
            (Str.lit "sk-or-v1") None [])
     = JS.Throw reading_error_of_null
  /\ fst (LLMService.callHuggingFace (Str.lit "prompt") null_body [user_turn]
            (Str.lit "sk-or-v1") None [])
     = JS.Throw reading_error_of_null
  /\ fst (LLMServiceText.callOpenRouter (Str.lit "https://localhost:3000/")
            null_body [user_turn] (Str.lit "sk-or-v1") (Str.lit "llama") [])
     = JS.Throw reading_error_of_null
  /\ JS.message reading_error_of_null
     <> expected_message "OpenRouter" 500 None.
Proof. repeat split; try (vm_compute; reflexivity). vm_compute. discriminate. Qed.

(** For every other body the conversion is the one specified: the message
    is the supplied [error.message] when that is a non-empty string, and the
    generic message when the body is not JSON or has no [error] member. *)
Lemma error_of_message_field_spec (provider : string) (r : Net.response) :
  (Json.parse (Net.text r) = None ->
   @Net.error_of_message_field unit provider r
   = JS.Throw (JS.Exn JS.Error (expected_message provider (Net.status r) None)))
  /\ (forall fields,
        Json.parse (Net.text r) = Some (JS.VObj fields) ->
        JS.own (Str.lit "error") fields = None ->
        @Net.error_of_message_field unit provider r
        = JS.Throw (JS.Exn JS.Error (expected_message provider (Net.status r) None)))
  /\ (forall fields inner c m,
        Json.parse (Net.text r) = Some (JS.VObj fields) ->
        JS.own (Str.lit "error") fields = Some (JS.VObj inner) ->
        JS.own (Str.lit "message") inner = Some (JS.VStr (c :: m)) ->
        @Net.error_of_message_field unit provider r
        = JS.Throw (JS.Exn JS.Error
                      (expected_message provider (Net.status r) (Some (c :: m))))).
Proof.
  unfold Net.error_of_message_field, Net.json_or_empty, mbind, result_bind, JS.bind.
  repeat split.
  - intros ->. reflexivity.
  - intros fields -> Hnone.
    now rewrite (get_absent fields "error" Hnone eq_refl).
  - intros fields inner c m -> Herror Hmessage.
    rewrite (get_own _ _ _ Herror).
    unfold JS.get_opt. now rewrite (get_own _ _ _ Hmessage).
Qed.

Lemma error_of_error_field_spec (r : Net.response) :
  (Json.parse (Net.text r) = None ->
   @Net.error_of_error_field unit r
   = JS.Throw (JS.Exn JS.Error (expected_message "HuggingFace" (Net.status r) None)))
  /\ (forall fields,
        Json.parse (Net.text r) = Some (JS.VObj fields) ->
        JS.own (Str.lit "error") fields = None ->
        @Net.error_of_error_field unit r
        = JS.Throw (JS.Exn JS.Error
                      (expected_message "HuggingFace" (Net.status r) None)))
  /\ (forall fields c m,
        Json.parse (Net.text r) = Some (JS.VObj fields) ->
        JS.own (Str.lit "error") fields = Some (JS.VStr (c :: m)) ->
        @Net.error_of_error_field unit r
        = JS.Throw (JS.Exn JS.Error
                      (expected_message "HuggingFace" (Net.status r)
                         (Some (c :: m))))).
Proof.
  unfold Net.error_of_error_field, Net.json_or_empty, mbind, result_bind, JS.bind.
  repeat split.
  - intros ->. reflexivity.
  - intros fields -> Hnone.
    now rewrite (get_absent fields "error" Hnone eq_refl).
  - intros fields c m -> Herror.
    now rewrite (get_own _ _ _ Herror).
Qed.

(** What an adapter does with a response that is not a success. *)
Lemma callOpenRouter_error (tools : list JS.value) (href : jsstring)
  (net : Net.network) (messages : list Net.ChatMessage)
  (apiKey model : jsstring) (log : list Net.request) :
  exists req,
    forall status body,
      net log req = Net.Responded status body ->
      Net.ok {| Net.status := status; Net.text := body |} = false ->
      LLMService.callOpenRouter tools href net messages apiKey model log
      = (Net.error_of_message_field "OpenRouter"
           {| Net.status := status; Net.text := body |},
         log ++ [req]).
Proof.
  eexists. intros status body Hnet Hok.
  unfold LLMService.callOpenRouter, mbind, eff_bind, Eff.bind.
  unfold Net.fetch at 1. rewrite Hnet, Hok. reflexivity.
Qed.

Lemma callGemini_error (prompt : jsstring) (tools : list JS.value)
  (net : Net.network) (messages : list Net.ChatMessage)
  (apiKey : jsstring) (excelContext : option jsstring) (log : list Net.request) :
  exists req,
    forall status body,
      net log req = Net.Responded status body ->
      Net.ok {| Net.status := status; Net.text := body |} = false ->
      LLMService.callGemini prompt tools net messages apiKey excelContext log
      = (Net.error_of_message_field "Gemini"
           {| Net.status := status; Net.text := body |},
         log ++ [req]).
Proof.
  eexists. intros status body Hnet Hok.
  unfold LLMService.callGemini, mbind, eff_bind, Eff.bind.
  unfold Net.fetch at 1. rewrite Hnet, Hok. reflexivity.
Qed.

Lemma callHuggingFace_error (prompt : jsstring) (net : Net.network)
  (messages : list Net.ChatMessage) (apiKey : jsstring)
  (excelContext : option jsstring) (log : list Net.request) :
  exists req,
    forall status body,
      net log req = Net.Responded status body ->
      Net.ok {| Net.status := status; Net.text := body |} = false ->
      LLMService.callHuggingFace prompt net messages apiKey excelContext log
      = (Net.error_of_error_field {| Net.status := status; Net.text := body |},
         log ++ [req]).
Proof.
  eexists. intros status body Hnet Hok.
  unfold LLMService.callHuggingFace, mbind, eff_bind, Eff.bind.
  unfold Net.fetch at 1. rewrite Hnet, Hok. reflexivity.
Qed.

(** ** The fenced block: what is captured and what is removed *)

Lemma startsWith_app (p s : jsstring) :
  Str.startsWith p s = true -> s = p ++ skipn (length p) s.
Proof.
  revert s. induction p as [| a p IH]; intros s Hs; [reflexivity |].
  destruct s as [| b s]; [discriminate |].
  cbn [Str.startsWith] in Hs. apply andb_true_iff in Hs as [Hab Hrest].
  apply N.eqb_eq in Hab. subst b.
  cbn [length skipn app]. f_equal. now apply IH.
Qed.

Lemma splitAt_sound (p s pre post : jsstring) :
  Str.splitAt p s = Some (pre, post) -> s = pre ++ p ++ post.
Proof.
  revert pre. induction s as [| c r IH]; intros pre; cbn [Str.splitAt].
  - destruct (Str.startsWith p []) eqn:Hstart; [| discriminate].
    intros [= <- <-]. now apply startsWith_app in Hstart.
  - destruct (Str.startsWith p (c :: r)) eqn:Hstart.
    + intros [= <- <-]. now apply startsWith_app in Hstart.
    + destruct (Str.splitAt p r) as [[pre' post'] |]; [| discriminate].
      intros [= <- <-]. cbn [app]. f_equal. now apply IH.
Qed.

Lemma trimStart_spec (s : jsstring) :
  exists ws, s = ws ++ Str.trimStart s
             /\ Forall (fun c => Str.is_space c = true) ws.
Proof.
  induction s as [| c r (ws & Hr & Hws)]; cbn [Str.trimStart].
  - exists []. split; [reflexivity | constructor].
  - destruct (Str.is_space c) eqn:Hc.
    + exists (c :: ws). split; [cbn [app]; now f_equal | now constructor].
    + exists []. split; [reflexivity | constructor].
Qed.

(** White space holds no backquote, so a closing fence is found past it. *)
Lemma splitAt_fence_past_space (ws rest body post : jsstring) :
  Forall (fun c => Str.is_space c = true) ws ->
  Str.splitAt Fence.fence rest = Some (body, post) ->
  Str.splitAt Fence.fence (ws ++ rest) = Some (ws ++ body, post).
Proof.
  intros Hws Hrest. induction Hws as [| c ws Hc _ IH]; [exact Hrest |].
  cbn [app Str.splitAt].
  assert (Hstart : Str.startsWith Fence.fence (c :: ws ++ rest) = false).
  { change Fence.fence with [96; 96; 96]. cbn [Str.startsWith].
    destruct (N.eqb_spec 96 c) as [<- | _]; [discriminate Hc | reflexivity]. }
  rewrite Hstart, IH. reflexivity.
Qed.

(** X22: when the expression of [extractExcelActions] matches, the text is a
    prefix, the opener, white space, the captured body, a closing fence and
    a suffix; what the display removes is everything from the opener to
    that fence, so the prefix and the suffix are what is left. *)
Lemma capture_remove (s body : jsstring) :
  Fence.capture s = Some body ->
  exists pre ws post,
    s = pre ++ Fence.opener ++ ws ++ body ++ Fence.fence ++ post
    /\ Forall (fun c => Str.is_space c = true) ws
    /\ Fence.remove s = pre ++ post.
Proof.
  unfold Fence.capture, Fence.remove.
  destruct (Str.splitAt Fence.opener s) as [[pre rest] |] eqn:Hopen; [| discriminate].
  destruct (Str.splitAt Fence.fence (Str.trimStart rest)) as [[b post] |] eqn:Hclose;
    [| discriminate].
  intros [= <-].
  destruct (trimStart_spec rest) as (ws & Hrest & Hws).
  pose proof (splitAt_fence_past_space ws _ _ _ Hws Hclose) as Hfull.
  rewrite <- Hrest in Hfull. rewrite Hfull.
  exists pre, ws, post. repeat split; [| exact Hws].
  apply splitAt_sound in Hopen. apply splitAt_sound in Hclose.
  rewrite Hopen, Hrest at 1. rewrite Hclose. reflexivity.
Qed.

(** X25: the expression that extracts the block and the one that removes it
    from the display match the same texts: when [extractExcelActions] finds
    no block, the removal leaves the text as it is. *)
Lemma no_capture_no_removal (s : jsstring) :
  Fence.capture s = None -> Fence.remove s = s.
Proof.
  unfold Fence.capture, Fence.remove.
  destruct (Str.splitAt Fence.opener s) as [[pre rest] |] eqn:Hopen; [| reflexivity].
  destruct (Str.splitAt Fence.fence rest) as [[mid post] |] eqn:Hclose; [| reflexivity].
  destruct (trimStart_spec rest) as (ws & Hrest & Hws).
  destruct (Str.splitAt Fence.fence (Str.trimStart rest)) as [[b post'] |] eqn:Htrim;
    [intros [=] |].
  intros _. exfalso.
  clear Hopen. revert mid Hclose. rewrite Hrest.
  clear Hrest. induction Hws as [| c ws Hc _ IH]; intros mid Hclose.
  - cbn [app] in Hclose. congruence.
  - cbn [app Str.splitAt] in Hclose.
    assert (Hstart : Str.startsWith Fence.fence (c :: ws ++ Str.trimStart rest) = false).
    { change Fence.fence with [96; 96; 96]. cbn [Str.startsWith].
      destruct (N.eqb_spec 96 c) as [<- | _]; [discriminate Hc | reflexivity]. }
    rewrite Hstart in Hclose.
    destruct (Str.splitAt Fence.fence (ws ++ Str.trimStart rest)) as [[m p] |] eqn:Hs;
      [| discriminate Hclose].
    injection Hclose as _ ->. now apply (IH m).
Qed.

(** ** From the response to the pending batch *)

Ltac run_ui :=
  unfold ChatInterface.sendMessage, ChatInterface.handleResponse,
    ChatInterfaceText.sendMessage, ChatInterfaceText.handleResponse,
    ChatInterface.setPendingActions, Eff.when, mbind, mret, eff_bind, eff_ret,
    Eff.bind, Eff.ret, Eff.lift;
  cbn [LLMService.text LLMService.toolCalls app].

Lemma capture_nonempty (s body : jsstring) :
  Fence.capture s = Some body -> s <> [].
Proof. intros Hcap ->. discriminate Hcap. Qed.

(** A block whose JSON does not parse: the component of the tool-calling
    service extracts nothing and leaves the text as it is, block
    included. *)
Lemma malformed_block_is_kept (s : jsstring) (c : N) (body : jsstring) :
  Fence.capture s = Some (c :: body) ->
  Json.parse (c :: body) = None ->
  ChatInterface.sendMessage
    {| LLMService.text := JS.VStr s; LLMService.toolCalls := None |}
  = (JS.Ok (JS.VStr s), [JS.VArr []]).
Proof.
  intros Hcap Hparse. pose proof (capture_nonempty s _ Hcap) as Hne.
  run_ui. unfold JS.or_else.
  destruct s as [| c0 s0]; [congruence |]. cbn [JS.truthy].
  unfold ChatInterface.extractExcelActions. rewrite Hcap, Hparse. reflexivity.
Qed.

(** X21: a block that is not JSON, in the component of the text-only
    service: nothing is extracted, the pending batch stays empty and the
    block is removed from the text, unless nothing else would be left to
    show. *)
Lemma malformed_block_is_stripped (s : jsstring) (c : N) (body : jsstring) :
  Fence.capture s = Some (c :: body) ->
  Json.parse (c :: body) = None ->
  ChatInterfaceText.sendMessage (JS.VStr s)
  = (JS.Ok (JS.VStr (shown_or s (Str.trim (Fence.remove s)))), [JS.VArr []]).
Proof.
  intros Hcap Hparse. run_ui.
  unfold ChatInterface.extractExcelActions, ChatInterface.stripBlock.
  rewrite Hcap, Hparse. cbn [JS.truthy].
  destruct (Str.trim (Fence.remove s)); reflexivity.
Qed.

(** A block whose JSON parses to a value with a truthy [operations] member:
    those operations are the pending batch and the block is removed from the
    text, in both components and whatever the native tool calls were. *)
Lemma block_operations_become_pending (s : jsstring) (c : N) (body : jsstring)
  (v operations : JS.value) (calls : option (list LLMService.ToolCall))
  (native : list JS.value) :
  Fence.capture s = Some (c :: body) ->
  Json.parse (c :: body) = Some v ->
  JS.truthy v = true ->
  JS.get v (Str.lit "operations") = JS.Ok operations ->
  JS.truthy operations = true ->
  match calls with
  | Some l => ChatInterface.flatMapOperations l = JS.Ok native
  | None => native = []
  end ->
  exists log,
    ChatInterface.sendMessage
      {| LLMService.text := JS.VStr s; LLMService.toolCalls := calls |}
    = (JS.Ok (JS.VStr (shown_or ChatInterface.PREPARED (Str.trim (Fence.remove s)))),
       log)
    /\ ChatInterface.pendingActions log = operations
    /\ log = [JS.VArr []]
             ++ match native with [] => [] | _ => [JS.VArr native] end
             ++ [operations]
    /\ ChatInterfaceText.sendMessage (JS.VStr s)
       = (JS.Ok (JS.VStr (shown_or ChatInterface.PREPARED
                            (Str.trim (Fence.remove s)))),
          [JS.VArr []; operations]).
Proof.
  intros Hcap Hparse Hv Hops Htruthy Hcalls.
  pose proof (capture_nonempty s _ Hcap) as Hne.
  destruct s as [| c0 s0]; [congruence |].
  assert (Hextract : ChatInterface.extractExcelActions (JS.VStr (c0 :: s0)) = JS.Ok v).
  { unfold ChatInterface.extractExcelActions. now rewrite Hcap, Hparse. }
  assert (Htext : ChatInterfaceText.sendMessage (JS.VStr (c0 :: s0))
                  = (JS.Ok (JS.VStr (shown_or ChatInterface.PREPARED
                                       (Str.trim (Fence.remove (c0 :: s0))))),
                     [JS.VArr []; operations])).
  { run_ui. rewrite Hextract. unfold ChatInterface.stripBlock.
    rewrite Hv, Hops, Htruthy. cbn [app].
    destruct (Str.trim (Fence.remove (c0 :: s0))); reflexivity. }
  destruct calls as [[| tc tcs] |].
  - cbn [ChatInterface.flatMapOperations] in Hcalls. injection Hcalls as <-.
    eexists. split; [| split; [| split; [reflexivity | exact Htext]]].
    + run_ui. unfold JS.or_else. cbn [JS.truthy].
      rewrite Hextract, Hv, Hops, Htruthy. unfold ChatInterface.stripBlock.
      destruct (Str.trim (Fence.remove (c0 :: s0))); reflexivity.
    + reflexivity.
  - eexists. split; [| split; [| split; [reflexivity | exact Htext]]].
    + run_ui. unfold JS.or_else. cbn [JS.truthy]. rewrite Hcalls.
      destruct native as [| op ops].
      * rewrite Hextract, Hv, Hops, Htruthy. unfold ChatInterface.stripBlock.
        destruct (Str.trim (Fence.remove (c0 :: s0))); reflexivity.
      * cbn [negb]. rewrite Hextract, Hv, Hops, Htruthy.
        unfold ChatInterface.stripBlock.
        destruct (Str.trim (Fence.remove (c0 :: s0))); reflexivity.
    + destruct native; reflexivity.
  - subst native.
    eexists. split; [| split; [| split; [reflexivity | exact Htext]]].
    + run_ui. unfold JS.or_else. cbn [JS.truthy].
      rewrite Hextract, Hv, Hops, Htruthy. unfold ChatInterface.stripBlock.
      destruct (Str.trim (Fence.remove (c0 :: s0))); reflexivity.
    + reflexivity.
Qed.

(** C1, at the failing input [native_and_block]: [setPendingActions] is
    first called with the operations of the native call and then, by the
    JSON fallback that runs unconditionally, with the operations of the
    block; the pending batch is the block's operations, not the native
    ones. One source's operations appear, and the block is removed from the
    displayed text. *)
Theorem block_overrides_native_calls :
  ChatInterface.sendMessage native_and_block
  = (JS.Ok (JS.str "Done."),
     [JS.VArr []; JS.VArr [setCellValue_A1]; JS.VArr [setCellValue_B2]])
  /\ ChatInterface.pendingActions (snd (ChatInterface.sendMessage native_and_block))
     = JS.VArr [setCellValue_B2]
  /\ ChatInterface.pendingActions (snd (ChatInterface.sendMessage native_and_block))
     <> JS.VArr [setCellValue_A1].
Proof.
  assert (Hrun : ChatInterface.sendMessage native_and_block
                 = (JS.Ok (JS.str "Done."),
                    [JS.VArr []; JS.VArr [setCellValue_A1];
                     JS.VArr [setCellValue_B2]]))
    by (vm_compute; reflexivity).
  rewrite Hrun. split; [reflexivity |]. split; [reflexivity |].
  vm_compute. discriminate.
Qed.

(** C5, at the failing input [text_with_malformed_block] and no native
    call: no operation is extracted and nothing fails, but the text shown is
    the whole response, the fenced block still in it. The component of the
    text-only service shows the same response with the block removed. *)
Theorem malformed_block_stays_in_display :
  ChatInterface.sendMessage
    {| LLMService.text := JS.VStr text_with_malformed_block;
       LLMService.toolCalls := None |}
  = (JS.Ok (JS.VStr text_with_malformed_block), [JS.VArr []])
  /\ Str.includes Fence.opener text_with_malformed_block = true
  /\ ChatInterfaceText.sendMessage (JS.VStr text_with_malformed_block)
     = (JS.Ok (JS.VStr (Str.lit "I will set the header.  Let me know.")),
        [JS.VArr []]).
Proof. repeat split; vm_compute; reflexivity. Qed.

(** ** The context preview *)

Lemma toString_primitive (v : JS.value) :
  primitive v = true -> JS.toString v = JS.Ok (primitive_text v).
Proof. now destruct v as [| | [|] | | | | |]. Qed.

Lemma join_cells (sep : jsstring) (row : list JS.value) :
  Forall (fun cell => primitive cell = true) row ->
  JS.join sep row = JS.Ok (Str.join sep (map PreviewSpec.cellText row)).
Proof.
  intros Hrow. unfold JS.join.
  assert (Htexts : JS.traverse JS.element_text row
                   = JS.Ok (map PreviewSpec.cellText row)).
  { induction Hrow as [| cell row Hcell _ IH]; [reflexivity |].
    cbn [JS.traverse map]. rewrite IH.
    assert (Htext : JS.element_text cell = JS.Ok (PreviewSpec.cellText cell)).
    { unfold JS.element_text, PreviewSpec.cellText.
      destruct cell; try reflexivity; try discriminate Hcell.
      now apply toString_primitive. }
    now rewrite Htext. }
  now rewrite Htexts.
Qed.

Lemma previewRows_spec (values : list (list JS.value)) (steps i : nat)
  (context : jsstring) :
  (i + steps <= length values)%nat ->
  Forall (Forall (fun cell => primitive cell = true)) values ->
  ExcelService.previewRows values steps i context
  = JS.Ok (context ++ PreviewSpec.rowLines (S i) (firstn steps (skipn i values))).
Proof.
  intros Hlen Hcells. revert i context Hlen.
  induction steps as [| steps IH]; intros i context Hlen;
    cbn [ExcelService.previewRows firstn].
  - cbn [PreviewSpec.rowLines]. now rewrite app_nil_r.
  - destruct (skipn i values) as [| row rest] eqn:Hskip.
    { apply (f_equal (@length _)) in Hskip. rewrite length_skipn in Hskip.
      cbn [length] in Hskip. lia. }
    assert (Hnth : nth i values [] = row).
    { rewrite <- (firstn_skipn i values) at 1. rewrite Hskip.
      rewrite app_nth2; rewrite length_firstn; [| lia].
      replace (i - Nat.min i (length values))%nat with O by lia. reflexivity. }
    assert (Hrest : skipn (S i) values = rest).
    { replace (S i) with (1 + i)%nat by lia.
      rewrite <- skipn_skipn. now rewrite Hskip. }
    assert (Hrow : Forall (fun cell => primitive cell = true) row).
    { rewrite List.Forall_forall in Hcells. apply Hcells.
      rewrite <- Hnth. apply nth_In. lia. }
    rewrite Hnth, (join_cells _ _ Hrow).
    unfold mbind, result_bind, JS.bind. rewrite IH by lia.
    rewrite Hrest. cbn [firstn PreviewSpec.rowLines].
    unfold PreviewSpec.rowLine, PreviewSpec.newline, ExcelService.newline.
    replace (N.of_nat i + 1) with (N.of_nat (S i)) by lia.
    now rewrite <- !app_assoc.
Qed.

Lemma dataPreview_spec (values : list (list JS.value)) (context : jsstring) :
  Forall (Forall (fun cell => primitive cell = true)) values ->
  ExcelService.dataPreview values context
  = JS.Ok (context ++ PreviewSpec.dataSection values).
Proof.
  intros Hcells. unfold ExcelService.dataPreview, PreviewSpec.dataSection.
  destruct values as [| row rest] eqn:Hvalues; [now rewrite app_nil_r |].
  rewrite <- Hvalues in *. clear Hvalues row rest.
  rewrite previewRows_spec by (lia || assumption).
  unfold mbind, result_bind, JS.bind.
  change (skipn 0 values) with values.
  unfold PreviewSpec.rowsHeading, PreviewSpec.rowsMarker, PreviewSpec.newline,
    ExcelService.newline.
  destruct (Nat.leb_spec (length values) 20) as [Hle | Hgt].
  - rewrite Nat.min_l by exact Hle. rewrite firstn_all.
    destruct (Nat.ltb_spec (length values) (length values)) as [Hlt | _]; [lia |].
    now rewrite <- !app_assoc.
  - rewrite Nat.min_r by lia.
    destruct (Nat.ltb_spec 20 (length values)) as [_ | Hge]; [| lia].
    now rewrite <- !app_assoc.
Qed.

Lemma forEachIndexed_append {A B} (f : A -> nat -> list B -> list B)
  (g : nat -> A -> list B) (l : list A) (index : nat) (acc : list B) :
  (forall x i acc, f x i acc = acc ++ g i x) ->
  ExcelService.forEachIndexed f l index acc
  = acc ++ flat_map (fun p => g (fst p) (snd p)) (combine (seq index (length l)) l).
Proof.
  intros Hf. revert index acc.
  induction l as [| x l IH]; intros index acc;
    cbn [ExcelService.forEachIndexed length seq combine flat_map fst snd].
  - now rewrite app_nil_r.
  - now rewrite IH, Hf, <- app_assoc.
Qed.

(** The two nested loops of the code collect the formula cells of the
    specification. *)
Lemma collectFormulas_spec (formulas : list (list JS.value)) :
  ExcelService.collectFormulas formulas = PreviewSpec.formulaCells formulas.
Proof.
  unfold ExcelService.collectFormulas, PreviewSpec.formulaCells,
    PreviewSpec.indexed.
  rewrite (forEachIndexed_append _
             (fun rowIndex row =>
                flat_map (fun c => PreviewSpec.formulaCell rowIndex (fst c) (snd c))
                  (combine (seq 0 (length row)) row)));
    [reflexivity |].
  intros row rowIndex cells.
  apply (forEachIndexed_append _
           (fun colIndex cell => PreviewSpec.formulaCell rowIndex colIndex cell)).
  intros cell colIndex acc. unfold PreviewSpec.formulaCell.
  destruct cell as [| | b | m e | f | items | fields | name];
    try (now rewrite app_nil_r).
  destruct f as [| c f].
  { cbn [JS.truthy andb].
    change (Str.startsWith (Str.lit "=") []) with false. now rewrite app_nil_r. }
  cbn [JS.truthy andb].
  destruct (Str.startsWith (Str.lit "=") (c :: f)); [| now rewrite app_nil_r].
  unfold PreviewSpec.columnLetter, ExcelService.fromCharCode. reflexivity.
Qed.

Lemma formula_lines_spec (cells : list jsstring) (context : jsstring) :
  fold_left
    (fun context f => context ++ Str.lit "  " ++ f ++ ExcelService.newline)
    cells context
  = context ++ concat (map PreviewSpec.formulaLine cells).
Proof.
  revert context. induction cells as [| f rest IH]; intros context;
    cbn [fold_left map concat].
  - now rewrite app_nil_r.
  - rewrite IH. unfold PreviewSpec.formulaLine, PreviewSpec.newline,
      ExcelService.newline. now rewrite <- !app_assoc.
Qed.

Lemma formulaPreview_spec (cells : list jsstring) (context : jsstring) :
  ExcelService.formulaPreview cells context
  = context ++ PreviewSpec.formulaSection cells.
Proof.
  unfold ExcelService.formulaPreview, PreviewSpec.formulaSection.
  destruct cells as [| f rest] eqn:Hcells; [now rewrite app_nil_r |].
  rewrite <- Hcells. clear Hcells.
  unfold JS.slice_to. rewrite formula_lines_spec.
  unfold PreviewSpec.formulasHeading, PreviewSpec.formulasMarker,
    PreviewSpec.newline, ExcelService.newline.
  destruct (Nat.leb_spec (length cells) 20) as [Hle | Hgt].
  - rewrite firstn_all2 by exact Hle.
    destruct (Nat.ltb_spec 20 (length cells)) as [Hlt | _]; [lia |].
    now rewrite <- !app_assoc.
  - destruct (Nat.ltb_spec 20 (length cells)) as [_ | Hge]; [| lia].
    now rewrite <- !app_assoc.
Qed.

(** C3, amended: the note for the rows left out reads [... and N more rows],
    with a space after the dots. For every sheet whose cells are strings,
    numbers, booleans or empty, the context that [buildContextForLLM]
    returns is the preamble, the data preview and the formula preview of the
    specification: at most 20 rows and at most 20 formula cells are
    previewed, always the first ones, and a note with the number left out
    follows each preview only when more than 20 were there. With 25 rows the
    first 20 are previewed and the line [... and 5 more rows] follows; with
    more than 20 formula cells the first 20 are listed and the line
    [... and N more formulas] follows. *)
Theorem buildContextForLLM_preview (workbook : ExcelService.WorkbookContext)
  (data : ExcelService.SheetData) :
  ExcelService.activeSheetData workbook = Some data ->
  Forall (Forall (fun cell => primitive cell = true)) (ExcelService.values data) ->
  let rows := ExcelService.values data in
  let cells := PreviewSpec.formulaCells (ExcelService.formulas data) in
  ExcelService.buildContextForLLM workbook
  = JS.Ok (preamble workbook data
           ++ PreviewSpec.dataSection rows ++ PreviewSpec.formulaSection cells)
  /\ (length rows = 25%nat ->
      ExcelService.buildContextForLLM workbook
      = JS.Ok (preamble workbook data
               ++ (PreviewSpec.rowsHeading 20
                   ++ PreviewSpec.rowLines 1 (firstn 20 rows)
                   ++ Str.lit "... and 5 more rows" ++ [10])
               ++ PreviewSpec.formulaSection cells))
  /\ ((20 < length cells)%nat ->
      ExcelService.buildContextForLLM workbook
      = JS.Ok (preamble workbook data
               ++ PreviewSpec.dataSection rows
               ++ PreviewSpec.formulasHeading
               ++ concat (map PreviewSpec.formulaLine (firstn 20 cells))
               ++ Str.lit "  ... and " ++ Str.ofN (N.of_nat (length cells - 20))
               ++ Str.lit " more formulas" ++ [10])).
Proof.
  intros Hdata Hcells rows cells.
  assert (Hcontext : ExcelService.buildContextForLLM workbook
                     = JS.Ok (preamble workbook data
                              ++ PreviewSpec.dataSection rows
                              ++ PreviewSpec.formulaSection cells)).
  { unfold ExcelService.buildContextForLLM. rewrite Hdata.
    rewrite (dataPreview_spec _ _ Hcells).
    unfold mbind, result_bind, JS.bind.
    rewrite formulaPreview_spec, collectFormulas_spec.
    unfold preamble, ExcelService.newline. fold rows. fold cells.
    now rewrite <- !app_assoc. }
  split; [exact Hcontext |]. split.
  - intros Hlen. rewrite Hcontext. unfold PreviewSpec.dataSection.
    destruct rows as [| row rest] eqn:Hrows; [discriminate Hlen |].
    rewrite <- Hrows in *. rewrite Hlen. reflexivity.
  - intros Hlen. rewrite Hcontext. unfold PreviewSpec.formulaSection.
    destruct cells as [| f rest] eqn:Hformulas; [cbn [length] in Hlen; lia |].
    rewrite <- Hformulas in *.
    destruct (Nat.leb_spec (length cells) 20) as [Hle | _]; [lia |].
    reflexivity.
Qed.

Lemma buildContextForLLM_preview_witness :
  ExcelService.activeSheetData workbook25 = Some sheet25
  /\ Forall (Forall (fun cell => primitive cell = true))
       (ExcelService.values sheet25)
  /\ (let rows := ExcelService.values sheet25 in
      let cells := PreviewSpec.formulaCells (ExcelService.formulas sheet25) in
      ExcelService.buildContextForLLM workbook25
      = JS.Ok (preamble workbook25 sheet25
               ++ PreviewSpec.dataSection rows ++ PreviewSpec.formulaSection cells)
      /\ (length rows = 25%nat ->
          ExcelService.buildContextForLLM workbook25
          = JS.Ok (preamble workbook25 sheet25
                   ++ (PreviewSpec.rowsHeading 20
                       ++ PreviewSpec.rowLines 1 (firstn 20 rows)
                       ++ Str.lit "... and 5 more rows" ++ [10])
                   ++ PreviewSpec.formulaSection cells))
      /\ ((20 < length cells)%nat ->
          ExcelService.buildContextForLLM workbook25
          = JS.Ok (preamble workbook25 sheet25
                   ++ PreviewSpec.dataSection rows
                   ++ PreviewSpec.formulasHeading
                   ++ concat (map PreviewSpec.formulaLine (firstn 20 cells))
                   ++ Str.lit "  ... and "
                   ++ Str.ofN (N.of_nat (length cells - 20))
                   ++ Str.lit " more formulas" ++ [10]))).
Proof.
  assert (Hcells : Forall (Forall (fun cell => primitive cell = true))
                     (ExcelService.values sheet25)).
  { apply List.Forall_forall. intros row Hrow.
    apply repeat_spec in Hrow. subst row. repeat constructor. }
  split; [reflexivity |]. split; [exact Hcells |].
  exact (buildContextForLLM_preview workbook25 sheet25 eq_refl Hcells).
Defined.

(** C3 as written, refuted: for the sheet of 25 rows the context holds no
    [...and 5 more rows]; the note that the code writes is
    [... and 5 more rows]. *)
Lemma marker_as_claimed_is_absent :
  exists context,
    ExcelService.buildContextForLLM workbook25 = JS.Ok context
    /\ Str.includes (Str.lit "...and 5 more rows") context = false
    /\ Str.includes (Str.lit "... and 5 more rows" ++ [10]) context = true.
Proof. eexists. repeat split; vm_compute; reflexivity. Qed.

(** The context of that sheet, as the code builds it: rows 1 to 20, the note
    for the 5 rows left out, the first 20 of the 21 formula cells and the
    note for the one left out; row 21 and cell [B21] are not in it. *)
Example workbook25_context :
  exists context,
    ExcelService.buildContextForLLM workbook25 = JS.Ok context
    /\ Str.includes (Str.lit "Row 20: Item | 7" ++ [10]
                     ++ Str.lit "... and 5 more rows" ++ [10]) context = true
    /\ Str.includes (Str.lit "Row 21:") context = false
    /\ Str.includes (Str.lit "  B20: =A1*2" ++ [10]
                     ++ Str.lit "  ... and 1 more formulas" ++ [10]) context = true
    /\ Str.includes (Str.lit "B21:") context = false.
Proof. eexists. repeat split; vm_compute; reflexivity. Qed.

(** ** Further checks on concrete inputs *)

(** 52 messages are saved: the store holds the last 50, and [getMessages()]
    reads them back. *)
Example saveMessages_52 :
  let messages := map (fun i => JS.VObj [(Str.lit "id", JS.int (Z.of_nat i));
                                         (Str.lit "role", JS.str "user")])
                    (seq 1 52) in
  StorageService.getMessages (StorageService.saveMessages messages ∅)
  = JS.VArr (skipn 2 messages).
Proof. vm_compute. reflexivity. Qed.

(** Whatever follows it, and whatever the host accepts, a [null] operation
    ends the batch: nothing after it is attempted and no synchronization is
    issued. *)
Lemma null_operation_ends_batch (rejects : Host.oracle) (now : Z)
  (rest : list JS.value) :
  rejects [] getActiveWorksheet = false ->
  ExcelService.executeOperations rejects now true (JS.VNull :: rest) []
  = (JS.Throw (JS.Exn JS.TypeError
                 (Str.lit "Cannot read properties of null (reading 'action')")),
     [getActiveWorksheet]).
Proof.
  intros Hactive.
  unfold ExcelService.executeOperations, ExcelService.run, ExcelService.batch,
    ExcelService.call, mbind, eff_bind, Eff.bind.
  cbn [negb]. unfold Host.request at 1. fold getActiveWorksheet.
  rewrite Hactive. cbn [app Eff.for_each]. unfold Eff.bind.
  reflexivity.
Qed.

(** Every error response whose body is the JSON text [null] makes the
    conversion throw the [TypeError]. *)
Lemma null_body_throws (provider : string) (r : Net.response) :
  Json.parse (Net.text r) = Some JS.VNull ->
  @Net.error_of_message_field unit provider r = JS.Throw reading_error_of_null
  /\ @Net.error_of_error_field unit r = JS.Throw reading_error_of_null.
Proof.
  intros Hnull.
  unfold Net.error_of_message_field, Net.error_of_error_field,
    Net.json_or_empty. rewrite Hnull. split; reflexivity.
Qed.

(** The conversion to a string: an object prints as [[object Object]]
    unless it has a member [toString] of its own that is no function, which
    makes the conversion throw, also from within an array. *)
Example toString_of_objects :
  Json.parse (Str.json "{'toString':1}") = Some unprintable
  /\ JS.toString unprintable = JS.Throw JS.NOT_PRIMITIVE
  /\ JS.toString (JS.VObj [(Str.lit "name", JS.str "Summary")])
     = JS.Ok (Str.lit "[object Object]")
  /\ JS.toString (JS.VArr [JS.int 1; JS.VNull; JS.str "a"]) = JS.Ok (Str.lit "1,,a")
  /\ JS.toString (JS.VArr [JS.int 1; unprintable]) = JS.Throw JS.NOT_PRIMITIVE.
Proof. repeat split; vm_compute; reflexivity. Qed.

(** An operation that fails and whose address cannot be converted to a
    string ends the batch as a [null] does: the [catch] of the loop throws
    while it builds its message, the operation after it is not attempted and
    nothing is synchronized. *)
Example unprintable_address_ends_batch :
  ExcelService.executeOperations grudging 0 true
    [format_unprintable; setCellValue_A1] []
  = (JS.Throw JS.NOT_PRIMITIVE,
     [getActiveWorksheet; Host.Call (Str.lit "sheet.getRange") [unprintable]]).
Proof. vm_compute. reflexivity. Qed.

(** The [catch] of [createWorksheet] throws when the name cannot be
    converted to a string; the [catch] of the loop then reports the
    operation and the batch goes on. *)
Example unprintable_name_leaves_createWorksheet :
  fst (ExcelService.applyOperation grudging 0
         (JS.VObj [(Str.lit "action", JS.str "createWorksheet");
                   (Str.lit "name", unprintable)]) [])
  = JS.Throw JS.NOT_PRIMITIVE
  /\ fst (ExcelService.executeOperations grudging 0 true
            [JS.VObj [(Str.lit "action", JS.str "createWorksheet");
                      (Str.lit "name", unprintable)]] [])
     = JS.Ok tt.
Proof. split; vm_compute; reflexivity. Qed.

(** A part of a Gemini answer whose [text] cannot be converted to a string
    makes the loop over the parts throw. *)
Example unprintable_text_leaves_geminiParts :
  LLMService.geminiParts [JS.VObj [(Str.lit "text", unprintable)]] [] []
  = JS.Throw JS.NOT_PRIMITIVE.
Proof. vm_compute. reflexivity. Qed.

(** * Further properties of the code *)

(** ** Settings *)

Lemma btoa_wide (key : jsstring) :
  Exists (fun c => 256 <= c) key -> Base64.btoa key = None.
Proof.
  intros Hwide. unfold Base64.btoa.
  replace (forallb (fun c => c <? 256) key) with false; [reflexivity |].
  symmetry. apply not_true_is_false. intros Hall.
  rewrite forallb_forall in Hall.
  apply List.Exists_exists in Hwide as (c & Hin & Hc).
  specialize (Hall c Hin). apply N.ltb_lt in Hall. lia.
Qed.

(** X1: a key with a character above U+00FF is not saved: [btoa] throws, the
    error is swallowed, and the store, with whatever key it held, is left
    as it was. *)
Theorem saveApiKey_ignores_wide_key (key : jsstring)
  (st : StorageService.storage) :
  Exists (fun c => 256 <= c) key ->
  StorageService.saveApiKey key st = st.
Proof.
  intros Hwide. unfold StorageService.saveApiKey.
  now rewrite (btoa_wide key Hwide).
Qed.

Lemma saveApiKey_ignores_wide_key_witness :
  Exists (fun c => 256 <= c) (Str.lit "sk-" ++ [8364])
  /\ StorageService.saveApiKey (Str.lit "sk-" ++ [8364])
       (StorageService.saveApiKey (Str.lit "old") ∅)
     = StorageService.saveApiKey (Str.lit "old") ∅.
Proof.
  assert (Hwide : Exists (fun c => 256 <= c) (Str.lit "sk-" ++ [8364])).
  { apply List.Exists_exists. exists 8364. split; [| lia].
    apply in_or_app. right. now left. }
  split; [exact Hwide |].
  exact (saveApiKey_ignores_wide_key _ _ Hwide).
Defined.

Lemma keys_distinct :
  StorageService.API_KEY <> StorageService.PROVIDER
  /\ StorageService.API_KEY <> StorageService.MODEL
  /\ StorageService.API_KEY <> StorageService.MESSAGES
  /\ StorageService.PROVIDER <> StorageService.MODEL
  /\ StorageService.PROVIDER <> StorageService.MESSAGES
  /\ StorageService.MODEL <> StorageService.MESSAGES.
Proof. repeat split; vm_compute; discriminate. Qed.

Lemma getItem_removeItem (k : jsstring) (st : StorageService.storage) :
  StorageService.getItem k (StorageService.removeItem k st) = None.
Proof. apply lookup_delete_eq. Qed.

Lemma getItem_removeItem_other (k k' : jsstring) (st : StorageService.storage) :
  k <> k' ->
  StorageService.getItem k' (StorageService.removeItem k st)
  = StorageService.getItem k' st.
Proof. intros Hne. now apply lookup_delete_ne. Qed.

Lemma Forall_trimStart (P : N -> Prop) (s : jsstring) :
  Forall P s -> Forall P (Str.trimStart s).
Proof.
  induction 1 as [| c s Hc Hs IH]; cbn [Str.trimStart]; [constructor |].
  destruct (Str.is_space c); [exact IH | now constructor].
Qed.

Lemma Forall_trim (P : N -> Prop) (s : jsstring) :
  Forall P s -> Forall P (Str.trim s).
Proof.
  intros Hs. unfold Str.trim, Str.trimEnd.
  apply Forall_rev, Forall_trimStart, Forall_rev, Forall_trimStart, Hs.
Qed.

(** X2: after [handleSave] with a key of Latin-1 characters that is not
    blank, a provider and a model that are not empty, [getSettings()]
    returns the trimmed key, that provider and that model. *)
Theorem handleSave_getSettings (apiKey provider model : jsstring)
  (st : StorageService.storage) :
  Forall (fun c => c < 256) apiKey ->
  Str.trim apiKey <> [] ->
  provider <> [] ->
  model <> [] ->
  StorageService.getSettings (SettingsPanel.handleSave apiKey provider model st)
  = {| StorageService.apiKey := Some (Str.trim apiKey);
       StorageService.provider := provider;
       StorageService.model := model |}.
Proof.
  intros Hlatin Hkey Hprovider Hmodel.
  destruct keys_distinct as (Hkp & Hkm & _ & Hpm & _ & _).
  pose proof (Forall_trim _ _ Hlatin) as Htrim.
  unfold SettingsPanel.handleSave.
  destruct (Str.trim apiKey) as [| c key] eqn:Heq; [congruence |].
  unfold StorageService.getSettings. f_equal.
  - unfold StorageService.getApiKey, StorageService.saveModel,
      StorageService.saveProvider.
    rewrite getItem_setItem_other by congruence.
    rewrite getItem_setItem_other by congruence.
    unfold StorageService.saveApiKey.
    rewrite (btoa_latin1 _ Htrim), getItem_setItem.
    pose proof (encode_nonempty (c :: key) ltac:(congruence)) as Henc.
    pose proof (atob_encode _ Htrim) as Hback.
    destruct (Base64.encode (c :: key)); [congruence | exact Hback].
  - unfold StorageService.getProvider, StorageService.saveModel,
      StorageService.saveProvider.
    rewrite getItem_setItem_other by congruence.
    rewrite getItem_setItem.
    destruct provider; [congruence | reflexivity].
  - unfold StorageService.getModel, StorageService.saveModel.
    rewrite getItem_setItem.
    destruct model; [congruence | reflexivity].
Qed.

Lemma handleSave_getSettings_witness :
  Forall (fun c => c < 256) (Str.lit "  sk-or-v1-0f3a ")
  /\ Str.trim (Str.lit "  sk-or-v1-0f3a ") <> []
  /\ Str.lit "gemini" <> []
  /\ Str.lit "google/gemma-7b-it:free" <> []
  /\ StorageService.getSettings
       (SettingsPanel.handleSave (Str.lit "  sk-or-v1-0f3a ") (Str.lit "gemini")
          (Str.lit "google/gemma-7b-it:free") ∅)
     = {| StorageService.apiKey := Some (Str.trim (Str.lit "  sk-or-v1-0f3a "));
          StorageService.provider := Str.lit "gemini";
          StorageService.model := Str.lit "google/gemma-7b-it:free" |}.
Proof.
  assert (H1 : Forall (fun c => c < 256) (Str.lit "  sk-or-v1-0f3a "))
    by (vm_compute; repeat constructor).
  assert (H2 : Str.trim (Str.lit "  sk-or-v1-0f3a ") <> [])
    by (vm_compute; discriminate).
  assert (H3 : Str.lit "gemini" <> []) by (vm_compute; discriminate).
  assert (H4 : Str.lit "google/gemma-7b-it:free" <> [])
    by (vm_compute; discriminate).
  repeat (split; [assumption |]).
  exact (handleSave_getSettings _ _ _ ∅ H1 H2 H3 H4).
Defined.

(** X3: [handleSave] with a blank key field (empty or white space only)
    leaves the stored key as it is, while the provider and the model are
    still saved. *)
Theorem handleSave_blank_key (apiKey provider model : jsstring)
  (st : StorageService.storage) :
  Str.trim apiKey = [] ->
  StorageService.getApiKey (SettingsPanel.handleSave apiKey provider model st)
  = StorageService.getApiKey st
  /\ StorageService.getItem StorageService.PROVIDER
       (SettingsPanel.handleSave apiKey provider model st) = Some provider
  /\ StorageService.getItem StorageService.MODEL
       (SettingsPanel.handleSave apiKey provider model st) = Some model.
Proof.
  intros Hblank.
  destruct keys_distinct as (Hkp & Hkm & _ & Hpm & _ & _).
  unfold SettingsPanel.handleSave. rewrite Hblank.
  unfold StorageService.getApiKey, StorageService.saveModel,
    StorageService.saveProvider.
  rewrite !getItem_setItem_other by congruence.
  rewrite getItem_setItem.
  repeat split. now rewrite getItem_setItem.
Qed.

Lemma handleSave_blank_key_witness :
  Str.trim (Str.lit "   ") = []
  /\ StorageService.getApiKey
       (SettingsPanel.handleSave (Str.lit "   ") (Str.lit "gemini")
          (Str.lit "m") (StorageService.saveApiKey (Str.lit "old") ∅))
     = StorageService.getApiKey (StorageService.saveApiKey (Str.lit "old") ∅)
  /\ StorageService.getItem StorageService.PROVIDER
       (SettingsPanel.handleSave (Str.lit "   ") (Str.lit "gemini")
          (Str.lit "m") (StorageService.saveApiKey (Str.lit "old") ∅))
     = Some (Str.lit "gemini")
  /\ StorageService.getItem StorageService.MODEL
       (SettingsPanel.handleSave (Str.lit "   ") (Str.lit "gemini")
          (Str.lit "m") (StorageService.saveApiKey (Str.lit "old") ∅))
     = Some (Str.lit "m").
Proof.
  assert (H : Str.trim (Str.lit "   ") = []) by reflexivity.
  split; [exact H |].
  exact (handleSave_blank_key _ _ _ _ H).
Defined.

(** X4: after [handleClearKey] no key is configured ([getApiKey()] is
    [null], [hasApiKey()] is false, the panel shows an empty field), and the
    provider, the model and the saved conversation are what they were. *)
Theorem handleClearKey_clears_only_the_key (st : StorageService.storage) :
  StorageService.getApiKey (SettingsPanel.handleClearKey st) = None
  /\ StorageService.hasApiKey (SettingsPanel.handleClearKey st) = false
  /\ SettingsPanel.shownApiKey (SettingsPanel.handleClearKey st) = []
  /\ StorageService.getProvider (SettingsPanel.handleClearKey st)
     = StorageService.getProvider st
  /\ StorageService.getModel (SettingsPanel.handleClearKey st)
     = StorageService.getModel st
  /\ StorageService.getMessages (SettingsPanel.handleClearKey st)
     = StorageService.getMessages st.
Proof.
  destruct keys_distinct as (Hkp & Hkm & Hkg & _).
  unfold SettingsPanel.handleClearKey, StorageService.clearApiKey.
  assert (Hkey : StorageService.getApiKey
                   (StorageService.removeItem StorageService.API_KEY st) = None).
  { unfold StorageService.getApiKey. now rewrite getItem_removeItem. }
  split; [exact Hkey |]. split.
  { unfold StorageService.hasApiKey. now rewrite getItem_removeItem. }
  split.
  { unfold SettingsPanel.shownApiKey. cbn [StorageService.getSettings
      StorageService.apiKey]. now rewrite Hkey. }
  unfold StorageService.getProvider, StorageService.getModel,
    StorageService.getMessages.
  now rewrite !getItem_removeItem_other by congruence.
Qed.

(** X5: the guard of [sendMessage] is weaker than the guard of [chat]: when
    the store holds a non-empty entry that is not base64, [hasApiKey()] is
    true, yet [chat] throws the missing-credential error, without a
    request. *)
Theorem unreadable_key_passes_hasApiKey
  (prompt : jsstring) (tools : list JS.value) (href : jsstring)
  (net : Net.network) (st : StorageService.storage)
  (messages : list Net.ChatMessage) (excelContext : option jsstring)
  (log : list Net.request) (c : N) (entry : jsstring) :
  StorageService.getItem StorageService.API_KEY st = Some (c :: entry) ->
  Base64.atob (c :: entry) = None ->
  StorageService.hasApiKey st = true
  /\ LLMService.chat prompt tools href net st messages excelContext log
     = (JS.Throw MISSING_KEY, log).
Proof.
  intros Hentry Hatob. split.
  - unfold StorageService.hasApiKey. now rewrite Hentry.
  - unfold LLMService.chat.
    cbn [StorageService.getSettings StorageService.apiKey].
    unfold StorageService.getApiKey. rewrite Hentry, Hatob. reflexivity.
Qed.

Lemma unreadable_key_passes_hasApiKey_witness :
  let st : StorageService.storage :=
    StorageService.setItem StorageService.API_KEY (Str.lit "%key%") ∅ in
  StorageService.getItem StorageService.API_KEY st = Some (37 :: Str.lit "key%")
  /\ Base64.atob (37 :: Str.lit "key%") = None
  /\ StorageService.hasApiKey st = true
  /\ LLMService.chat (Str.lit "prompt") [] (Str.lit "https://localhost:3000/")
       null_body st [user_turn] None []
     = (JS.Throw MISSING_KEY, []).
Proof.
  cbv zeta.
  assert (H1 : StorageService.getItem StorageService.API_KEY
                 (StorageService.setItem StorageService.API_KEY (Str.lit "%key%") ∅)
               = Some (37 :: Str.lit "key%")) by apply getItem_setItem.
  assert (H2 : Base64.atob (37 :: Str.lit "key%") = None) by reflexivity.
  split; [exact H1 |]. split; [exact H2 |].
  exact (unreadable_key_passes_hasApiKey _ _ _ _ _ _ None [] _ _ H1 H2).
Defined.

(** ** The executor *)

(** X6: an operation whose [action] is none of the names the [switch]
    knows is skipped: nothing is asked of the host, nothing is logged and
    nothing is thrown, in both executors. *)
Theorem unknown_action_is_skipped (rejects : Host.oracle) (now : Z)
  (op action : JS.value) (log : list Host.event) :
  JS.get op (Str.lit "action") = JS.Ok action ->
  Forall (fun name => JS.is_string action (Str.lit name) = false) KNOWN_ACTIONS ->
  ExcelService.applyOperation rejects now op log = (JS.Ok tt, log)
  /\ ExcelService.applyOperationBasic rejects op log = (JS.Ok tt, log).
Proof.
  intros Hget Hall.
  unfold ExcelService.applyOperation, ExcelService.applyOperationBasic,
    ExcelService.prop, mbind, eff_bind, Eff.bind, Eff.lift.
  rewrite Hget. unfold KNOWN_ACTIONS in Hall.
  unfold ExcelService.is_case.
  repeat match goal with
         | H : Forall _ (_ :: _) |- _ =>
             let Hname := fresh "Hname" in
             let Hrest := fresh "Hrest" in
             pose proof (Forall_inv H) as Hname;
             pose proof (Forall_inv_tail H) as Hrest;
             clear H; cbv beta in Hname; rewrite !Hname
         end.
  split; reflexivity.
Qed.

Lemma unknown_action_is_skipped_witness :
  let op := JS.VObj [(Str.lit "action", JS.str "mergeCells");
                     (Str.lit "address", JS.str "A1:B2")] in
  JS.get op (Str.lit "action") = JS.Ok (JS.str "mergeCells")
  /\ Forall (fun name => JS.is_string (JS.str "mergeCells") (Str.lit name) = false)
       KNOWN_ACTIONS
  /\ ExcelService.applyOperation Host.obliging 0 op [] = (JS.Ok tt, [])
  /\ ExcelService.applyOperationBasic Host.obliging op [] = (JS.Ok tt, []).
Proof.
  cbv zeta.
  assert (H1 : JS.get (JS.VObj [(Str.lit "action", JS.str "mergeCells");
                                (Str.lit "address", JS.str "A1:B2")])
                 (Str.lit "action") = JS.Ok (JS.str "mergeCells")) by reflexivity.
  assert (H2 : Forall (fun name => JS.is_string (JS.str "mergeCells") (Str.lit name)
                                   = false) KNOWN_ACTIONS)
    by (repeat constructor).
  split; [exact H1 |]. split; [exact H2 |].
  exact (unknown_action_is_skipped Host.obliging 0 _ _ [] H1 H2).
Defined.

Lemma filter_quiet (evs : list Host.event) :
  Forall quiet evs -> List.filter Host.is_sync evs = [].
Proof.
  induction 1 as [| ev rest Hev _ IH]; [reflexivity |].
  cbn [List.filter]. unfold quiet in Hev. now rewrite Hev.
Qed.

(** X7: whatever the list holds and whatever the host rejects,
    [executeOperations] only adds to the requests, and it issues at most one
    synchronization, which is then its last request. Without a host it
    asks nothing of Excel: it writes one line to the console and
    returns. *)
Theorem executeOperations_at_most_one_sync (rejects : Host.oracle) (now : Z)
  (excelAvailable : bool) (operations : list JS.value)
  (log : list Host.event) :
  exists before after,
    snd (ExcelService.executeOperations rejects now excelAvailable operations log)
    = log ++ before ++ after
    /\ List.filter Host.is_sync before = []
    /\ (after = [] \/ after = [Host.Sync])
    /\ (if excelAvailable then True
        else before = [Host.Console (Str.lit "log")
                         (Str.lit "Simulating Excel operations:")]
             /\ after = []
             /\ fst (ExcelService.executeOperations rejects now excelAvailable
                       operations log) = JS.Ok tt).
Proof.
  unfold ExcelService.executeOperations, ExcelService.run.
  destruct excelAvailable; cbn [negb].
  2:{ eexists [_], []. unfold Host.console. cbn [snd fst].
      split; [reflexivity |]. split; [reflexivity |]. split; [now left |].
      repeat split. }
  unfold ExcelService.batch, ExcelService.call, ExcelService.sync, mbind,
    eff_bind, Eff.bind.
  unfold Host.request at 1. fold getActiveWorksheet.
  destruct (rejects log getActiveWorksheet).
  { exists [getActiveWorksheet], []. cbn [snd].
    split; [reflexivity |]. split; [reflexivity |]. split; [now left | exact I]. }
  assert (Hloop : emits quiet
                    (Eff.for_each
                       (ExcelService.attempt (ExcelService.applyOperation rejects now))
                       operations)).
  { apply emits_for_each. intros op.
    apply attempt_emits; [reflexivity | apply applyOperation_quiet]. }
  destruct (Hloop (log ++ [getActiveWorksheet])) as (attempts & Hlog & Hquiet).
  destruct (Eff.for_each _ operations (log ++ [getActiveWorksheet]))
    as [[[] | e] log1]; cbn [snd] in Hlog; subst log1.
  - exists (getActiveWorksheet :: attempts), [Host.Sync].
    unfold Host.request. cbn [snd].
    split; [now rewrite <- !app_assoc |].
    split; [cbn [List.filter getActiveWorksheet Host.is_sync];
            now apply filter_quiet |].
    split; [now right | exact I].
  - exists (getActiveWorksheet :: attempts), []. cbn [snd].
    split; [now rewrite <- !app_assoc, app_nil_r |].
    split; [cbn [List.filter getActiveWorksheet Host.is_sync];
            now apply filter_quiet |].
    split; [now left | exact I].
Qed.

(** X8: [createWorksheet] and [createPivotTable] have a [try] of their own.
    Whatever the host rejects and whatever the operation holds,
    [createPivotTable] does not throw: its [catch] only writes to the
    console. The [catch] of [createWorksheet] puts [op.name] into its
    warning, so [createWorksheet] does not throw when that name can be
    converted to a string, as every string, number or missing name can. *)
Theorem guarded_operations_never_throw (rejects : Host.oracle) (now : Z)
  (fields : list (jsstring * JS.value)) (log : list Host.event) :
  JS.own (Str.lit "action") fields = Some (JS.str "createPivotTable")
  \/ (JS.own (Str.lit "action") fields = Some (JS.str "createWorksheet")
      /\ exists name, JS.get (JS.VObj fields) (Str.lit "name") = JS.Ok name
                      /\ prints name = true) ->
  fst (ExcelService.applyOperation rejects now (JS.VObj fields) log) = JS.Ok tt.
Proof.
  intros Haction.
  unfold ExcelService.applyOperation, ExcelService.prop, mbind, eff_bind,
    Eff.bind, Eff.lift.
  destruct Haction as [Haction | (Haction & name & Hname & Hprints)];
    rewrite (get_own _ _ _ Haction).
  - change (ExcelService.is_case (JS.str "createPivotTable") "setCellValue") with false.
    change (ExcelService.is_case (JS.str "createPivotTable") "setFormula") with false.
    change (ExcelService.is_case (JS.str "createPivotTable") "format") with false.
    change (ExcelService.is_case (JS.str "createPivotTable") "createTable") with false.
    change (ExcelService.is_case (JS.str "createPivotTable") "createChart") with false.
    change (ExcelService.is_case (JS.str "createPivotTable") "createWorksheet") with false.
    change (ExcelService.is_case (JS.str "createPivotTable") "activateWorksheet") with false.
    change (ExcelService.is_case (JS.str "createPivotTable") "deleteWorksheet") with false.
    change (ExcelService.is_case (JS.str "createPivotTable") "autoFit") with false.
    change (ExcelService.is_case (JS.str "createPivotTable") "sortRange") with false.
    change (ExcelService.is_case (JS.str "createPivotTable") "filterRange") with false.
    change (ExcelService.is_case (JS.str "createPivotTable") "createPivotTable") with true.
    cbv iota. unfold Eff.try_catch.
    destruct (ExcelService.createPivotTable rejects now (JS.VObj fields) log)
      as [[[] | e] log1]; reflexivity.
  - change (ExcelService.is_case (JS.str "createWorksheet") "setCellValue") with false.
    change (ExcelService.is_case (JS.str "createWorksheet") "setFormula") with false.
    change (ExcelService.is_case (JS.str "createWorksheet") "format") with false.
    change (ExcelService.is_case (JS.str "createWorksheet") "createTable") with false.
    change (ExcelService.is_case (JS.str "createWorksheet") "createChart") with false.
    change (ExcelService.is_case (JS.str "createWorksheet") "createWorksheet") with true.
    cbv iota. unfold Eff.try_catch.
    match goal with
    | |- fst (let (r, log') := ?c in _) = _ => destruct c as [[[] | e] log1]
    end; [reflexivity |].
    rewrite Hname. unfold prints in Hprints.
    destruct (JS.toString name); [reflexivity | discriminate Hprints].
Qed.

Lemma guarded_operations_never_throw_witness :
  let fields := [(Str.lit "action", JS.str "createWorksheet");
                 (Str.lit "name", JS.str "Summary")] in
  (JS.own (Str.lit "action") fields = Some (JS.str "createPivotTable")
   \/ (JS.own (Str.lit "action") fields = Some (JS.str "createWorksheet")
       /\ exists name, JS.get (JS.VObj fields) (Str.lit "name") = JS.Ok name
                       /\ prints name = true))
  /\ fst (ExcelService.applyOperation grudging 0 (JS.VObj fields) []) = JS.Ok tt.
Proof.
  cbv zeta.
  assert (H : JS.own (Str.lit "action")
                [(Str.lit "action", JS.str "createWorksheet");
                 (Str.lit "name", JS.str "Summary")]
              = Some (JS.str "createPivotTable")
              \/ (JS.own (Str.lit "action")
                    [(Str.lit "action", JS.str "createWorksheet");
                     (Str.lit "name", JS.str "Summary")]
                  = Some (JS.str "createWorksheet")
                  /\ exists name,
                       JS.get (JS.VObj [(Str.lit "action", JS.str "createWorksheet");
                                        (Str.lit "name", JS.str "Summary")])
                         (Str.lit "name") = JS.Ok name
                       /\ prints name = true)).
  { right. split; [reflexivity |]. exists (JS.str "Summary").
    split; reflexivity. }
  split; [exact H |].
  exact (guarded_operations_never_throw grudging 0 _ [] H).
Defined.

(** ** Applying the pending batch *)

(** X9: when the pending batch is not empty, the failure of each of its
    operations can be reported (none is [null] or [undefined], and the
    action and the address of each can be converted to a string), and the
    host accepts the request for the active worksheet and the
    synchronization, [handleApplyActions] reports success, whatever the host
    did with the operations themselves: the success message is appended, the
    batch is emptied and no error is set. *)
Theorem apply_reports_success (rejects : Host.oracle) (now appliedAt : Z)
  (date : jsstring) (st : ChatPanel.State) (log : list Host.event) :
  ChatPanel.pendingActions st <> [] ->
  Forall (fun op => reportable op = true) (ChatPanel.pendingActions st) ->
  rejects log getActiveWorksheet = false ->
  (forall log', rejects log' Host.Sync = false) ->
  fst (ChatPanel.handleApplyActions rejects now true appliedAt date st log)
  = {| ChatPanel.messages :=
         ChatPanel.messages st ++ [appliedMessage appliedAt date];
       ChatPanel.pendingActions := [];
       ChatPanel.error := ChatPanel.error st;
       ChatPanel.executingActions := false |}.
Proof.
  intros Hne Hops Hactive Hsync.
  destruct (batch_without_null_operations rejects
              (ExcelService.applyOperation rejects now)
              (ChatPanel.pendingActions st) log
              (applyOperation_quiet rejects now) Hops Hactive)
    as (attempts & _ & _ & Hlog & Hres).
  unfold ChatPanel.handleApplyActions.
  destruct (ChatPanel.pendingActions st) as [| op ops] eqn:Hpending; [congruence |].
  unfold ExcelService.executeOperations, ExcelService.run. cbn [negb].
  unfold Host.request in Hres. rewrite Hsync in Hres. cbn [fst] in Hres.
  destruct (ExcelService.batch rejects (ExcelService.applyOperation rejects now)
              (op :: ops) log) as [[[] | e] log']; cbn [fst] in *;
    [reflexivity | discriminate Hres].
Qed.

Lemma apply_reports_success_witness :
  let st := {| ChatPanel.messages := [];
               ChatPanel.pendingActions := [setCellValue_A1];
               ChatPanel.error := None;
               ChatPanel.executingActions := false |} in
  ChatPanel.pendingActions st <> []
  /\ Forall (fun op => reportable op = true) (ChatPanel.pendingActions st)
  /\ grudging [] getActiveWorksheet = false
  /\ (forall log', grudging log' Host.Sync = false)
  /\ fst (ChatPanel.handleApplyActions grudging 0 true 1700000000000
            (Str.lit "2026-01-01T00:00:00.000Z") st [])
     = {| ChatPanel.messages :=
            ChatPanel.messages st
            ++ [appliedMessage 1700000000000 (Str.lit "2026-01-01T00:00:00.000Z")];
          ChatPanel.pendingActions := [];
          ChatPanel.error := ChatPanel.error st;
          ChatPanel.executingActions := false |}.
Proof.
  cbv zeta.
  set (st := {| ChatPanel.messages := [];
                ChatPanel.pendingActions := [setCellValue_A1];
                ChatPanel.error := None;
                ChatPanel.executingActions := false |}).
  assert (H1 : ChatPanel.pendingActions st <> []) by discriminate.
  assert (H2 : Forall (fun op => reportable op = true) (ChatPanel.pendingActions st))
    by (constructor; [vm_compute; reflexivity | constructor]).
  assert (H3 : grudging [] getActiveWorksheet = false) by reflexivity.
  assert (H4 : forall log', grudging log' Host.Sync = false) by reflexivity.
  split; [exact H1 |]. split; [exact H2 |]. split; [exact H3 |].
  split; [exact H4 |].
  exact (apply_reports_success grudging 0 1700000000000 _ st [] H1 H2 H3 H4).
Defined.

(** X10: when the failure of each pending operation can be reported, so
    that the loop reaches the synchronization, and the host rejects that
    synchronization, [handleApplyActions] sets the error
    [Failed to apply changes: ...] with the message of the rejection,
    appends no message and keeps the pending batch, so that it can be
    applied again. *)
Theorem apply_failure_keeps_batch (rejects : Host.oracle) (now appliedAt : Z)
  (date : jsstring) (st : ChatPanel.State) (log : list Host.event) :
  ChatPanel.pendingActions st <> [] ->
  Forall (fun op => reportable op = true) (ChatPanel.pendingActions st) ->
  rejects log getActiveWorksheet = false ->
  (forall log', rejects log' Host.Sync = true) ->
  fst (ChatPanel.handleApplyActions rejects now true appliedAt date st log)
  = {| ChatPanel.messages := ChatPanel.messages st;
       ChatPanel.pendingActions := ChatPanel.pendingActions st;
       ChatPanel.error :=
         Some (Str.lit "Failed to apply changes: "
               ++ Str.lit "The request was rejected by the host");
       ChatPanel.executingActions := false |}.
Proof.
  intros Hne Hops Hactive Hsync.
  destruct (batch_without_null_operations rejects
              (ExcelService.applyOperation rejects now)
              (ChatPanel.pendingActions st) log
              (applyOperation_quiet rejects now) Hops Hactive)
    as (attempts & _ & _ & Hlog & Hres).
  unfold ChatPanel.handleApplyActions.
  destruct (ChatPanel.pendingActions st) as [| op ops] eqn:Hpending; [congruence |].
  unfold ExcelService.executeOperations, ExcelService.run. cbn [negb].
  unfold Host.request in Hres. rewrite Hsync in Hres. cbn [fst] in Hres.
  destruct (ExcelService.batch rejects (ExcelService.applyOperation rejects now)
              (op :: ops) log) as [[[] | e] log']; cbn [fst] in *;
    [discriminate Hres |].
  injection Hres as ->. reflexivity.
Qed.

Lemma apply_failure_keeps_batch_witness :
  let st := {| ChatPanel.messages := [];
               ChatPanel.pendingActions := [setCellValue_A1];
               ChatPanel.error := None;
               ChatPanel.executingActions := false |} in
  ChatPanel.pendingActions st <> []
  /\ Forall (fun op => reportable op = true) (ChatPanel.pendingActions st)
  /\ unsynced [] getActiveWorksheet = false
  /\ (forall log', unsynced log' Host.Sync = true)
  /\ fst (ChatPanel.handleApplyActions unsynced 0 true 1700000000000
            (Str.lit "2026-01-01T00:00:00.000Z") st [])
     = {| ChatPanel.messages := ChatPanel.messages st;
          ChatPanel.pendingActions := ChatPanel.pendingActions st;
          ChatPanel.error :=
            Some (Str.lit "Failed to apply changes: "
                  ++ Str.lit "The request was rejected by the host");
          ChatPanel.executingActions := false |}.
Proof.
  cbv zeta.
  set (st := {| ChatPanel.messages := [];
                ChatPanel.pendingActions := [setCellValue_A1];
                ChatPanel.error := None;
                ChatPanel.executingActions := false |}).
  assert (H1 : ChatPanel.pendingActions st <> []) by discriminate.
  assert (H2 : Forall (fun op => reportable op = true) (ChatPanel.pendingActions st))
    by (constructor; [vm_compute; reflexivity | constructor]).
  assert (H3 : unsynced [] getActiveWorksheet = false) by reflexivity.
  assert (H4 : forall log', unsynced log' Host.Sync = true) by reflexivity.
  split; [exact H1 |]. split; [exact H2 |]. split; [exact H3 |].
  split; [exact H4 |].
  exact (apply_failure_keeps_batch unsynced 0 1700000000000 _ st [] H1 H2 H3 H4).
Defined.

(** ** The adapters *)

Lemma saved_key_and_provider (key provider : jsstring) :
  Forall (fun c => c < 256) key -> key <> [] -> provider <> [] ->
  StorageService.getSettings
    (StorageService.saveProvider provider (StorageService.saveApiKey key ∅))
  = {| StorageService.apiKey := Some key;
       StorageService.provider := provider;
       StorageService.model := Str.lit "meta-llama/llama-3.1-8b-instruct:free" |}.
Proof.
  intros Hlatin Hkey Hprovider.
  destruct keys_distinct as (Hkp & Hkm & _ & Hpm & _ & _).
  unfold StorageService.getSettings. f_equal.
  - unfold StorageService.getApiKey, StorageService.saveProvider.
    rewrite getItem_setItem_other by congruence.
    unfold StorageService.saveApiKey.
    rewrite (btoa_latin1 _ Hlatin), getItem_setItem.
    pose proof (encode_nonempty key Hkey) as Henc.
    pose proof (atob_encode _ Hlatin) as Hback.
    destruct (Base64.encode key); [congruence | exact Hback].
  - unfold StorageService.getProvider, StorageService.saveProvider.
    rewrite getItem_setItem. destruct provider; [congruence | reflexivity].
  - unfold StorageService.getModel, StorageService.saveProvider,
      StorageService.saveApiKey.
    rewrite (btoa_latin1 _ Hlatin).
    rewrite !getItem_setItem_other by congruence. reflexivity.
Qed.

(** X11: with a key configured and a stored provider that is none of
    [openrouter], [gemini] and [huggingface], [chat] throws
    [Unknown provider: <provider>] and issues no request. *)
Theorem unknown_provider_makes_no_request
  (prompt : jsstring) (tools : list JS.value) (href : jsstring)
  (net : Net.network) (st : StorageService.storage)
  (messages : list Net.ChatMessage) (excelContext : option jsstring)
  (log : list Net.request) (c : N) (key : jsstring) :
  StorageService.apiKey (StorageService.getSettings st) = Some (c :: key) ->
  StorageService.getProvider st <> Str.lit "openrouter" ->
  StorageService.getProvider st <> Str.lit "gemini" ->
  StorageService.getProvider st <> Str.lit "huggingface" ->
  LLMService.chat prompt tools href net st messages excelContext log
  = (JS.Throw (JS.Exn JS.Error
                 (Str.lit "Unknown provider: " ++ StorageService.getProvider st)),
     log).
Proof.
  intros Hkey H1 H2 H3. unfold LLMService.chat. rewrite Hkey.
  cbn [StorageService.getSettings StorageService.provider]. unfold Str.eqb.
  rewrite !bool_decide_eq_false_2 by assumption. reflexivity.
Qed.

Lemma unknown_provider_makes_no_request_witness :
  StorageService.apiKey (StorageService.getSettings store_with_unknown_provider)
  = Some (115 :: Str.lit "k-or-v1")
  /\ StorageService.getProvider store_with_unknown_provider <> Str.lit "openrouter"
  /\ StorageService.getProvider store_with_unknown_provider <> Str.lit "gemini"
  /\ StorageService.getProvider store_with_unknown_provider <> Str.lit "huggingface"
  /\ LLMService.chat (Str.lit "prompt") [] (Str.lit "https://localhost:3000/")
       null_body store_with_unknown_provider [user_turn] None []
     = (JS.Throw (JS.Exn JS.Error
                    (Str.lit "Unknown provider: "
                     ++ StorageService.getProvider store_with_unknown_provider)),
        []).
Proof.
  assert (Hsettings := saved_key_and_provider (Str.lit "sk-or-v1") (Str.lit "mistral")
                         ltac:(vm_compute; repeat constructor)
                         ltac:(vm_compute; discriminate)
                         ltac:(vm_compute; discriminate)).
  fold store_with_unknown_provider in Hsettings.
  assert (H0 : StorageService.apiKey
                 (StorageService.getSettings store_with_unknown_provider)
               = Some (115 :: Str.lit "k-or-v1")) by (now rewrite Hsettings).
  assert (Hp : StorageService.getProvider store_with_unknown_provider
               = Str.lit "mistral").
  { change (StorageService.provider
              (StorageService.getSettings store_with_unknown_provider)
            = Str.lit "mistral"). now rewrite Hsettings. }
  assert (H1 : StorageService.getProvider store_with_unknown_provider
               <> Str.lit "openrouter") by (rewrite Hp; vm_compute; discriminate).
  assert (H2 : StorageService.getProvider store_with_unknown_provider
               <> Str.lit "gemini") by (rewrite Hp; vm_compute; discriminate).
  assert (H3 : StorageService.getProvider store_with_unknown_provider
               <> Str.lit "huggingface") by (rewrite Hp; vm_compute; discriminate).
  split; [exact H0 |]. split; [exact H1 |]. split; [exact H2 |].
  split; [exact H3 |].
  exact (unknown_provider_makes_no_request _ _ _ _ _ _ None [] _ _ H0 H1 H2 H3).
Defined.

(** X12: with a key configured, [chat] sends its one request to the endpoint
    of the stored provider: OpenRouter and HuggingFace get the key in the
    [Authorization] header, Gemini gets it at the end of the address and
    gets no such header. *)
Theorem chat_requests_configured_provider
  (prompt : jsstring) (tools : list JS.value) (href : jsstring)
  (net : Net.network) (st : StorageService.storage)
  (messages : list Net.ChatMessage) (excelContext : option jsstring)
  (log : list Net.request) (c : N) (key : jsstring) :
  StorageService.apiKey (StorageService.getSettings st) = Some (c :: key) ->
  In (StorageService.getProvider st)
    [Str.lit "openrouter"; Str.lit "gemini"; Str.lit "huggingface"] ->
  exists req,
    snd (LLMService.chat prompt tools href net st messages excelContext log)
    = log ++ [req]
    /\ Net.url req
       = (if Str.eqb (StorageService.getProvider st) (Str.lit "openrouter")
          then Net.OPENROUTER_URL
          else if Str.eqb (StorageService.getProvider st) (Str.lit "gemini")
               then Net.GEMINI_URL ++ c :: key
               else Net.HUGGINGFACE_URL)
    /\ (if Str.eqb (StorageService.getProvider st) (Str.lit "gemini")
        then Net.headers req = Net.json_headers
        else In (Net.bearer (c :: key)) (Net.headers req)).
Proof.
  intros Hkey Hprovider. unfold LLMService.chat. rewrite Hkey.
  cbn [StorageService.getSettings StorageService.provider StorageService.model].
  destruct Hprovider as [<- | [<- | [<- | []]]].
  - change (Str.eqb (Str.lit "openrouter") (Str.lit "openrouter")) with true.
    change (Str.eqb (Str.lit "openrouter") (Str.lit "gemini")) with false.
    cbv iota. eexists. split; [apply fetch_then_pure |].
    split; [reflexivity | now left].
  - change (Str.eqb (Str.lit "gemini") (Str.lit "openrouter")) with false.
    change (Str.eqb (Str.lit "gemini") (Str.lit "gemini")) with true.
    cbv iota. eexists. split; [apply fetch_then_pure |].
    split; reflexivity.
  - change (Str.eqb (Str.lit "huggingface") (Str.lit "openrouter")) with false.
    change (Str.eqb (Str.lit "huggingface") (Str.lit "gemini")) with false.
    change (Str.eqb (Str.lit "huggingface") (Str.lit "huggingface")) with true.
    cbv iota. eexists. split; [rewrite bind_ret_log; apply fetch_then_pure |].
    split; [reflexivity | now left].
Qed.

Lemma chat_requests_configured_provider_witness :
  StorageService.apiKey (StorageService.getSettings store_with_gemini)
  = Some (65 :: Str.lit "Iza-key")
  /\ In (StorageService.getProvider store_with_gemini)
       [Str.lit "openrouter"; Str.lit "gemini"; Str.lit "huggingface"]
  /\ exists req,
       snd (LLMService.chat (Str.lit "prompt") [] (Str.lit "https://localhost:3000/")
              null_body store_with_gemini [user_turn] None [])
       = [] ++ [req]
       /\ Net.url req
          = (if Str.eqb (StorageService.getProvider store_with_gemini)
                  (Str.lit "openrouter")
             then Net.OPENROUTER_URL
             else if Str.eqb (StorageService.getProvider store_with_gemini)
                       (Str.lit "gemini")
                  then Net.GEMINI_URL ++ 65 :: Str.lit "Iza-key"
                  else Net.HUGGINGFACE_URL)
       /\ (if Str.eqb (StorageService.getProvider store_with_gemini)
                (Str.lit "gemini")
           then Net.headers req = Net.json_headers
           else In (Net.bearer (65 :: Str.lit "Iza-key")) (Net.headers req)).
Proof.
  assert (Hsettings := saved_key_and_provider (Str.lit "AIza-key") (Str.lit "gemini")
                         ltac:(vm_compute; repeat constructor)
                         ltac:(vm_compute; discriminate)
                         ltac:(vm_compute; discriminate)).
  fold store_with_gemini in Hsettings.
  assert (H0 : StorageService.apiKey (StorageService.getSettings store_with_gemini)
               = Some (65 :: Str.lit "Iza-key")) by (now rewrite Hsettings).
  assert (Hp : StorageService.getProvider store_with_gemini = Str.lit "gemini").
  { change (StorageService.provider (StorageService.getSettings store_with_gemini)
            = Str.lit "gemini"). now rewrite Hsettings. }
  assert (H1 : In (StorageService.getProvider store_with_gemini)
                 [Str.lit "openrouter"; Str.lit "gemini"; Str.lit "huggingface"])
    by (rewrite Hp; right; left; reflexivity).
  split; [exact H0 |]. split; [exact H1 |].
  exact (chat_requests_configured_provider _ _ _ _ _ _ None [] _ _ H0 H1).
Defined.

Lemma startsWith_prefix (p r : jsstring) : Str.startsWith p (p ++ r) = true.
Proof.
  induction p as [| a p IH]; [destruct r; reflexivity |].
  cbn [app Str.startsWith]. now rewrite N.eqb_refl, IH.
Qed.

Lemma remove_first_prefix (p r : jsstring) : Net.remove_first p (p ++ r) = r.
Proof.
  unfold Net.remove_first.
  assert (Hsplit : Str.splitAt p (p ++ r) = Some ([], r)).
  { pose proof (startsWith_prefix p r) as Hstarts.
    assert (Hskip : skipn (length p) (p ++ r) = r).
    { rewrite skipn_app, skipn_all, Nat.sub_diag. reflexivity. }
    destruct (p ++ r) eqn:Hs; cbn [Str.splitAt]; now rewrite Hstarts, Hskip. }
  now rewrite Hsplit.
Qed.

(** X13: HuggingFace models repeat the prompt before their answer. When the
    successful response is an array whose first entry has as
    [generated_text] the prompt that was sent followed by an answer,
    [callHuggingFace] returns the answer alone, without the white space
    around it. *)
Theorem callHuggingFace_strips_echoed_prompt
  (prompt : jsstring) (net : Net.network) (messages : list Net.ChatMessage)
  (apiKey : jsstring) (excelContext : option jsstring)
  (log : list Net.request) (status : Z) (body : jsstring)
  (first : JS.value) (rest : list JS.value) (answer : jsstring) :
  (forall req, net log req = Net.Responded status body) ->
  Net.ok {| Net.status := status; Net.text := body |} = true ->
  Json.parse body = Some (JS.VArr (first :: rest)) ->
  JS.get first (Str.lit "generated_text")
  = JS.Ok (JS.VStr (Net.conversation_prompt prompt messages excelContext ++ answer)) ->
  fst (LLMService.callHuggingFace prompt net messages apiKey excelContext log)
  = JS.Ok (Str.trim answer).
Proof.
  intros Hnet Hok Hparse Hget.
  unfold LLMService.callHuggingFace, mbind, eff_bind, Eff.bind.
  unfold Net.fetch at 1. rewrite Hnet, Hok. cbn [negb]. unfold Eff.lift.
  cbn [fst]. unfold Net.json. cbn [Net.text]. rewrite Hparse.
  unfold Net.huggingface_text, mbind, result_bind, JS.bind.
  cbn [JS.index nth]. rewrite Hget. unfold Net.replace_trim.
  now rewrite remove_first_prefix.
Qed.

Lemma callHuggingFace_strips_echoed_prompt_witness :
  let prompt := Net.conversation_prompt (Str.lit "You are an Excel assistant.")
                  [user_turn] None in
  (forall req, answering 200 (echoing_body prompt) [] req
               = Net.Responded 200 (echoing_body prompt))
  /\ Net.ok {| Net.status := 200; Net.text := echoing_body prompt |} = true
  /\ Json.parse (echoing_body prompt)
     = Some (JS.VArr [JS.VObj [(Str.lit "generated_text",
                                JS.VStr (prompt ++ Str.lit "  Use =SUM(A1:A9). "))]])
  /\ JS.get (JS.VObj [(Str.lit "generated_text",
                       JS.VStr (prompt ++ Str.lit "  Use =SUM(A1:A9). "))])
       (Str.lit "generated_text")
     = JS.Ok (JS.VStr (prompt ++ Str.lit "  Use =SUM(A1:A9). "))
  /\ fst (LLMService.callHuggingFace (Str.lit "You are an Excel assistant.")
            (answering 200 (echoing_body prompt)) [user_turn]
            (Str.lit "hf_key") None [])
     = JS.Ok (Str.lit "Use =SUM(A1:A9).").
Proof.
  intros prompt.
  assert (H1 : forall req, answering 200 (echoing_body prompt) [] req
                           = Net.Responded 200 (echoing_body prompt))
    by reflexivity.
  assert (H2 : Net.ok {| Net.status := 200; Net.text := echoing_body prompt |} = true)
    by reflexivity.
  assert (H3 : Json.parse (echoing_body prompt)
               = Some (JS.VArr [JS.VObj [(Str.lit "generated_text",
                                          JS.VStr (prompt ++ Str.lit "  Use =SUM(A1:A9). "))]]))
    by (vm_compute; reflexivity).
  assert (H4 : JS.get (JS.VObj [(Str.lit "generated_text",
                                 JS.VStr (prompt ++ Str.lit "  Use =SUM(A1:A9). "))])
                 (Str.lit "generated_text")
               = JS.Ok (JS.VStr (prompt ++ Str.lit "  Use =SUM(A1:A9). ")))
    by (vm_compute; reflexivity).
  split; [exact H1 |]. split; [exact H2 |]. split; [exact H3 |].
  split; [exact H4 |].
  exact (callHuggingFace_strips_echoed_prompt (Str.lit "You are an Excel assistant.")
           _ [user_turn] (Str.lit "hf_key") None [] 200 _ _ [] _ H1 H2 H3 H4).
Defined.

(** X14: [callOpenRouter] converts every tool call with [JSON.parse] on its
    [arguments]. When the successful response carries a first tool call
    whose [arguments] can be converted to a string and that string is not
    JSON (as for an object instead of JSON text, which prints as
    [[object Object]]), the whole call throws a [SyntaxError]: no text and
    no other tool call comes back. *)
Theorem callOpenRouter_rejects_unparsable_arguments
  (tools : list JS.value) (href : jsstring) (net : Net.network)
  (messages : list Net.ChatMessage) (apiKey model : jsstring)
  (log : list Net.request) (status : Z) (body : jsstring)
  (data choices choice message content tc f n a : JS.value)
  (rest : list JS.value) (printed : jsstring) :
  (forall req, net log req = Net.Responded status body) ->
  Net.ok {| Net.status := status; Net.text := body |} = true ->
  Json.parse body = Some data ->
  JS.get data (Str.lit "choices") = JS.Ok choices ->
  JS.index choices 0 = JS.Ok choice ->
  JS.get choice (Str.lit "message") = JS.Ok message ->
  JS.get message (Str.lit "content") = JS.Ok content ->
  JS.get message (Str.lit "tool_calls") = JS.Ok (JS.VArr (tc :: rest)) ->
  JS.get tc (Str.lit "function") = JS.Ok f ->
  JS.get f (Str.lit "name") = JS.Ok n ->
  JS.get f (Str.lit "arguments") = JS.Ok a ->
  JS.toString a = JS.Ok printed ->
  Json.parse printed = None ->
  exists text,
    fst (LLMService.callOpenRouter tools href net messages apiKey model log)
    = JS.Throw (JS.Exn JS.SyntaxError text).
Proof.
  intros Hnet Hok Hparse Hchoices Hchoice Hmessage Hcontent Hcalls Hf Hn Ha
    Hprinted Hbad.
  eexists.
  unfold LLMService.callOpenRouter, mbind, eff_bind, Eff.bind.
  unfold Net.fetch at 1. rewrite Hnet, Hok. cbn [negb]. unfold Eff.lift.
  cbn [fst]. unfold Net.json. cbn [Net.text]. rewrite Hparse.
  unfold mbind, result_bind, JS.bind.
  rewrite Hchoices, Hchoice, Hmessage, Hcontent, Hcalls.
  assert (Hconvert : LLMService.convertToolCall tc
                     = JS.Throw (JS.Exn JS.SyntaxError
                                   (Str.lit "Unexpected token in JSON"))).
  { unfold LLMService.convertToolCall, mbind, result_bind, JS.bind.
    now rewrite Hf, Hn, Ha, Hprinted, Hbad. }
  cbn [JS.truthy LLMService.mapResult]. rewrite Hconvert. reflexivity.
Qed.

Lemma callOpenRouter_rejects_unparsable_arguments_witness :
  exists data choices choice message tc f a,
    (forall req, answering 200 object_arguments_body [] req
                 = Net.Responded 200 object_arguments_body)
    /\ Net.ok {| Net.status := 200; Net.text := object_arguments_body |} = true
    /\ Json.parse object_arguments_body = Some data
    /\ JS.get data (Str.lit "choices") = JS.Ok choices
    /\ JS.index choices 0 = JS.Ok choice
    /\ JS.get choice (Str.lit "message") = JS.Ok message
    /\ JS.get message (Str.lit "content") = JS.Ok JS.VNull
    /\ JS.get message (Str.lit "tool_calls") = JS.Ok (JS.VArr [tc])
    /\ JS.get tc (Str.lit "function") = JS.Ok f
    /\ JS.get f (Str.lit "name") = JS.Ok (JS.str "execute_excel_operations")
    /\ JS.get f (Str.lit "arguments") = JS.Ok a
    /\ JS.toString a = JS.Ok (Str.lit "[object Object]")
    /\ Json.parse (Str.lit "[object Object]") = None
    /\ exists text,
         fst (LLMService.callOpenRouter [] (Str.lit "https://localhost:3000/")
                (answering 200 object_arguments_body) [user_turn]
                (Str.lit "sk-or-v1") (Str.lit "openai/gpt-4o-mini") [])
         = JS.Throw (JS.Exn JS.SyntaxError text).
Proof.
  do 7 eexists.
  assert (H1 : forall req, answering 200 object_arguments_body [] req
                           = Net.Responded 200 object_arguments_body)
    by reflexivity.
  assert (H2 : Net.ok {| Net.status := 200; Net.text := object_arguments_body |}
               = true) by reflexivity.
  split; [exact H1 |]. split; [exact H2 |].
  split; [vm_compute; reflexivity |].
  split; [vm_compute; reflexivity |].
  split; [vm_compute; reflexivity |].
  split; [vm_compute; reflexivity |].
  split; [vm_compute; reflexivity |].
  split; [vm_compute; reflexivity |].
  split; [vm_compute; reflexivity |].
  split; [vm_compute; reflexivity |].
  split; [vm_compute; reflexivity |].
  split; [vm_compute; reflexivity |].
  split; [vm_compute; reflexivity |].
  refine (callOpenRouter_rejects_unparsable_arguments [] _ _ [user_turn] _ _ []
            200 object_arguments_body _ _ _ _ JS.VNull _ _ _ _ []
            (Str.lit "[object Object]") H1 H2 _ _ _ _ _ _ _ _ _ _ _);
    vm_compute; reflexivity.
Defined.

(** X15: the loop of [callGemini] over the parts of an answer. When no part
    is [null] or [undefined] and the [text] of no part is an object (it is a
    string, or missing) the loop does not throw; the text it returns is the
    text so far followed by the [text] of every part that has one, in order,
    and the tool calls are those so far followed by one call for every part
    with a [functionCall], in order. *)
Theorem geminiParts_collects (parts : list JS.value) (text : jsstring)
  (toolCalls : list LLMService.ToolCall) :
  Forall (fun part => text_part part = true) parts ->
  LLMService.geminiParts parts text toolCalls
  = JS.Ok (text ++ concat (map partText parts),
           toolCalls ++ flat_map partCalls parts).
Proof.
  intros Hparts. revert text toolCalls.
  induction Hparts as [| part parts Hpart _ IH]; intros text toolCalls.
  - cbn [LLMService.geminiParts map concat flat_map]. now rewrite !app_nil_r.
  - cbn [LLMService.geminiParts map concat flat_map].
    unfold partText at 1, partCalls at 1. unfold text_part in Hpart.
    assert (Hobject : nullish part = false).
    { destruct part; try reflexivity; discriminate Hpart. }
    destruct (JS.get part (Str.lit "text")) as [t |]; [| discriminate Hpart].
    destruct (get_defined part (Str.lit "functionCall") Hobject) as [fc ->].
    unfold mbind, result_bind, JS.bind.
    rewrite (toString_primitive t Hpart).
    destruct (JS.truthy fc) eqn:Hfc.
    + assert (Hdefined : nullish fc = false) by (now destruct fc).
      destruct (get_defined fc (Str.lit "name") Hdefined) as [n ->].
      destruct (get_defined fc (Str.lit "args") Hdefined) as [a ->].
      destruct (JS.truthy t); rewrite IH; now rewrite <- ?app_assoc.
    + destruct (JS.truthy t); rewrite IH; now rewrite <- ?app_assoc, ?app_nil_r.
Qed.

Lemma geminiParts_collects_witness :
  Forall (fun part => text_part part = true)
    [JS.VObj [(Str.lit "text", JS.str "Done. ")];
     JS.VObj [(Str.lit "functionCall",
               JS.VObj [(Str.lit "name", JS.str "execute_excel_operations");
                        (Str.lit "args", JS.VObj [])])];
     JS.VObj [(Str.lit "text", JS.str "See A1.")]]
  /\ LLMService.geminiParts
       [JS.VObj [(Str.lit "text", JS.str "Done. ")];
        JS.VObj [(Str.lit "functionCall",
                  JS.VObj [(Str.lit "name", JS.str "execute_excel_operations");
                           (Str.lit "args", JS.VObj [])])];
        JS.VObj [(Str.lit "text", JS.str "See A1.")]] [] []
     = JS.Ok (Str.lit "Done. See A1.",
              [{| LLMService.name := JS.str "execute_excel_operations";
                  LLMService.arguments := JS.VObj [] |}]).
Proof.
  assert (H : Forall (fun part => text_part part = true)
                [JS.VObj [(Str.lit "text", JS.str "Done. ")];
                 JS.VObj [(Str.lit "functionCall",
                           JS.VObj [(Str.lit "name", JS.str "execute_excel_operations");
                                    (Str.lit "args", JS.VObj [])])];
                 JS.VObj [(Str.lit "text", JS.str "See A1.")]])
    by (repeat constructor).
  split; [exact H |].
  exact (geminiParts_collects _ [] [] H).
Defined.

(** ** The conversation and its display *)



Lemma address_here_spec (s acc address post : jsstring) :
  ChatPanel.address_here acc s = Some (address, post) ->
  exists body,
    address = rev acc ++ body /\ s = body ++ 93 :: post
    /\ ~ In 93 body /\ address <> [].
Proof.
  revert acc. induction s as [| c rest IH]; intros acc; [discriminate |].
  cbn [ChatPanel.address_here]. destruct (N.eqb_spec c 93) as [-> | Hc].
  - destruct acc as [| a acc]; [discriminate |]. intros [= <- <-].
    exists []. rewrite app_nil_r. repeat split; [tauto |].
    cbn [rev]. intros Hnil. now apply app_eq_nil in Hnil as [_ [=]].
  - intros H. apply IH in H as (body & -> & -> & Hbody & Hne).
    exists (c :: body). cbn [rev]. rewrite <- app_assoc. repeat split.
    + intros [Heq | Hin]; [congruence | tauto].
    + intros Hnil. apply Hne. cbn [rev]. now rewrite <- app_assoc.
Qed.

Lemma address_here_app (s acc address post more : jsstring) :
  ChatPanel.address_here acc s = Some (address, post) ->
  ChatPanel.address_here acc (s ++ more) = Some (address, post ++ more).
Proof.
  revert acc. induction s as [| c rest IH]; intros acc; [discriminate |].
  cbn [ChatPanel.address_here app]. destruct (c =? 93).
  - destruct acc; [discriminate |]. now intros [= <- <-].
  - apply IH.
Qed.

Lemma startsWith_longer (p s more : jsstring) :
  Str.startsWith p s = true -> Str.startsWith p (s ++ more) = true.
Proof.
  intros H. rewrite (startsWith_app p s H), <- app_assoc.
  apply startsWith_prefix.
Qed.

Lemma startsWith_length (p s : jsstring) :
  Str.startsWith p s = true -> (length p <= length s)%nat.
Proof.
  intros H. rewrite (startsWith_app p s H), length_app. lia.
Qed.

Lemma citation_here_spec (s address post : jsstring) :
  ChatPanel.citation_here s = Some (address, post) ->
  s = ChatPanel.CELL ++ address ++ 93 :: post
  /\ address <> [] /\ ~ In 93 address.
Proof.
  unfold ChatPanel.citation_here.
  destruct (Str.startsWith ChatPanel.CELL s) eqn:Hstart; [| discriminate].
  intros H. apply address_here_spec in H as (body & -> & Hs & Hbody & Hne).
  cbn [rev app] in *. repeat split; try assumption.
  etransitivity; [apply (startsWith_app _ _ Hstart) |]. now rewrite Hs.
Qed.

Lemma citation_here_app (s address post more : jsstring) :
  ChatPanel.citation_here s = Some (address, post) ->
  ChatPanel.citation_here (s ++ more) = Some (address, post ++ more).
Proof.
  unfold ChatPanel.citation_here.
  destruct (Str.startsWith ChatPanel.CELL s) eqn:Hstart; [| discriminate].
  rewrite (startsWith_longer _ _ more Hstart).
  rewrite skipn_app.
  replace (length ChatPanel.CELL - length s)%nat with 0%nat
    by (apply startsWith_length in Hstart; lia).
  apply address_here_app.
Qed.

Lemma find_citation_eq (s : jsstring) :
  ChatPanel.find_citation s
  = match ChatPanel.citation_here s with
    | Some (address, post) => Some ([], address, post)
    | None =>
        match s with
        | [] => None
        | c :: rest =>
            match ChatPanel.find_citation rest with
            | Some (pre, address, post) => Some (c :: pre, address, post)
            | None => None
            end
        end
    end.
Proof. destruct s; reflexivity. Qed.

Lemma find_citation_sound (s pre address post : jsstring) :
  ChatPanel.find_citation s = Some (pre, address, post) ->
  s = pre ++ ChatPanel.CELL ++ address ++ 93 :: post
  /\ address <> [] /\ ~ In 93 address.
Proof.
  revert pre. induction s as [| c rest IH]; intros pre; rewrite find_citation_eq.
  - destruct (ChatPanel.citation_here []) as [[a q] |] eqn:Hhere; [| discriminate].
    intros [= <- <- <-]. now apply citation_here_spec.
  - destruct (ChatPanel.citation_here (c :: rest)) as [[a q] |] eqn:Hhere.
    + intros [= <- <- <-]. now apply citation_here_spec.
    + destruct (ChatPanel.find_citation rest) as [[[pre' a] q] |]; [| discriminate].
      intros [= <- <- <-]. destruct (IH pre' eq_refl) as (-> & Hne & Hin).
      repeat split; assumption.
Qed.

Lemma find_citation_leftmost (s pre address post : jsstring) :
  ChatPanel.find_citation s = Some (pre, address, post) ->
  ChatPanel.find_citation pre = None.
Proof.
  revert pre. induction s as [| c rest IH]; intros pre; rewrite find_citation_eq.
  - destruct (ChatPanel.citation_here []) as [[a q] |]; [| discriminate].
    now intros [= <- <- <-].
  - destruct (ChatPanel.citation_here (c :: rest)) as [[a q] |] eqn:Hhere.
    + now intros [= <- <- <-].
    + destruct (ChatPanel.find_citation rest) as [[[pre' a] q] |] eqn:Hrest;
        [| discriminate].
      intros [= <- <- <-]. rewrite find_citation_eq, (IH pre' eq_refl).
      destruct (ChatPanel.citation_here (c :: pre')) as [[a' q'] |] eqn:Hpre;
        [| reflexivity].
      apply find_citation_sound in Hrest as (Hrest & _).
      apply (citation_here_app _ _ _ (ChatPanel.CELL ++ a ++ 93 :: q)) in Hpre.
      cbn [app] in Hpre. rewrite <- Hrest in Hpre. congruence.
Qed.

Lemma split_citations_parts (fuel : nat) (s : jsstring) :
  (length s <= fuel)%nat ->
  Forall well_formed_part (ChatPanel.split_citations fuel s).
Proof.
  revert s. induction fuel as [| fuel IH]; intros s Hlen.
  - destruct s; [| cbn [length] in Hlen; lia].
    repeat constructor.
  - cbn [ChatPanel.split_citations].
    destruct (ChatPanel.find_citation s) as [[[pre address] post] |] eqn:Hfind.
    + pose proof (find_citation_leftmost _ _ _ _ Hfind) as Hpre.
      apply find_citation_sound in Hfind as (Hs & Hne & Hin).
      constructor; [exact Hpre |]. constructor; [split; assumption |].
      apply IH. rewrite Hs in Hlen. rewrite !length_app in Hlen.
      cbn [length] in Hlen. lia.
    + now repeat constructor.
Qed.

(** X18: [renderMessageContent] cuts a message into plain parts and
    citations. No plain part holds a citation [[Cell: address]] (so every
    citation of the message is clickable), and the address of every
    citation is not empty and holds no closing bracket. *)
Theorem renderMessageContent_parts (content : jsstring) :
  Forall well_formed_part (ChatPanel.renderMessageContent content).
Proof. apply split_citations_parts. apply Nat.le_refl. Qed.

(** X19: the parts that [renderMessageContent] shows, put together in their
    order, are the message: rendering adds and drops no text. *)
Theorem renderMessageContent_shows_everything (content : jsstring) :
  concat (map ChatPanel.shown (ChatPanel.renderMessageContent content)) = content.
Proof.
  unfold ChatPanel.renderMessageContent.
  generalize (length content) as fuel. intros fuel. revert content.
  induction fuel as [| fuel IH]; intros content;
    cbn [ChatPanel.split_citations].
  - cbn [map concat ChatPanel.shown]. apply app_nil_r.
  - destruct (ChatPanel.find_citation content) as [[[pre address] post] |] eqn:Hfind.
    + cbn [map concat ChatPanel.shown]. rewrite IH.
      apply find_citation_sound in Hfind as (-> & _).
      now rewrite <- !app_assoc.
    + cbn [map concat ChatPanel.shown]. apply app_nil_r.
Qed.

(** X20: a click on a citation never throws, whatever the host rejects.
    Either the four requests (active sheet, range of the address, selection,
    synchronization) all went through, or the requests stop at the first
    one that was rejected and one error is written to the console. *)
Theorem handleCitationClick_never_throws (rejects : Host.oracle)
  (address : jsstring) (log : list Host.event) :
  fst (ChatPanel.handleCitationClick rejects address log) = JS.Ok tt
  /\ (snd (ChatPanel.handleCitationClick rejects address log)
      = log ++ citation_requests address
      \/ exists k,
           (1 <= k <= 4)%nat
           /\ snd (ChatPanel.handleCitationClick rejects address log)
              = log ++ firstn k (citation_requests address)
                ++ [Host.Console (Str.lit "error")
                      (Str.lit "Failed to navigate to citation")]).
Proof.
  unfold ChatPanel.handleCitationClick, Eff.try_catch, mbind, eff_bind, Eff.bind,
    Host.request, Host.console, citation_requests.
  destruct (rejects log _) eqn:H1; cbn [fst snd].
  { split; [reflexivity |]. right. exists 1%nat. split; [lia |].
    cbn [firstn]. now rewrite <- !app_assoc. }
  destruct (rejects (log ++ [_]) _) eqn:H2; cbn [fst snd].
  { split; [reflexivity |]. right. exists 2%nat. split; [lia |].
    cbn [firstn]. now rewrite <- !app_assoc. }
  destruct (rejects ((log ++ [_]) ++ [_]) (Host.Call _ [])) eqn:H3; cbn [fst snd].
  { split; [reflexivity |]. right. exists 3%nat. split; [lia |].
    cbn [firstn]. now rewrite <- !app_assoc. }
  destruct (rejects (((log ++ [_]) ++ [_]) ++ [_]) Host.Sync) eqn:H4; cbn [fst snd].
  { split; [reflexivity |]. right. exists 4%nat. split; [lia |].
    cbn [firstn]. now rewrite <- !app_assoc. }
  split; [reflexivity |]. left. now rewrite <- !app_assoc.
Qed.

Lemma malformed_block_is_stripped_witness :
  Fence.capture text_with_malformed_block = Some malformed_body
  /\ Json.parse malformed_body = None
  /\ ChatInterfaceText.sendMessage (JS.VStr text_with_malformed_block)
     = (JS.Ok (JS.VStr (shown_or text_with_malformed_block
                          (Str.trim (Fence.remove text_with_malformed_block)))),
        [JS.VArr []]).
Proof.
  assert (H1 : Fence.capture text_with_malformed_block = Some malformed_body)
    by (vm_compute; reflexivity).
  assert (H2 : Json.parse malformed_body = None) by (vm_compute; reflexivity).
  split; [exact H1 |]. split; [exact H2 |].
  exact (malformed_block_is_stripped text_with_malformed_block 123
           (tl malformed_body) H1 H2).
Defined.

Lemma capture_remove_witness :
  Fence.capture text_with_block = Some block_body
  /\ exists pre ws post,
       text_with_block
       = pre ++ Fence.opener ++ ws ++ block_body ++ Fence.fence ++ post
       /\ Forall (fun c => Str.is_space c = true) ws
       /\ Fence.remove text_with_block = pre ++ post.
Proof.
  assert (H : Fence.capture text_with_block = Some block_body)
    by (vm_compute; reflexivity).
  split; [exact H |].
  exact (capture_remove text_with_block block_body H).
Defined.

(** ** The workbook context of the tool-calling chat *)

Lemma fold_left_append {A} (line : A -> jsstring) (l : list A) (context : jsstring) :
  fold_left (fun context x => context ++ line x) l context
  = context ++ concat (map line l).
Proof.
  revert context. induction l as [| x l IH]; intros context; cbn [fold_left map concat].
  - now rewrite app_nil_r.
  - now rewrite IH, <- app_assoc.
Qed.

Lemma includes_middle (p before after : jsstring) :
  Str.includes p (before ++ p ++ after) = true.
Proof.
  unfold Str.includes.
  induction before as [| c before IH].
  - cbn [app]. pose proof (startsWith_prefix p after) as Hstart.
    destruct (p ++ after); cbn [Str.splitAt]; now rewrite Hstart.
  - cbn [app Str.splitAt].
    destruct (Str.startsWith p (c :: before ++ p ++ after)); [reflexivity |].
    destruct (Str.splitAt p (before ++ p ++ after)) as [[pre post] |];
      [reflexivity | discriminate].
Qed.

Lemma includes_concat (p : jsstring) (pre post : jsstring) (lines : list jsstring)
  (line : jsstring) :
  In line lines -> Str.includes p line = true ->
  Str.includes p (pre ++ concat lines ++ post) = true.
Proof.
  intros Hin Hp. apply in_split in Hin as (l1 & l2 & ->).
  unfold Str.includes in Hp.
  destruct (Str.splitAt p line) as [[a b] |] eqn:Hsplit; [| discriminate].
  apply splitAt_sound in Hsplit as ->.
  rewrite concat_app. cbn [concat].
  replace (pre ++ (concat l1 ++ (a ++ p ++ b) ++ concat l2) ++ post)
    with ((pre ++ concat l1 ++ a) ++ p ++ (b ++ concat l2 ++ post))
    by (now rewrite <- !app_assoc).
  apply includes_middle.
Qed.

Lemma section_nonempty (title : jsstring) (lines : list jsstring) (line : jsstring) :
  In line lines -> section title lines = [10] ++ title ++ [10] ++ concat lines.
Proof. destruct lines; [contradiction | reflexivity]. Qed.

Lemma buildContextString_sections (metadata : ContextBuilder.WorkbookMetadata)
  (activeSheetData : option jsstring) :
  ContextBuilder.buildContextString metadata activeSheetData
  = (Str.lit "WORKBOOK CONTEXT:" ++ [10] ++ Str.lit "Active Sheet: "
     ++ ContextBuilder.activeSheet metadata ++ [10; 10] ++ Str.lit "Sheets:" ++ [10])
    ++ concat (map sheetLine (ContextBuilder.sheets metadata))
    ++ section (Str.lit "Tables:")
         (map tableLine (ContextBuilder.tables metadata))
    ++ section (Str.lit "Named Ranges:")
         (map rangeLine (ContextBuilder.namedRanges metadata))
    ++ match activeSheetData with
       | Some (c :: data) => [10] ++ Str.lit "ACTIVE SHEET DATA:" ++ [10] ++ c :: data
       | _ => []
       end.
Proof.
  unfold ContextBuilder.buildContextString, ContextBuilder.newline.
  rewrite (fold_left_append sheetLine).
  destruct (ContextBuilder.tables metadata) as [| t tables];
    destruct (ContextBuilder.namedRanges metadata) as [| n ranges];
    destruct activeSheetData as [[| c data] |];
    rewrite ?(fold_left_append tableLine), ?(fold_left_append rangeLine);
    unfold section; cbn [map]; rewrite <- ?app_assoc, ?app_nil_r; reflexivity.
Qed.

(** X23: the context that [buildContextString] writes mentions the active
    sheet and every sheet, every table and every named range of the
    metadata by name. *)
Theorem buildContextString_mentions_every_name
  (metadata : ContextBuilder.WorkbookMetadata) (activeSheetData : option jsstring)
  (name : jsstring) :
  In name (names_of metadata) ->
  Str.includes name (ContextBuilder.buildContextString metadata activeSheetData)
  = true.
Proof.
  intros Hname. rewrite buildContextString_sections.
  destruct Hname as [<- | Hname].
  { rewrite <- !app_assoc.
    apply (includes_middle _ (Str.lit "WORKBOOK CONTEXT:" ++ [10]
                               ++ Str.lit "Active Sheet: ")). }
  apply in_app_or in Hname as [Hsheet | Hname].
  { apply in_map_iff in Hsheet as (s & <- & Hs).
    apply (includes_concat _ _ _ _ (sheetLine s)); [now apply in_map |].
    apply (includes_middle _ (Str.lit "- ")). }
  apply in_app_or in Hname as [Htable | Hrange].
  - apply in_map_iff in Htable as (t & <- & Ht).
    apply (in_map tableLine) in Ht.
    rewrite (section_nonempty _ _ _ Ht).
    match goal with
    | |- Str.includes _ (?head ++ ?sheets ++ (?nl ++ ?title ++ ?nl' ++ concat ?lines)
                         ++ ?rest) = true =>
        replace (head ++ sheets ++ (nl ++ title ++ nl' ++ concat lines) ++ rest)
          with ((head ++ sheets ++ nl ++ title ++ nl') ++ concat lines ++ rest)
          by (now rewrite <- !app_assoc)
    end.
    apply (includes_concat _ _ _ _ (tableLine t) Ht).
    apply (includes_middle _ (Str.lit "- ")).
  - apply in_map_iff in Hrange as (n & <- & Hn).
    apply (in_map rangeLine) in Hn.
    rewrite (section_nonempty (Str.lit "Named Ranges:") _ _ Hn).
    match goal with
    | |- Str.includes _ (?head ++ ?sheets ++ ?tables
                         ++ (?nl ++ ?title ++ ?nl' ++ concat ?lines) ++ ?rest) = true =>
        replace (head ++ sheets ++ tables ++ (nl ++ title ++ nl' ++ concat lines) ++ rest)
          with ((head ++ sheets ++ tables ++ nl ++ title ++ nl') ++ concat lines ++ rest)
          by (now rewrite <- !app_assoc)
    end.
    apply (includes_concat _ _ _ _ (rangeLine n) Hn).
    apply (includes_middle _ (Str.lit "- ")).
Qed.

Lemma buildContextString_mentions_every_name_witness :
  In (Str.lit "Orders") (names_of sales_workbook)
  /\ Str.includes (Str.lit "Orders")
       (ContextBuilder.buildContextString sales_workbook None) = true.
Proof.
  assert (H : In (Str.lit "Orders") (names_of sales_workbook))
    by (vm_compute; tauto).
  split; [exact H |].
  exact (buildContextString_mentions_every_name sales_workbook None _ H).
Defined.

(** X24: [clearChat] empties the conversation and the pending batch and
    forgets the saved conversation; the key, the provider and the model stay
    as configured. *)
Theorem clearChat_forgets_the_conversation (st : ChatPanel.State)
  (store : StorageService.storage) :
  ChatPanel.messages (fst (ChatPanel.clearChat st store)) = []
  /\ ChatPanel.pendingActions (fst (ChatPanel.clearChat st store)) = []
  /\ StorageService.getMessages (snd (ChatPanel.clearChat st store)) = JS.VArr []
  /\ StorageService.getSettings (snd (ChatPanel.clearChat st store))
     = StorageService.getSettings store
  /\ StorageService.hasApiKey (snd (ChatPanel.clearChat st store))
     = StorageService.hasApiKey store.
Proof.
  destruct keys_distinct as (_ & _ & Hkg & _ & Hpg & Hmg).
  unfold ChatPanel.clearChat, StorageService.clearMessages. cbn [fst snd
    ChatPanel.messages ChatPanel.pendingActions].
  split; [reflexivity |]. split; [reflexivity |]. split.
  { unfold StorageService.getMessages. now rewrite getItem_removeItem. }
  unfold StorageService.getSettings, StorageService.getApiKey,
    StorageService.getProvider, StorageService.getModel, StorageService.hasApiKey.
  now rewrite !getItem_removeItem_other by congruence.
Qed.

Lemma no_capture_no_removal_witness :
  Fence.capture (Str.lit "Column B holds ```excel-json and no closing fence")
  = None
  /\ Fence.remove (Str.lit "Column B holds ```excel-json and no closing fence")
     = Str.lit "Column B holds ```excel-json and no closing fence".
Proof.
  assert (H : Fence.capture
                (Str.lit "Column B holds ```excel-json and no closing fence")
              = None) by (vm_compute; reflexivity).
  split; [exact H |].
  exact (no_capture_no_removal _ H).
Defined.

(** ** The saved conversation: what is stored is what is read *)

Lemma value_ind_nested (P : JS.value -> Prop) :
  P JS.VUndefined -> P JS.VNull -> (forall b, P (JS.VBool b)) ->
  (forall m e, P (JS.VNum m e)) -> (forall s, P (JS.VStr s)) ->
  (forall items, Forall P items -> P (JS.VArr items)) ->
  (forall fields, Forall (fun kv => P (snd kv)) fields -> P (JS.VObj fields)) ->
  (forall name, P (JS.VBuiltin name)) ->
  forall v, P v.
Proof.
  intros Hu Hn Hb Hnum Hs Ha Ho Hf.
  fix IH 1. intros [| | b | m e | s | items | fields | name].
  - exact Hu.
  - exact Hn.
  - apply Hb.
  - apply Hnum.
  - apply Hs.
  - apply Ha. induction items as [| x items IHitems]; constructor;
      [apply IH | exact IHitems].
  - apply Ho. induction fields as [| [k x] fields IHfields]; constructor;
      [apply IH | exact IHfields].
  - apply Hf.
Qed.

Lemma hexval_hexdigit (x : N) : x < 16 -> Json.hexval (Json.hexdigit x) = Some x.
Proof.
  intros Hx.
  pose proof (N_forall_below 16
    (fun x => match Json.hexval (Json.hexdigit x) with
              | Some y => y =? x
              | None => false
              end) eq_refl x Hx) as Hall.
  cbv beta in Hall.
  destruct (Json.hexval (Json.hexdigit x)) as [y |]; [| discriminate].
  apply N.eqb_eq in Hall. now subst.
Qed.

Lemma hex4_escape (c : N) :
  c < 65536 ->
  Json.hex4 (Json.hexdigit (c / 4096)) (Json.hexdigit (c / 256 mod 16))
    (Json.hexdigit (c / 16 mod 16)) (Json.hexdigit (c mod 16)) = Some c.
Proof.
  intros Hc. unfold Json.hex4.
  rewrite !hexval_hexdigit;
    [| apply N.mod_lt; discriminate | apply N.mod_lt; discriminate
     | apply N.mod_lt; discriminate
     | apply N.Div0.div_lt_upper_bound; exact Hc].
  f_equal. zify. Z.to_euclidean_division_equations. lia.
Qed.

Lemma parse_string_plain (c : N) (acc r : jsstring) :
  c <> 34 -> c <> 92 -> 32 <= c ->
  Json.parse_string acc (c :: r) = Json.parse_string (c :: acc) r.
Proof.
  intros H34 H92 H32.
  assert (Hlt : (c <? 32) = false) by (apply N.ltb_ge; exact H32).
  destruct c as [| p]; [lia |].
  cbn [Json.parse_string].
  do 7 (try (destruct p as [p | p |]; try (now rewrite Hlt); try congruence)).
Qed.

Lemma parse_string_escape (c : N) (acc r : jsstring) :
  c < 65536 ->
  Json.parse_string acc (Json.escape_unit c ++ r)
  = Json.parse_string (c :: acc) r.
Proof.
  intros Hc. unfold Json.escape_unit.
  change (Str.lit "\u") with [92; 117]. cbn [app Json.parse_string].
  now rewrite (hex4_escape c Hc).
Qed.

Lemma parse_string_quote_body (n : nat) (s : jsstring) :
  (length s <= n)%nat -> code_units s ->
  forall acc rest,
    Json.parse_string acc (Json.quote_body s ++ 34 :: rest)
    = Some (rev acc ++ s, rest).
Proof.
  revert s. induction n as [| n IH]; intros s Hlen Hs acc rest.
  { destruct s; [| cbn [length] in Hlen; lia].
    cbn [Json.quote_body app Json.parse_string]. now rewrite app_nil_r. }
  destruct s as [| c r].
  { cbn [Json.quote_body app Json.parse_string]. now rewrite app_nil_r. }
  cbn [length] in Hlen. apply Forall_cons_1 in Hs as [Hc Hr].
  assert (Hnext : forall acc',
            rev acc' = rev acc ++ [c] ->
            Json.parse_string acc' (Json.quote_body r ++ 34 :: rest)
            = Some (rev acc ++ c :: r, rest)).
  { intros acc' Hacc. rewrite (IH r) by (lia || assumption).
    rewrite Hacc, <- app_assoc. reflexivity. }
  cbn [Json.quote_body].
  destruct (N.eqb_spec c 34) as [-> | H34].
  { cbn [app Json.parse_string]. now apply Hnext. }
  destruct (N.eqb_spec c 92) as [-> | H92].
  { change (Str.lit "\\") with [92; 92]. cbn [app Json.parse_string].
    now apply Hnext. }
  destruct (N.eqb_spec c 8) as [-> | H8].
  { change (Str.lit "\b") with [92; 98]. cbn [app Json.parse_string].
    now apply Hnext. }
  destruct (N.eqb_spec c 12) as [-> | H12].
  { change (Str.lit "\f") with [92; 102]. cbn [app Json.parse_string].
    now apply Hnext. }
  destruct (N.eqb_spec c 10) as [-> | H10].
  { change (Str.lit "\n") with [92; 110]. cbn [app Json.parse_string].
    now apply Hnext. }
  destruct (N.eqb_spec c 13) as [-> | H13].
  { change (Str.lit "\r") with [92; 114]. cbn [app Json.parse_string].
    now apply Hnext. }
  destruct (N.eqb_spec c 9) as [-> | H9].
  { change (Str.lit "\t") with [92; 116]. cbn [app Json.parse_string].
    now apply Hnext. }
  destruct (N.ltb_spec c 32) as [Hlow | H32].
  { rewrite <- app_assoc, (parse_string_escape c _ _ Hc). now apply Hnext. }
  destruct (Json.is_high c) eqn:Hhigh.
  { destruct r as [| d r'].
    - rewrite (parse_string_escape c _ _ Hc).
      cbn [Json.parse_string]. cbn [rev]. reflexivity.
    - destruct (Json.is_low d) eqn:Hd.
      + cbn [app]. rewrite (parse_string_plain c) by assumption.
        unfold Json.is_low in Hd. apply andb_true_iff in Hd as [Hd1 Hd2].
        apply N.leb_le in Hd1.
        rewrite (parse_string_plain d) by lia.
        apply Forall_cons_1 in Hr as [_ Hr']. cbn [length] in Hlen.
        rewrite (IH r') by (lia || assumption).
        cbn [rev]. now rewrite <- !app_assoc.
      + rewrite <- app_assoc, (parse_string_escape c _ _ Hc). now apply Hnext. }
  destruct (Json.is_low c) eqn:Hlowc.
  { rewrite <- app_assoc, (parse_string_escape c _ _ Hc). now apply Hnext. }
  cbn [app]. rewrite (parse_string_plain c) by assumption. now apply Hnext.
Qed.

Lemma parse_string_quote (s rest : jsstring) :
  code_units s ->
  exists t, Json.quote s = 34 :: t
            /\ Json.parse_string [] (t ++ rest) = Some (s, rest).
Proof.
  intros Hs. exists (Json.quote_body s ++ [34]). split; [reflexivity |].
  rewrite <- app_assoc. cbn [app].
  now rewrite (parse_string_quote_body (length s) s (Nat.le_refl _) Hs).
Qed.

(** The equations of the parser, one for each way a text can start. *)
Lemma parse_value_string (fuel : nat) (r : jsstring) :
  Json.parse_value (S fuel) (34 :: r)
  = match Json.parse_string [] r with
    | Some (t, r') => Some (JS.VStr t, r')
    | None => None
    end.
Proof. reflexivity. Qed.

Lemma parse_value_array_empty (fuel : nat) (r : jsstring) :
  Json.parse_value (S fuel) (91 :: 93 :: r) = Some (JS.VArr [], r).
Proof. reflexivity. Qed.

Lemma parse_value_array (fuel : nat) (c : N) (r : jsstring) :
  opening c ->
  Json.parse_value (S fuel) (91 :: c :: r) = Json.parse_elements fuel [] (c :: r).
Proof. intros [-> | [-> | [-> | [-> | [-> | ->]]]]]; reflexivity. Qed.

Lemma parse_value_object_empty (fuel : nat) (r : jsstring) :
  Json.parse_value (S fuel) (123 :: 125 :: r) = Some (JS.VObj [], r).
Proof. reflexivity. Qed.

Lemma parse_value_object (fuel : nat) (r : jsstring) :
  Json.parse_value (S fuel) (123 :: 34 :: r) = Json.parse_members fuel [] (34 :: r).
Proof. reflexivity. Qed.

Lemma parse_elements_eq (fuel : nat) (acc : list JS.value) (s : jsstring) :
  Json.parse_elements (S fuel) acc s
  = match Json.parse_value fuel s with
    | Some (v, r) =>
        match Json.skip_ws r with
        | 44 :: r' => Json.parse_elements fuel (acc ++ [v]) r'
        | 93 :: r' => Some (JS.VArr (acc ++ [v]), r')
        | _ => None
        end
    | None => None
    end.
Proof. reflexivity. Qed.

Lemma parse_members_eq (fuel : nat) (acc : list (jsstring * JS.value))
  (r : jsstring) :
  Json.parse_members (S fuel) acc (34 :: r)
  = match Json.parse_string [] r with
    | Some (k, r1) =>
        match Json.skip_ws r1 with
        | 58 :: r2 =>
            match Json.parse_value fuel r2 with
            | Some (v, r3) =>
                match Json.skip_ws r3 with
                | 44 :: r4 => Json.parse_members fuel (Json.define k v acc) r4
                | 125 :: r4 => Some (JS.VObj (Json.define k v acc), r4)
                | _ => None
                end
            | None => None
            end
        | _ => None
        end
    | None => None
    end.
Proof. reflexivity. Qed.

Lemma skip_ws_opening (c : N) (r : jsstring) :
  opening c -> Json.skip_ws (c :: r) = c :: r.
Proof. intros [-> | [-> | [-> | [-> | [-> | ->]]]]]; reflexivity. Qed.

Lemma define_fresh (k : jsstring) (v : JS.value) (acc : list (jsstring * JS.value)) :
  ~ In k (map fst acc) -> Json.define k v acc = acc ++ [(k, v)].
Proof.
  induction acc as [| [k' v'] acc IH]; intros Hk; [reflexivity |].
  cbn [Json.define app]. cbn [map fst In] in Hk.
  unfold Str.eqb. rewrite bool_decide_eq_false_2 by (intros ->; tauto).
  rewrite IH by tauto. reflexivity.
Qed.

Lemma join_cons2 (sep p q : jsstring) (rest : list jsstring) :
  Str.join sep (p :: q :: rest) = p ++ sep ++ Str.join sep (q :: rest).
Proof. reflexivity. Qed.

Lemma stringify_text_plain (v : JS.value) :
  plain v ->
  Json.stringify v = Some (Json.stringify_text v)
  /\ exists c t, Json.stringify_text v = c :: t /\ opening c.
Proof.
  unfold opening.
  intros [| [|] | s Hs | items Hitems | fields Hnodup Hfields];
    (split; [reflexivity |]); do 2 eexists; (split; [reflexivity |]); tauto.
Qed.

Lemma stringify_text_array (items : list JS.value) :
  Forall plain items ->
  Json.stringify_text (JS.VArr items)
  = 91 :: Str.join [44] (map Json.stringify_text items) ++ [93].
Proof.
  intros Hitems. unfold Json.stringify_text at 1. cbn [Json.stringify].
  change (Str.lit "[") with [91]. change (Str.lit "]") with [93].
  change (Str.lit ",") with [44]. cbn [app]. do 3 f_equal.
  apply map_ext_in. intros x Hx.
  rewrite List.Forall_forall in Hitems.
  destruct (stringify_text_plain x (Hitems x Hx)) as [-> _]. reflexivity.
Qed.

Lemma stringify_text_object (fields : list (jsstring * JS.value)) :
  Forall (fun kv => code_units (fst kv) /\ plain (snd kv)) fields ->
  Json.stringify_text (JS.VObj fields)
  = 123 :: Str.join [44] (map member_text fields) ++ [125].
Proof.
  intros Hfields. unfold Json.stringify_text at 1. cbn [Json.stringify].
  change (Str.lit "{") with [123]. change (Str.lit "}") with [125].
  change (Str.lit ",") with [44]. change (Str.lit ":") with [58].
  cbn [app]. do 3 f_equal.
  induction Hfields as [| [k x] fields [_ Hx] _ IH]; [reflexivity |].
  cbn [flat_map map]. rewrite IH.
  destruct (stringify_text_plain x Hx) as [Htext _]. cbn [snd fst].
  rewrite Htext. reflexivity.
Qed.

Lemma parse_elements_stringify (items : list JS.value) :
  Forall (fun v => forall fuel rest,
            (length (Json.stringify_text v) <= fuel)%nat ->
            Json.parse_value fuel (Json.stringify_text v ++ rest) = Some (v, rest))
    items ->
  items <> [] ->
  forall fuel acc rest,
    (length (Str.join [44%N] (map Json.stringify_text items)) + 1 <= fuel)%nat ->
    Json.parse_elements fuel acc
      (Str.join [44] (map Json.stringify_text items) ++ 93 :: rest)
    = Some (JS.VArr (acc ++ items), rest).
Proof.
  induction 1 as [| x items Hx _ IH]; [congruence |]. intros _ fuel acc rest Hfuel.
  destruct fuel as [| fuel]; [lia |]. rewrite parse_elements_eq.
  destruct items as [| y items].
  - cbn [map Str.join] in *. rewrite Hx by lia. reflexivity.
  - cbn [map] in *. rewrite join_cons2 in *. rewrite !length_app in Hfuel.
    rewrite <- !app_assoc, Hx by lia. cbn [app Json.skip_ws Json.is_ws].
    change (Json.is_ws 44) with false.
    cbv iota. cbn [length] in Hfuel.
    rewrite IH by (congruence || lia). now rewrite <- app_assoc.
Qed.

Lemma parse_members_stringify (fields : list (jsstring * JS.value)) :
  Forall (fun kv => forall fuel rest,
            (length (Json.stringify_text (snd kv)) <= fuel)%nat ->
            Json.parse_value fuel (Json.stringify_text (snd kv) ++ rest)
            = Some (snd kv, rest))
    fields ->
  Forall (fun kv => code_units (fst kv)) fields ->
  fields <> [] ->
  forall fuel acc rest,
    List.NoDup (map fst (acc ++ fields)) ->
    (length (Str.join [44%N] (map member_text fields)) + 1 <= fuel)%nat ->
    Json.parse_members fuel acc
      (Str.join [44] (map member_text fields) ++ 125 :: rest)
    = Some (JS.VObj (acc ++ fields), rest).
Proof.
  induction 1 as [| [k x] fields Hx _ IH]; [congruence |].
  intros Hkeys _ fuel acc rest Hnodup Hfuel.
  apply Forall_cons_1 in Hkeys as [Hk Hkeys]. cbn [fst snd] in Hx, Hk.
  destruct fuel as [| fuel]; [lia |].
  assert (Hfresh : ~ In k (map fst acc)).
  { rewrite map_app in Hnodup. cbn [map fst] in Hnodup.
    apply NoDup_remove_2 in Hnodup. intros Hin. apply Hnodup.
    apply in_or_app. now left. }
  assert (Hmember : forall more,
            member_text (k, x) ++ more
            = 34 :: Json.quote_body k ++ 34 :: 58 :: Json.stringify_text x ++ more).
  { intros more. unfold member_text, Json.quote. cbn [fst snd app].
    now rewrite <- !app_assoc. }
  assert (Hlen : (length (Json.stringify_text x) < length (member_text (k, x)))%nat).
  { unfold member_text, Json.quote. cbn [fst snd length].
    rewrite !length_app. cbn [length]. lia. }
  destruct fields as [| kv fields].
  - cbn [map Str.join] in *. rewrite Hmember, parse_members_eq.
    rewrite (parse_string_quote_body (length k) k (Nat.le_refl _) Hk).
    cbn [rev app Json.skip_ws Json.is_ws].
    change (Json.is_ws 58) with false.
    cbv iota. rewrite Hx by lia. cbn [Json.skip_ws Json.is_ws].
    change (Json.is_ws 125) with false.
    cbv iota. now rewrite define_fresh.
  - cbn [map] in *. rewrite join_cons2 in *. rewrite !length_app in Hfuel.
    cbn [length] in Hfuel.
    rewrite <- !app_assoc, Hmember, parse_members_eq.
    rewrite (parse_string_quote_body (length k) k (Nat.le_refl _) Hk).
    cbn [rev app Json.skip_ws Json.is_ws].
    change (Json.is_ws 58) with false.
    cbv iota. rewrite Hx by lia. cbn [Json.skip_ws Json.is_ws].
    change (Json.is_ws 44) with false.
    cbv iota. rewrite (define_fresh _ _ _ Hfresh).
    rewrite IH; [now rewrite <- app_assoc | exact Hkeys | congruence | | lia].
    now rewrite <- app_assoc.
Qed.

Lemma join_head (sep p : jsstring) (parts : list jsstring) (c : N) (t : jsstring) :
  p = c :: t -> exists t', Str.join sep (p :: parts) = c :: t'.
Proof.
  intros ->. destruct parts as [| q parts]; [now exists t |].
  rewrite join_cons2. now eexists.
Qed.

Lemma parse_value_stringify (v : JS.value) :
  plain v ->
  forall fuel rest,
    (length (Json.stringify_text v) <= fuel)%nat ->
    Json.parse_value fuel (Json.stringify_text v ++ rest) = Some (v, rest).
Proof.
  induction v as [| | b | m e | s | items IH | fields IH | name]
    using value_ind_nested; intros Hplain fuel rest Hfuel;
    inversion Hplain as [| b' | s' Hs | items' Hitems | fields' Hnodup Hfields];
    subst.
  - destruct fuel as [| fuel]; [vm_compute in Hfuel; lia | reflexivity].
  - destruct fuel as [| fuel]; [destruct b; vm_compute in Hfuel; lia |].
    destruct b; reflexivity.
  - destruct fuel as [| fuel];
      [unfold Json.stringify_text in Hfuel; cbn [Json.stringify Json.quote length]
         in Hfuel; lia |].
    destruct (parse_string_quote s rest Hs) as (t & Hquote & Hparse).
    change (Json.stringify_text (JS.VStr s)) with (Json.quote s).
    rewrite Hquote. cbn [app]. rewrite parse_value_string, Hparse. reflexivity.
  - rewrite (stringify_text_array _ Hitems) in *.
    destruct fuel as [| fuel]; [cbn [length] in Hfuel; lia |].
    cbn [length] in Hfuel. rewrite length_app in Hfuel. cbn [length] in Hfuel.
    destruct items as [| x items].
    { cbn [map Str.join app]. apply parse_value_array_empty. }
    assert (Hall : Forall (fun v => forall fuel rest,
                       (length (Json.stringify_text v) <= fuel)%nat ->
                       Json.parse_value fuel (Json.stringify_text v ++ rest)
                       = Some (v, rest)) (x :: items)).
    { rewrite List.Forall_forall in IH, Hitems |- *.
      intros y Hy. now apply IH, Hitems. }
    pose proof (parse_elements_stringify _ Hall ltac:(congruence) fuel [] rest
                  ltac:(lia)) as Helements.
    cbn [app] in Helements |- *. rewrite <- app_assoc. cbn [app].
    rewrite <- Helements.
    apply Forall_cons_1 in Hitems as [Hx _].
    destruct (stringify_text_plain x Hx) as (_ & c & t & Htext & Hc).
    cbn [map].
    destruct (join_head [44] _ (map Json.stringify_text items) c t Htext)
      as (t' & ->).
    cbn [app]. now apply parse_value_array.
  - rewrite (stringify_text_object _ Hfields) in *.
    destruct fuel as [| fuel]; [cbn [length] in Hfuel; lia |].
    cbn [length] in Hfuel. rewrite length_app in Hfuel. cbn [length] in Hfuel.
    destruct fields as [| [k x] fields].
    { cbn [map Str.join app]. apply parse_value_object_empty. }
    assert (Hall : Forall (fun kv => forall fuel rest,
                       (length (Json.stringify_text (snd kv)) <= fuel)%nat ->
                       Json.parse_value fuel (Json.stringify_text (snd kv) ++ rest)
                       = Some (snd kv, rest)) ((k, x) :: fields)).
    { rewrite List.Forall_forall in IH, Hfields |- *.
      intros kv Hkv. now apply IH, Hfields. }
    assert (Hkeys : Forall (fun kv => code_units (fst kv)) ((k, x) :: fields)).
    { eapply List.Forall_impl; [| exact Hfields]. now intros kv [Hk _]. }
    pose proof (parse_members_stringify _ Hall Hkeys ltac:(congruence) fuel []
                  rest Hnodup ltac:(lia)) as Hmembers.
    cbn [app] in Hmembers |- *. rewrite <- app_assoc. cbn [app].
    rewrite <- Hmembers. cbn [map].
    destruct (join_head [44] (member_text (k, x)) (map member_text fields) 34
                (Json.quote_body k ++ [34] ++ 58 :: Json.stringify_text x))
      as (t' & ->).
    { unfold member_text, Json.quote. cbn [fst snd app].
      now rewrite <- !app_assoc. }
    cbn [app]. apply parse_value_object.
Qed.

Lemma parse_stringify (v : JS.value) :
  plain v -> Json.parse (Json.stringify_text v) = Some v.
Proof.
  intros Hplain. unfold Json.parse.
  pose proof (parse_value_stringify v Hplain
                (2 * length (Json.stringify_text v) + 2) [] ltac:(lia)) as Hparse.
  rewrite app_nil_r in Hparse. now rewrite Hparse.
Qed.


Lemma code_units_checked (s : jsstring) :
  forallb (fun c => c <? 65536) s = true -> code_units s.
Proof.
  intros H. apply List.Forall_forall. intros c Hc.
  rewrite forallb_forall in H. now apply N.ltb_lt, H.
Qed.

Lemma distinct_sound (keys : list jsstring) :
  distinct keys = true -> List.NoDup keys.
Proof.
  induction keys as [| k keys IH]; intros H; constructor;
    cbn [distinct] in H; apply andb_true_iff in H as [Hk Hrest].
  - intros Hin. apply negb_true_iff in Hk.
    assert (Hex : existsb (Str.eqb k) keys = true).
    { apply existsb_exists. exists k. split; [exact Hin |].
      unfold Str.eqb. now apply bool_decide_eq_true_2. }
    congruence.
  - now apply IH.
Qed.

Lemma is_plain_sound (v : JS.value) : is_plain v = true -> plain v.
Proof.
  induction v as [| | b | m e | s | items IH | fields IH | name]
    using value_ind_nested; intros H; try discriminate H.
  - constructor.
  - constructor.
  - constructor. now apply code_units_checked.
  - constructor. cbn [is_plain] in H. rewrite forallb_forall in H.
    rewrite List.Forall_forall in IH |- *. intros x Hx. now apply IH, H.
  - cbn [is_plain] in H. apply andb_true_iff in H as [Hkeys Hfields].
    constructor; [now apply distinct_sound |].
    rewrite forallb_forall in Hfields.
    rewrite List.Forall_forall in IH |- *. intros kv Hkv.
    specialize (Hfields kv Hkv). apply andb_true_iff in Hfields as [Hk Hx].
    split; [now apply code_units_checked | now apply IH].
Qed.

Lemma Forall_slice_from {A} (P : A -> Prop) (start : Z) (l : list A) :
  Forall P l -> Forall P (JS.slice_from start l).
Proof.
  intros H. unfold JS.slice_from.
  rewrite <- (firstn_skipn (Z.to_nat
    (if (start <? 0)%Z then Z.max (Z.of_nat (length l) + start) 0
     else Z.min start (Z.of_nat (length l)))) l) in H.
  now apply Forall_app in H as [_ H].
Qed.

(** X26: a conversation of plain values (strings, booleans, [null], arrays
    and objects of such; the messages of the chat with their time as text)
    comes back from the storage as it was saved: [getMessages] after
    [saveMessages] returns the last 50 messages, each unchanged, whatever
    characters their texts hold. *)
Theorem getMessages_saveMessages (messages : list JS.value)
  (st : StorageService.storage) :
  Forall plain messages ->
  StorageService.getMessages (StorageService.saveMessages messages st)
  = JS.VArr (JS.slice_from (-50) messages).
Proof.
  intros Hplain.
  assert (Hkept : plain (JS.VArr (JS.slice_from (-50) messages))).
  { constructor. now apply Forall_slice_from. }
  unfold StorageService.getMessages, StorageService.saveMessages.
  rewrite getItem_setItem.
  pose proof (parse_stringify _ Hkept) as Hparse.
  destruct (stringify_text_plain _ Hkept) as (_ & c & t & Htext & _).
  rewrite Htext in *. now rewrite Hparse.
Qed.

Lemma getMessages_saveMessages_witness :
  Forall plain saved_conversation
  /\ StorageService.getMessages (StorageService.saveMessages saved_conversation ∅)
     = JS.VArr (JS.slice_from (-50) saved_conversation).
Proof.
  assert (H : Forall plain saved_conversation).
  { repeat (constructor; [apply is_plain_sound; vm_compute; reflexivity |]).
    constructor. }
  split; [exact H |].
  exact (getMessages_saveMessages saved_conversation ∅ H).
Defined.
